(** * RAG-Triage: the intake state machine, the rules engine and the
      fact-reconciliation layer, embedded from the TypeScript sources

    Sources embedded here:
    - [server/lib/chatStateMachine.ts]  (dialogue state machine)
    - [server/lib/rules.ts]             (rules engine, [evaluateTriage])
    - [server/lib/handoff.ts]           (fact extraction, red-flag evaluation,
                                         handoff category)
    - [server/routes.ts]                (the [/api/chat/message] turn and its
                                         RAG context)
    - [server/lib/rag.ts]               (retrieval, [retrieveRelevantChunks])

    Modelling conventions.
    - A JavaScript string is a [string] whose characters are its UTF-16 code
      units: the strings covered are those whose code units are all below
      256 (ASCII and Latin-1), one [ascii] per code unit, so that [length],
      [includes] and [startsWith] count and compare as the code does.  On
      these strings [trim] and [\s] (which take U+00A0 as white space),
      [toLowerCase] (which maps the upper-case letters of Latin-1 as well),
      [\d] and [\w] (ASCII only) are those of JavaScript.  [toUpperCase]
      leaves Latin-1 for some letters; the code applies it to band names
      only, and it is embedded for strings of ASCII characters.
    - A JavaScript number is an integer ([Z]); the state machine only ever
      stores results of [parseInt] and small counters.
    - A JavaScript object used as a dictionary ([ChatState], the fact record,
      the answers given to the rules engine) is a [gmap string Value]; a
      property that is absent and a property that holds [undefined] read the
      same everywhere in the embedded code and are both modelled by absence.
      The map holds the own properties: where the code reads or writes such
      an object by a key that comes from a collaborator (the keys of the
      extraction reply), the members inherited from [Object.prototype] and
      the [__proto__] setter are modelled ([jsGet], [jsSet]); the two tables
      indexed by the complaint are embedded for complaints that are no
      property name of [Object.prototype].
    - Fields are read at the types the interfaces declare ([complaint] is a
      string, [severity] and [age] are numbers); see [complaintLower] and
      [toNumber] for what a value of another type reads as.
    - The collaborators are inputs of the model: the outcome of the chat
      completion behind [generatePatientResponse], of the structured
      extraction behind [extractFactsFromMessages], of the generation call of
      [generateHandoff] and of [generateRAGQuestion] is an argument of the
      embedded function.  Asynchrony is not modelled: a session processes one
      turn at a time.
    - The calls to the [onDivergence] callback are returned as a list, in
      call order, next to the fact record. *)

From Stdlib Require Import ZArith String Ascii Bool Lia Sorted Permutation.
From stdpp Require Import base option list gmap strings pretty.

Local Open Scope Z_scope.
Local Open Scope string_scope.

(** ** JavaScript strings *)

Definition charCode (c : ascii) : N := N_of_ascii c.

Definition isUpper (c : ascii) : bool :=
  ((65 <=? charCode c) && (charCode c <=? 90))%N.

Definition isDigit (c : ascii) : bool :=
  ((48 <=? charCode c) && (charCode c <=? 57))%N.

(** [\w] of a regular expression: letters, digits and the underscore. *)
Definition isWordChar (c : ascii) : bool :=
  (isDigit c
   || ((65 <=? charCode c) && (charCode c <=? 90))
   || ((97 <=? charCode c) && (charCode c <=? 122))
   || (charCode c =? 95))%N.

(** White space removed by [trim] and matched by [\s]: TAB to CR, the space
    and, among the code units below 256, the no-break space U+00A0. *)
Definition isSpace (c : ascii) : bool :=
  (((9 <=? charCode c) && (charCode c <=? 13)) || (charCode c =? 32)
   || (charCode c =? 160))%N.

(** The upper-case letters of Latin-1 above ASCII: U+00C0 to U+00DE but the
    multiplication sign U+00D7. *)
Definition isUpperLatin1 (c : ascii) : bool :=
  ((192 <=? charCode c) && (charCode c <=? 222)
   && negb (charCode c =? 215))%N.

Definition lowerChar (c : ascii) : ascii :=
  if isUpper c || isUpperLatin1 c then ascii_of_N (charCode c + 32) else c.

(** Upper case of an ASCII character (other characters are left alone; see
    [isAscii]). *)
Definition upperChar (c : ascii) : ascii :=
  if ((97 <=? charCode c) && (charCode c <=? 122))%N
  then ascii_of_N (charCode c - 32) else c.

Fixpoint toLowerCase (s : string) : string :=
  match s with
  | EmptyString => EmptyString
  | String c r => String (lowerChar c) (toLowerCase r)
  end.

(** [s.toUpperCase()] for a string of ASCII characters. *)
Fixpoint toUpperCase (s : string) : string :=
  match s with
  | EmptyString => EmptyString
  | String c r => String (upperChar c) (toUpperCase r)
  end.

(** Whether every code unit of [s] is ASCII. *)
Definition isAscii (s : string) : bool :=
  forallb (fun c => (charCode c <? 128)%N) (list_ascii_of_string s).

Definition isEmpty (s : string) : bool :=
  match s with EmptyString => true | _ => false end.

Fixpoint trimStart (s : string) : string :=
  match s with
  | EmptyString => EmptyString
  | String c r => if isSpace c then trimStart r else s
  end.

Fixpoint trimEnd (s : string) : string :=
  match s with
  | EmptyString => EmptyString
  | String c r =>
      let r' := trimEnd r in
      if isSpace c && isEmpty r' then EmptyString else String c r'
  end.

Definition trim (s : string) : string := trimEnd (trimStart s).

Definition startsWith (s p : string) : bool := String.prefix p s.

(** [s.includes(sub)] *)
Fixpoint includes (s sub : string) : bool :=
  String.prefix sub s
  || match s with
     | EmptyString => false
     | String _ r => includes r sub
     end.

Definition strLength (s : string) : Z := Z.of_nat (String.length s).

Definition streq (a b : string) : bool := bool_decide (a = b).

(** The leading run of digits of [s]. *)
Fixpoint takeDigits (s : string) : string :=
  match s with
  | String c r => if isDigit c then String c (takeDigits r) else EmptyString
  | EmptyString => EmptyString
  end.

(** [input.match(/\d+/)]: the first maximal run of digits, when there is
    one. *)
Fixpoint matchDigits (s : string) : option string :=
  match s with
  | EmptyString => None
  | String c r => if isDigit c then Some (takeDigits s) else matchDigits r
  end.

(** What follows a maximal run of digits: the end, or a character that is
    not a digit. *)
Definition boundaryDigit (s : string) : bool :=
  match s with
  | EmptyString => true
  | String c _ => negb (isDigit c)
  end.

Definition digitVal (c : ascii) : Z := Z.of_N (charCode c - 48).

(** [parseInt] on a string of decimal digits. *)
Definition parseInt (s : string) : Z :=
  fold_left (fun acc c => 10 * acc + digitVal c) (list_ascii_of_string s) 0.

Definition nl : string := String (ascii_of_N 10) EmptyString.

(** ** JavaScript values *)

Inductive Value : Type :=
| VBool (b : bool)
| VNum (n : Z)
| VStr (s : string)
| VNull
| VObj (json : string).   (* an array or object, kept as its JSON text; a
                             built-in object or function, kept by name *)

#[global] Instance Value_eq_dec : EqDecision Value.
Proof. solve_decision. Defined.

(** Truthiness of a property read ([None] is [undefined]). *)
Definition truthy (v : option Value) : bool :=
  match v with
  | Some (VBool b) => b
  | Some (VNum n) => negb (n =? 0)%Z
  | Some (VStr s) => negb (isEmpty s)
  | Some VNull => false
  | Some (VObj _) => true
  | None => false
  end.

(** [v != null]: neither [null] nor [undefined]. *)
Definition notNullish (v : option Value) : bool :=
  match v with
  | None | Some VNull => false
  | Some _ => true
  end.

(** [a === b] on two property reads; two objects are never the same
    reference here, since they always come from two different parsers. *)
Definition strictEq (a b : option Value) : bool :=
  match a, b with
  | None, None => true
  | Some (VObj _), _ | _, Some (VObj _) => false
  | Some x, Some y => bool_decide (x = y)
  | _, _ => false
  end.

(** [ToNumber] of a property read; [None] is [NaN].  Strings and objects are
    outside what the embedded code ever compares as numbers (the declared type
    of every compared field is [number]); they read as [NaN]. *)
Definition toNumber (v : option Value) : option Z :=
  match v with
  | Some (VNum n) => Some n
  | Some (VBool b) => Some (if b then 1 else 0)
  | Some VNull => Some 0
  | Some (VStr _) | Some (VObj _) | None => None
  end.

(** [v >= k], [v > k], [v <= k] against a numeric literal. *)
Definition numGe (v : option Value) (k : Z) : bool :=
  match toNumber v with Some n => (k <=? n)%Z | None => false end.
Definition numGt (v : option Value) (k : Z) : bool :=
  match toNumber v with Some n => (k <? n)%Z | None => false end.
Definition numLe (v : option Value) (k : Z) : bool :=
  match toNumber v with Some n => (n <=? k)%Z | None => false end.

(** [String(v)], as used by a template literal. *)
Definition toStr (v : option Value) : string :=
  match v with
  | Some (VStr s) => s
  | Some (VNum n) => pretty n
  | Some (VBool true) => "true"
  | Some (VBool false) => "false"
  | Some VNull => "null"
  | Some (VObj _) => "[object Object]"
  | None => "undefined"
  end.

(** [a || b] on values. *)
Definition orElse (a : option Value) (b : Value) : Value :=
  match a with
  | Some v => if truthy a then v else b
  | None => b
  end.

(** [${v || alt}] where [alt] is a string literal. *)
Definition strOr (v : option Value) (alt : string) : string :=
  if truthy v then toStr v else alt.

(** ** Plain objects

    An object used as a dictionary is given by its own properties.  A plain
    object also inherits the members of [Object.prototype]: a read [obj[k]]
    sees them, [Object.keys] and spreading do not, and a write to
    [__proto__] runs the inherited setter. *)

(** The property names of [Object.prototype]. *)
Definition objectPrototypeNames : list string :=
  [ "constructor"; "__defineGetter__"; "__defineSetter__"; "hasOwnProperty";
    "__lookupGetter__"; "__lookupSetter__"; "isPrototypeOf";
    "propertyIsEnumerable"; "toString"; "valueOf"; "__proto__";
    "toLocaleString" ].

(** [obj[k]] on a plain object: the own property, or else the member
    inherited from [Object.prototype] (a function, or the prototype itself
    for [__proto__]), kept by name. *)
Definition jsGet (obj : gmap string Value) (k : string) : option Value :=
  match obj !! k with
  | Some v => Some v
  | None =>
      if bool_decide (k ∈ objectPrototypeNames)
      then Some (VObj ("Object.prototype." +:+ k))
      else None
  end.

(** [obj[k] = v] on a plain object, as far as its own properties go: the
    property is created or rewritten, except that a write to [__proto__],
    when that is no own property, runs the setter inherited from
    [Object.prototype], which creates no property (it replaces the prototype
    of [obj] when [v] is an object or [null], and does nothing otherwise). *)
Definition jsSet (obj : gmap string Value) (k : string) (v : Value)
  : gmap string Value :=
  if bool_decide (k = "__proto__") && negb (bool_decide (is_Some (obj !! k)))
  then obj
  else <[k := v]> obj.

(** ** Shared schema: chat state, messages, stages *)

Abbreviation ChatState := (gmap string Value).

Inductive Role := assistant | user.

#[global] Instance Role_eq_dec : EqDecision Role.
Proof. solve_decision. Defined.

Record ChatMessage := { role : Role; content : string }.

Inductive Stage :=
| opening | localisation | time_start | time_trend | severity
| danger_breathing | danger_collapse | danger_severe_pain | danger_bleeding
| danger_confusion | red_flags | rag_followup
| context_conditions | context_medications | context_surgery
| functional_eat | functional_move | functional_activities
| collect_name | summary | complete | escalated.

#[global] Instance Stage_eq_dec : EqDecision Stage.
Proof. solve_decision. Defined.

Definition hasKey (m : gmap string Value) (k : string) : bool :=
  bool_decide (is_Some (m !! k)).

(** [obj.complaint?.toLowerCase() || ""]; [complaint] is declared
    [string]. *)
Definition complaintLower (m : gmap string Value) : string :=
  match m !! "complaint" with
  | Some (VStr s) => toLowerCase s
  | _ => ""
  end.

(** ** The rules engine ([server/lib/rules.ts]) *)

Inductive RiskBand := Red | Amber | Green.

#[global] Instance RiskBand_eq_dec : EqDecision RiskBand.
Proof. solve_decision. Defined.

Definition bandName (b : RiskBand) : string :=
  match b with Red => "Red" | Amber => "Amber" | Green => "Green" end.

Record TriageResult := {
  riskBand : RiskBand;
  redFlags : list string;
  summary_text : string
}.

(** [if (c) flags.push(label)] *)
Definition pushIf (c : bool) (label : string) (flags : list string)
  : list string :=
  if c then (flags ++ [label])%list else flags.

(** [flags.join(", ")] *)
Fixpoint join (sep : string) (l : list string) : string :=
  match l with
  | [] => ""
  | [x] => x
  | x :: r => x +:+ sep +:+ join sep r
  end.

(** The flags [evaluateTriage] collects, in the order it pushes them. *)
Definition collectFlags (answers : gmap string Value) : list string :=
  let severity := answers !! "severity" in
  let age := answers !! "age" in
  let complaint := complaintLower answers in
  let t k := truthy (answers !! k) in
  let flags := [] in
  (* Global red flags *)
  let flags := pushIf (t "confusion") "New confusion" flags in
  let flags := pushIf (t "severeBleeding") "Severe bleeding" flags in
  let flags := pushIf (numGe severity 9) "Pain severity 9-10/10" flags in
  (* Chest pain *)
  let flags :=
    if streq complaint "chest pain" then
      let flags := pushIf (t "shortnessOfBreath") "Chest pain + SOB" flags in
      let flags := pushIf (t "radiatingPain") "Radiating pain" flags in
      let flags := pushIf (numGt age 50 && numGt severity 5)
                     "Age > 50 with moderate chest pain" flags in
      pushIf (t "cardiacHistory") "History of heart disease" flags
    else flags in
  (* Shortness of breath *)
  let flags :=
    if streq complaint "shortness of breath" then
      let flags := pushIf (t "cyanosis") "Cyanosis (blue lips/skin)" flags in
      pushIf (t "speakingDifficulty") "Unable to speak full sentences" flags
    else flags in
  (* Abdominal pain *)
  let flags :=
    if streq complaint "abdominal pain" then
      let flags := pushIf (t "vomitingBlood") "Vomiting blood" flags in
      let flags := pushIf (t "rigidAbdomen") "Rigid abdomen" flags in
      pushIf (t "pregnancy" && t "bleeding") "Pregnancy + bleeding" flags
    else flags in
  (* Headache *)
  let flags :=
    if streq complaint "headache" then
      let flags :=
        pushIf (t "thunderclap") "Sudden 'thunderclap' onset" flags in
      let flags := pushIf (t "neckStiffness") "Neck stiffness" flags in
      pushIf (t "visualDisturbance") "Visual disturbance" flags
    else flags in
  flags.

Definition evaluateTriage (answers : gmap string Value) : TriageResult :=
  let severity := answers !! "severity" in
  let age := answers !! "age" in
  let complaint := complaintLower answers in
  let flags := collectFlags answers in
  (* Determine band *)
  let band :=
    if (0 <? Z.of_nat (length flags))%Z then Red
    else if numGe severity 6 || numGt age 75 then Amber
    else Green in
  let summary :=
    toStr age +:+ "y " +:+ toStr (answers !! "sex") +:+ " presenting with "
    +:+ complaint +:+ " (Severity " +:+ toStr severity +:+ "/10). Risk: "
    +:+ bandName band +:+ ". Flags: "
    +:+ (if (0 <? Z.of_nat (length flags))%Z then join ", " flags else "None")
    +:+ "." in
  {| riskBand := band; redFlags := flags; summary_text := summary |}.

(** ** The dialogue state machine ([server/lib/chatStateMachine.ts]) *)

Definition COMPLAINTS : list string :=
  ["chest pain"; "shortness of breath"; "abdominal pain"; "headache"; "fever"].

Record RedFlagQuestion := { rfq_question : string; field : string }.

Definition rfq (q f : string) : RedFlagQuestion :=
  {| rfq_question := q; field := f |}.

(** Condition-specific red flag questions. *)
Definition RED_FLAG_QUESTIONS : list (string * list RedFlagQuestion) :=
  [ ("chest pain",
     [ rfq "Is the pain spreading to your arm, jaw, neck, or back?" "radiatingPain";
       rfq "Are you sweating or feeling clammy?" "sweating";
       rfq "Do you have any nausea or vomiting?" "nausea" ]);
    ("shortness of breath",
     [ rfq "Are you wheezing or making unusual sounds when breathing?" "wheezing";
       rfq "Have you coughed up any blood?" "coughingBlood";
       rfq "Do you have any chest pain or tightness?" "chestPain" ]);
    ("abdominal pain",
     [ rfq "Are you vomiting blood or something that looks like coffee grounds?" "vomitingBlood";
       rfq "Have you noticed any blood in your stool or urine?" "bloodyStools";
       rfq "Is the pain worse when you move or press on the area?" "worseWithMovement";
       rfq "Do you have a fever or feel shivery?" "feverWithPain";
       rfq "Are you pregnant or could you be pregnant?" "pregnancy" ]);
    ("headache",
     [ rfq "Did this headache come on suddenly like a thunderclap?" "thunderclap";
       rfq "Do you have a stiff neck or does it hurt to bend your head forward?" "neckStiffness";
       rfq "Are you experiencing any vision problems or seeing double?" "visualDisturbance";
       rfq "Do you have any weakness, numbness, or difficulty speaking?" "neurologicalSymptoms";
       rfq "Are you sensitive to light?" "photophobia" ]);
    ("fever",
     [ rfq "Do you have a rash that doesn't fade when you press a glass against it?" "nonBlanchingRash";
       rfq "Do you have a stiff neck?" "neckStiffness";
       rfq "Are you able to keep fluids down?" "canKeepFluids" ]) ].

(** [table[key]] on a table kept as a list of entries. *)
Fixpoint assoc {A} (key : string) (table : list (string * A)) : option A :=
  match table with
  | [] => None
  | (k, v) :: r => if streq k key then Some v else assoc key r
  end.

(** [RED_FLAG_QUESTIONS[complaint] || []], for a complaint that is no
    property name of [Object.prototype] (for such a name the read yields an
    inherited member and the [find] that follows throws; once lower-cased,
    [constructor] and [__proto__] are the two such names, and the chat
    stores neither as a complaint). *)
Definition redFlagQuestionsFor (complaint : string) : list RedFlagQuestion :=
  default [] (assoc complaint RED_FLAG_QUESTIONS).

Record Prompts := { first : string; second : string; final : string }.

(** Fallback prompts for unclear responses. *)
Definition FALLBACK_PROMPTS : list (string * Prompts) :=
  [ ("opening",
     {| first := "I understand. Could you describe your main symptom in a bit more detail?";
        second := "What is the single thing that's bothering you most right now?";
        final := "Please tell me: are you experiencing chest pain, breathing problems, stomach pain, headache, or fever?" |});
    ("localisation",
     {| first := "Which part of your body is bothering you the most right now?";
        second := "Can you point to where the problem is? Upper body, lower body, head, chest, or stomach?";
        final := "Please tell me the area: head, chest, stomach, back, arms, or legs?" |});
    ("time_start",
     {| first := "Can you estimate: was it today, yesterday, or longer ago?";
        second := "Did this start hours ago, days ago, or weeks ago?";
        final := "Roughly how long have you had this problem?" |});
    ("time_trend",
     {| first := "Would you say it's better, worse, or about the same as when it started?";
        second := "Is the problem getting worse, getting better, or staying the same?";
        final := "Please tell me: worse, better, or the same?" |});
    ("severity",
     {| first := "If 0 is no problem and 10 is the worst possible, what number would you give it?";
        second := "Is it mild (1-3), moderate (4-6), or severe (7-10)?";
        final := "Just give me a number from 0 to 10 for how bad it is." |});
    ("danger",
     {| first := "Just to confirm, is that a yes or a no?";
        second := "I need a clear answer for safety. Yes or no?";
        final := "Please answer yes or no." |});
    ("red_flags",
     {| first := "Is that a yes or no?";
        second := "I need to know for safety. Yes or no?";
        final := "Please answer with yes or no." |});
    ("context",
     {| first := "Could you tell me a bit more about that?";
        second := "Any details you can share would help.";
        final := "You can say 'none' if nothing applies." |});
    ("functional",
     {| first := "Are you able to do that? Yes or no.";
        second := "Can you manage that normally? Yes or no.";
        final := "Please answer yes or no." |}) ].

(** [words.some(w => lower === w || lower.startsWith(w + " ")
                     || lower.includes(" " + w))] *)
Definition matchesWord (lower : string) (words : list string) : bool :=
  existsb (fun w => streq lower w || startsWith lower (w +:+ " ")
                    || includes lower (" " +:+ w)) words.

Definition parseYesNo (input : string) : option bool :=
  let lower := trim (toLowerCase input) in
  let yesWords := ["yes"; "y"; "yeah"; "yep"; "true"; "correct"; "yea"; "sure";
                   "ok"; "okay"; "definitely"; "absolutely"; "i can"; "i am";
                   "i do"] in
  let noWords := ["no"; "n"; "nope"; "nah"; "false"; "negative"; "none"; "not";
                  "can't"; "cannot"; "don't"; "i can't"; "i cannot";
                  "i don't"] in
  if matchesWord lower yesWords then Some true
  else if matchesWord lower noWords then Some false
  else None.

Definition parseNumber (input : string) : option Z :=
  match matchDigits input with
  | Some m => Some (parseInt m)
  | None => None
  end.

Definition parseComplaint (input : string) : option string :=
  let lower := toLowerCase input in
  match List.find (fun complaint => includes lower complaint) COMPLAINTS with
  | Some complaint => Some complaint
  | None =>
      (* Extended matching *)
      if includes lower "chest" || includes lower "heart"
      then Some "chest pain"
      else if includes lower "breath" || includes lower "breathing"
              || includes lower "breathless" || includes lower "can't breathe"
      then Some "shortness of breath"
      else if includes lower "stomach" || includes lower "abdomen"
              || includes lower "belly" || includes lower "tummy"
              || includes lower "gut"
      then Some "abdominal pain"
      else if includes lower "head" || includes lower "migraine"
      then Some "headache"
      else if includes lower "fever" || includes lower "temperature"
              || includes lower "hot" || includes lower "chills"
              || includes lower "shiver"
      then Some "fever"
      else None
  end.

Definition getFallbackPrompt (stage : string) (retryCount : Z) : string :=
  let category := stage in
  let category := if startsWith stage "danger_" then "danger" else category in
  let category := if startsWith stage "context_" then "context" else category in
  let category :=
    if startsWith stage "functional_" then "functional" else category in
  match assoc category FALLBACK_PROMPTS with
  | None => "I didn't quite catch that. Could you try again?"
  | Some prompts =>
      if (retryCount =? 0)%Z then first prompts
      else if (retryCount =? 1)%Z then second prompts
      else final prompts
  end.

(** Check for emergency warning signs in user input. *)
Definition emergencyKeywords : list string :=
  [ "severe chest pain"; "severe breathing"; "can't breathe"; "blue lips";
    "collapsed"; "fainted"; "fainting"; "confusion"; "confused"; "seizure";
    "worst headache"; "stiff neck"; "fever"; "purple rash"; "heavy bleeding";
    "bleeding heavily"; "unconscious"; "not responding" ].

Definition checkEmergencySigns (input : string) : bool :=
  let lower := toLowerCase input in
  existsb (fun keyword => includes lower keyword) emergencyKeywords.

Definition generateSummaryConfirmation (state : ChatState) : string :=
  let summary :=
    "Thank you " +:+ strOr (state !! "patientName") "for that information"
    +:+ ". Let me confirm what you've told me:" +:+ nl +:+ nl in
  let summary := summary +:+ "- Name: "
    +:+ strOr (state !! "patientName") "Not provided" +:+ nl in
  let summary := summary +:+ "- Main concern: "
    +:+ strOr (state !! "complaint") "Not specified" +:+ nl in
  let summary := summary +:+ "- Location: "
    +:+ strOr (state !! "location") "Not specified" +:+ nl in
  let summary := summary +:+ "- Started: "
    +:+ strOr (state !! "onset") "Not specified" +:+ nl in
  let summary := summary +:+ "- Trend: "
    +:+ strOr (state !! "timeTrend") "Not specified" +:+ nl in
  let summary := summary +:+ "- Severity: "
    +:+ (match state !! "severity" with
         | Some v => toStr (Some v) +:+ "/10"
         | None => "Not rated"
         end) +:+ nl in
  let summary :=
    if truthy (state !! "medicalHistory")
       && negb (strictEq (state !! "medicalHistory") (Some (VStr "None reported")))
    then summary +:+ "- Medical conditions: "
         +:+ toStr (state !! "medicalHistory") +:+ nl
    else summary in
  let summary :=
    if truthy (state !! "medications")
       && negb (strictEq (state !! "medications") (Some (VStr "None")))
    then summary +:+ "- Medications: " +:+ toStr (state !! "medications") +:+ nl
    else summary in
  summary +:+ nl +:+ "Is this correct? (Yes/No)".

Record NextQuestion := { question : string; nextStage : Stage }.

Definition getNextQuestion (state : ChatState) (stage : Stage) : NextQuestion :=
  match stage with
  | opening =>
      {| question := "Can you tell me what's happening right now and what made you seek help today?";
         nextStage := localisation |}
  | localisation =>
      {| question := "Where in your body is the main problem?";
         nextStage := time_start |}
  | time_start =>
      {| question := "When did this start?"; nextStage := time_trend |}
  | time_trend =>
      {| question := "Is it getting better, worse, or staying the same?";
         nextStage := severity |}
  | severity =>
      {| question := "On a scale from 0 to 10, how severe is it right now?";
         nextStage := danger_breathing |}
  (* Immediate danger checks - one at a time *)
  | danger_breathing =>
      {| question := "Are you having trouble breathing right now?";
         nextStage := danger_collapse |}
  | danger_collapse =>
      {| question := "Have you collapsed, fainted, or felt close to passing out?";
         nextStage := danger_severe_pain |}
  | danger_severe_pain =>
      {| question := "Is the pain severe or unbearable?";
         nextStage := danger_bleeding |}
  | danger_bleeding =>
      {| question := "Are you bleeding heavily right now?";
         nextStage := danger_confusion |}
  | danger_confusion =>
      {| question := "Are you confused, drowsy, or hard to wake?";
         nextStage := red_flags |}
  | red_flags =>
      let complaint := complaintLower state in
      let questions := redFlagQuestionsFor complaint in
      match List.find (fun q => negb (hasKey state (field q))) questions with
      | Some nextQuestion =>
          {| question := rfq_question nextQuestion; nextStage := red_flags |}
      | None => {| question := ""; nextStage := rag_followup |}
      end
  | rag_followup =>
      {| question := ""; nextStage := context_conditions |}
  | context_conditions =>
      {| question := "Do you have any long-term medical conditions?";
         nextStage := context_medications |}
  | context_medications =>
      {| question := "Are you taking any regular medications?";
         nextStage := context_surgery |}
  | context_surgery =>
      {| question := "Have you had any surgery in this area before?";
         nextStage := functional_eat |}
  | functional_eat =>
      {| question := "Are you able to eat or drink?";
         nextStage := functional_move |}
  | functional_move =>
      {| question := "Can you move around normally?";
         nextStage := functional_activities |}
  | functional_activities =>
      {| question := "Is this stopping you from doing normal daily activities?";
         nextStage := collect_name |}
  | collect_name =>
      {| question := "Thank you for that information. Before I complete your assessment, can I take your full name please?";
         nextStage := summary |}
  | summary =>
      {| question := generateSummaryConfirmation state; nextStage := complete |}
  | complete | escalated =>
      {| question := "Thank you for completing the assessment.";
         nextStage := complete |}
  end.

(** Emergency response message. *)
Definition EMERGENCY_RESPONSE : string :=
  "Based on what you've told me, this could be urgent. You need emergency medical help now. Please call 999 or go to A&E immediately.".

(** Safety net message - always included at the end. *)
Definition SAFETY_NET : string :=
  nl +:+ nl +:+ "If your symptoms suddenly get worse, or you develop new symptoms like severe pain, breathlessness, collapse, or bleeding, seek urgent medical help immediately.".

(** [generatePatientResponse]: [completion] is the outcome of the chat
    completion of this turn, [Some c] for a reply whose content is [c]
    (empty when the reply has no content) and [None] when the call fails;
    a failure falls back to the deterministic question. *)
Definition generatePatientResponse (completion : option string)
    (userInput : string) (conversationHistory : list ChatMessage)
    (currentState : ChatState) (currentStage : Stage) : string :=
  match completion with
  | Some c =>
      if isEmpty c then "I understand. Could you tell me more about that?"
      else c
  | None => question (getNextQuestion currentState currentStage)
  end.

(** [a || b] on strings. *)
Definition strOrElse (a b : string) : string := if isEmpty a then b else a.

(** The degree sign U+00B0, one code unit. *)
Definition degree : string := String (ascii_of_N 176) EmptyString.

Definition GREEN_RECOMMENDATIONS : list (string * list string) :=
  [ ("chest pain",
     [ "Rest and avoid strenuous physical activity";
       "Monitor your symptoms - if pain worsens or spreads, seek immediate medical attention";
       "Consider over-the-counter antacids if the pain feels like heartburn";
       "Keep a symptom diary noting when pain occurs and what triggers it";
       "Schedule an appointment with your GP within the next few days" ]);
    ("shortness of breath",
     [ "Rest in a comfortable position and try to relax";
       "Practice slow, deep breathing exercises";
       "Avoid known triggers such as allergens or strenuous activity";
       "Stay hydrated and keep your environment well-ventilated";
       "Book an appointment with your GP to discuss your symptoms" ]);
    ("abdominal pain",
     [ "Stay hydrated with clear fluids";
       "Eat light, bland foods if tolerated";
       "Apply a warm compress to your abdomen for comfort";
       "Avoid spicy, fatty, or acidic foods";
       "Rest and monitor your symptoms - see a GP if they persist beyond 24-48 hours" ]);
    ("headache",
     [ "Rest in a quiet, dark room";
       "Stay well hydrated";
       "Consider over-the-counter pain relief like paracetamol or ibuprofen";
       "Apply a cold or warm compress to your forehead or neck";
       "Reduce screen time and take regular breaks from work" ]);
    ("fever",
     [ "Rest and get plenty of sleep";
       "Drink plenty of fluids to stay hydrated";
       "Take paracetamol or ibuprofen to help reduce temperature";
       "Wear light clothing and keep your room cool";
       "Monitor your temperature and seek medical advice if it exceeds 39.4"
       +:+ degree +:+ "C (103" +:+ degree +:+ "F)" ]) ].

(** Recommendations of a complaint, or the generic ones; for a complaint
    whose lower case is no property name of [Object.prototype] (for
    [constructor] and [__proto__] the read yields an inherited member, which
    is returned as it is). *)
Definition getGreenRecommendations (complaint : string) : list string :=
  let lowerComplaint := toLowerCase complaint in
  default
    [ "Rest and monitor your symptoms";
      "Stay well hydrated";
      "Take over-the-counter pain relief if needed";
      "Schedule an appointment with your GP if symptoms persist";
      "Return for assessment if your condition worsens" ]
    (assoc lowerComplaint GREEN_RECOMMENDATIONS).

(** The properties of [keys] copied from [state] ([k: state.k] for each). *)
Fixpoint copyFields (keys : list string) (state : ChatState)
  : gmap string Value :=
  match keys with
  | [] => ∅
  | k :: r =>
      match state !! k with
      | Some v => <[k := v]> (copyFields r state)
      | None => copyFields r state
      end
  end.

(** The fields [buildTriageFromChat] copies as they are. *)
Definition triageCopiedFields : list string :=
  [ "onset"; "location"; "duration"; "character"; "aggravating"; "relieving";
    "associated"; "medicalHistory"; "medications"; "allergies";
    (* Danger check answers *)
    "troubleBreathing"; "collapse"; "severePain"; "severeBleeding"; "confusion";
    (* Red flag answers *)
    "shortnessOfBreath"; "radiatingPain"; "sweating"; "nausea";
    "cardiacHistory"; "cyanosis"; "speakingDifficulty"; "vomitingBlood";
    "bloodyStools"; "worseWithMovement"; "rigidAbdomen"; "pregnancy";
    "feverWithPain"; "thunderclap"; "neckStiffness"; "visualDisturbance";
    "neurologicalSymptoms"; "photophobia"; "nonBlanchingRash"; "canKeepFluids";
    "wheezing"; "coughingBlood"; "chestPain" ].

Definition triageAnswers (state : ChatState) : gmap string Value :=
  <["complaint" := orElse (state !! "complaint") (VStr "")]>
  (<["age" := orElse (state !! "age") (VNum 0)]>
  (<["sex" := orElse (state !! "sex") (VStr "")]>
  (<["severity" := orElse (state !! "severity") (VNum 0)]>
  (copyFields triageCopiedFields state)))).

Record ChatTriage := {
  result : TriageResult;
  recommendations : option (list string)
}.

Definition buildTriageFromChat (state : ChatState) : ChatTriage :=
  let answers := triageAnswers state in
  let result := evaluateTriage answers in
  (* Add recommendations for green band *)
  if bool_decide (riskBand result = Green) then
    {| result := result;
       recommendations :=
         Some (getGreenRecommendations (strOr (state !! "complaint") "")) |}
  else {| result := result; recommendations := None |}.

Definition generateFinalResponse (state : ChatState) : string :=
  (* Classify internally (not exposed to user) *)
  let r := result (buildTriageFromChat state) in
  let response :=
    if bool_decide (riskBand r = Red) then
      "Based on your answers, this could be serious and needs urgent medical attention. Please call 999 or go to A&E now."
    else if bool_decide (riskBand r = Amber) then
      "This needs to be assessed today. I recommend contacting NHS 111 or attending an urgent care centre today."
    else if (0 <? Z.of_nat (length (redFlags r)))%Z then
      "This doesn't sound immediately dangerous, but you should arrange a GP appointment soon given your symptoms."
    else
      "This sounds like something that can often be managed at home. I'll share some self-care advice with your assessment." in
  (* Always add safety net *)
  let response := response +:+ SAFETY_NET in
  response +:+ nl +:+ nl
  +:+ "Your assessment has been recorded and a summary is now available for review.".

Record TurnResult := {
  newState : ChatState;
  newStage : Stage;
  response : string;
  isEscalation : bool;
  isComplete : bool;
  newRetryCount : Z
}.

(** [stages.indexOf(x)]: [-1] when [x] is not an element. *)
Fixpoint indexOfFrom (stages : list Stage) (x : Stage) (i : Z) : Z :=
  match stages with
  | [] => -1
  | y :: r => if bool_decide (y = x) then i else indexOfFrom r x (i + 1)
  end.

Definition indexOf (stages : list Stage) (x : Stage) : Z :=
  indexOfFrom stages x 0.

(** The stage list of the forced advance. *)
Definition stages : list Stage :=
  [ opening; localisation; time_start; time_trend; severity;
    danger_breathing; danger_collapse; danger_severe_pain; danger_bleeding;
    danger_confusion; red_flags; context_conditions; context_medications;
    context_surgery; functional_eat; functional_move; functional_activities;
    summary ].

(** Critical red flags that need immediate escalation. *)
Definition criticalFlags : list string :=
  [ "thunderclap"; "nonBlanchingRash"; "vomitingBlood"; "neurologicalSymptoms";
    "coughingBlood"; "bloodyStools" ].

(** [v + 1] *)
Definition plusOne (v : Value) : Value :=
  match v with
  | VNum n => VNum (n + 1)
  | VBool b => VNum ((if b then 1 else 0) + 1)
  | VNull => VNum 1
  | VStr s => VStr (s +:+ "1")
  | VObj j => VStr (toStr (Some (VObj j)) +:+ "1")
  end.

Definition numLt (v : option Value) (k : Z) : bool :=
  match toNumber v with Some n => (n <? k)%Z | None => false end.

(** The emergency return of [processUserMessage]. *)
Definition escalation (newState : ChatState) : TurnResult :=
  {| newState := newState;
     newStage := escalated;
     response := EMERGENCY_RESPONSE;
     isEscalation := true;
     isComplete := true;
     newRetryCount := 0 |}.

Section ProcessUserMessage.

(** Outcome of the chat completion of this turn (see
    [generatePatientResponse]). *)
Variable completion : option string.
Variable input : string.
Variable conversationHistory : list ChatMessage.

Definition turn (st : ChatState) (stage : Stage) (resp : string) (rc : Z)
  : TurnResult :=
  {| newState := st; newStage := stage; response := resp;
     isEscalation := false; isComplete := false; newRetryCount := rc |}.

(** [await generatePatientResponse(input, conversationHistory, st, stage)
    || alt] *)
Definition respond (st : ChatState) (stage : Stage) (alt : string)
  : string :=
  strOrElse (generatePatientResponse completion input conversationHistory
               st stage) alt.

(** The common tail of most cases: the reply asks the question of the stage
    the turn ends in. *)
Definition ask (st : ChatState) (stage : Stage) (rc : Z) : TurnResult :=
  turn st stage (respond st stage (question (getNextQuestion st stage))) rc.

(** A yes/no danger check storing its answer under [key]; [escalates]
    decides on a "yes". *)
Definition dangerCheck (newState : ChatState) (currentStage : Stage)
    (retryCount : Z) (key : string) (escalates : ChatState -> bool)
    (next : ChatState -> Stage) : TurnResult :=
  match parseYesNo input with
  | Some answer =>
      let newState := <[key := VBool answer]> newState in
      if answer && escalates newState then escalation newState
      else ask newState (next newState) 0
  | None => ask newState currentStage (retryCount + 1)
  end.

(** The [switch (currentStage)] of [processUserMessage]. *)
Definition stageSwitch (newState : ChatState) (currentStage : Stage)
    (retryCount : Z) : TurnResult :=
  match currentStage with
  | opening =>
      (* Try to extract complaint from open-ended response *)
      match parseComplaint input with
      | Some complaint =>
          let newState := <["complaint" := VStr complaint]> newState in
          let newState :=
            <["openingDescription" := VStr (trim input)]> newState in
          turn newState localisation
            (question (getNextQuestion newState localisation)) 0
      | None =>
          if (strLength (trim input) >? 10)%Z then
            (* Accept detailed description even without recognized complaint *)
            let newState :=
              <["openingDescription" := VStr (trim input)]> newState in
            turn newState localisation
              ("Thank you for explaining. "
               +:+ question (getNextQuestion newState localisation)) 0
          else
            turn newState opening (getFallbackPrompt "opening" retryCount)
              (retryCount + 1)
      end
  | localisation =>
      let location := trim input in
      if (strLength location >? 0)%Z then
        let newState := <["location" := VStr location]> newState in
        (* Try to extract complaint from location if not already set *)
        let newState :=
          if negb (truthy (newState !! "complaint")) then
            match parseComplaint location with
            | Some complaint => <["complaint" := VStr complaint]> newState
            | None => newState
            end
          else newState in
        ask newState time_start 0
      else ask newState localisation (retryCount + 1)
  | time_start =>
      let onset := trim input in
      if (strLength onset >? 0)%Z then
        ask (<["onset" := VStr onset]> newState) time_trend 0
      else ask newState time_start (retryCount + 1)
  | time_trend =>
      let trend := toLowerCase (trim input) in
      if (strLength trend >? 0)%Z then
        let newState := <["timeTrend" := VStr trend]> newState in
        (* Check for worsening as warning sign *)
        let newState :=
          if includes trend "worse" || includes trend "worsening"
          then <["gettingWorse" := VBool true]> newState
          else newState in
        ask newState severity 0
      else ask newState time_trend (retryCount + 1)
  | severity =>
      match parseNumber input with
      | Some sev =>
          if (0 <=? sev)%Z && (sev <=? 10)%Z then
            ask (<["severity" := VNum sev]> newState) danger_breathing 0
          else ask newState severity (retryCount + 1)
      | None => ask newState severity (retryCount + 1)
      end
  (* Immediate danger checks *)
  | danger_breathing =>
      dangerCheck newState currentStage retryCount "troubleBreathing"
        (fun _ => true) (fun _ => danger_collapse)
  | danger_collapse =>
      dangerCheck newState currentStage retryCount "collapse"
        (fun _ => true) (fun _ => danger_severe_pain)
  | danger_severe_pain =>
      dangerCheck newState currentStage retryCount "severePain"
        (fun st =>
           numGe (if notNullish (st !! "severity") then st !! "severity"
                  else Some (VNum 0)) 8)
        (fun _ => danger_bleeding)
  | danger_bleeding =>
      dangerCheck newState currentStage retryCount "severeBleeding"
        (fun _ => true) (fun _ => danger_confusion)
  | danger_confusion =>
      dangerCheck newState currentStage retryCount "confusion"
        (fun _ => true)
        (fun st =>
           if isEmpty (question (getNextQuestion st red_flags))
           then context_conditions else red_flags)
  | red_flags =>
      let complaint := complaintLower newState in
      let questions := redFlagQuestionsFor complaint in
      match List.find (fun q => negb (hasKey newState (field q))) questions
      with
      | Some currentQuestion =>
          match parseYesNo input with
          | Some answer =>
              let newState :=
                <[field currentQuestion := VBool answer]> newState in
              if answer
                 && bool_decide (field currentQuestion ∈ criticalFlags)
              then escalation newState
              else
                (* Get next red flag question *)
                let nextQ := getNextQuestion newState red_flags in
                if isEmpty (question nextQ) then
                  (* Move to RAG followup (handled async in routes) *)
                  turn (<["ragQuestionsAsked" := VNum 0]> newState)
                    rag_followup "" 0
                else
                  turn newState red_flags
                    (respond newState red_flags (question nextQ)) 0
          | None =>
              turn newState red_flags
                (respond newState red_flags
                   (getFallbackPrompt "red_flags" retryCount))
                (retryCount + 1)
          end
      | None =>
          (* Move to RAG followup (handled async in routes) *)
          turn (<["ragQuestionsAsked" := VNum 0]> newState) rag_followup "" 0
      end
  | rag_followup =>
      (* Store the answer to the RAG question *)
      let ragCount := orElse (newState !! "ragQuestionsAsked") (VNum 0) in
      let newState :=
        <["ragAnswer" +:+ toStr (Some ragCount) := VStr (trim input)]>
          newState in
      let newState :=
        <["ragQuestionsAsked" := plusOne ragCount]> newState in
      (* Check if we should ask more RAG questions (max 3) *)
      if numLt (Some ragCount) 2 then turn newState rag_followup "" 0
      else ask newState context_conditions 0
  | context_conditions =>
      ask (<["medicalHistory" := VStr (strOrElse (trim input) "None reported")]>
             newState) context_medications 0
  | context_medications =>
      ask (<["medications" := VStr (strOrElse (trim input) "None")]> newState)
        context_surgery 0
  | context_surgery =>
      ask (<["previousSurgery" := VStr (strOrElse (trim input) "None")]>
             newState) functional_eat 0
  | functional_eat =>
      let v := match parseYesNo input with
               | Some answer => answer
               | None => negb (includes (toLowerCase input) "no")
               end in
      ask (<["canEatDrink" := VBool v]> newState) functional_move 0
  | functional_move =>
      let v := match parseYesNo input with
               | Some answer => answer
               | None => negb (includes (toLowerCase input) "no")
               end in
      ask (<["canMove" := VBool v]> newState) functional_activities 0
  | functional_activities =>
      let answer := parseYesNo input in
      let v := bool_decide (answer = Some true)
               || includes (toLowerCase input) "yes" in
      ask (<["stoppingActivities" := VBool v]> newState) collect_name 0
  | collect_name =>
      let name := trim input in
      if (strLength name >=? 2)%Z then
        ask (<["patientName" := VStr name]> newState) summary 0
      else
        turn newState collect_name
          "I need your full name to complete the assessment. Could you please provide your first and last name?"
          (retryCount + 1)
  | summary =>
      match parseYesNo input with
      | Some true =>
          {| newState := newState; newStage := complete;
             response := generateFinalResponse newState;
             isEscalation := false; isComplete := true;
             newRetryCount := 0 |}
      | Some false =>
          (* Reset state *)
          turn ∅ opening
            ("No problem, let's start again. "
             +:+ question (getNextQuestion newState opening)) 0
      | None =>
          turn newState summary
            "Is the information correct? Please answer yes or no."
            (retryCount + 1)
      end
  | complete | escalated =>
      {| newState := newState; newStage := currentStage;
         response := "Thank you for completing the assessment." +:+ SAFETY_NET;
         isEscalation := false; isComplete := true; newRetryCount := 0 |}
  end.

Definition processUserMessage (currentState : ChatState)
    (currentStage : Stage) (retryCount : Z) : TurnResult :=
  let newState := currentState in
  (* Check for emergency signs first *)
  if checkEmergencySigns input then escalation newState
  else
    (* After 3 failed attempts, try to continue with partial info *)
    let maxRetries := 3 in
    let currentIndex := indexOf stages currentStage in
    if (retryCount >=? maxRetries)%Z
       && (currentIndex <? Z.of_nat (length stages) - 1)%Z
    then
      (* Move to next stage with whatever we have *)
      match stages !! Z.to_nat (currentIndex + 1) with
      | Some newStage =>
          turn newState newStage
            (question (getNextQuestion newState newStage)) 0
      | None => stageSwitch newState currentStage retryCount
      end
    else stageSwitch newState currentStage retryCount.

End ProcessUserMessage.

(** ** Fact extraction and red flags ([server/lib/handoff.ts]) *)

(** Reliability: confidence thresholds. *)
Definition CONFIDENCE_CRITICAL : Z := 70.
Definition CONFIDENCE_DEFAULT : Z := 50.

(** Facts in this list require [CONFIDENCE_CRITICAL] and (when not boolean)
    must be present in conversation text. *)
Definition CRITICAL_FACT_KEYS : list string :=
  [ "severity_score"; "chest_pain"; "shortness_of_breath"; "collapse";
    "confusion"; "severe_bleeding"; "fainting"; "face_droop"; "arm_weakness";
    "speech_difficulty"; "thunderclap"; "neck_stiffness"; "non_blanching_rash";
    "vomiting_blood"; "pregnant_possible"; "fever" ].

(** [if (state.src != null) m.dst = state.src] *)
Definition setIfPresent (state : gmap string Value) (src dst : string)
    (m : gmap string Value) : gmap string Value :=
  match state !! src with
  | Some v => if notNullish (Some v) then <[dst := v]> m else m
  | None => m
  end.

(** Map chat state (camelCase) to fact keys used by red-flag rules
    (snake_case). *)
Definition deterministicFactsFromState (state : gmap string Value)
  : gmap string Value :=
  let m : gmap string Value := ∅ in
  let m := setIfPresent state "age" "age_years" m in
  let m := setIfPresent state "sex" "sex" m in
  let m := setIfPresent state "complaint" "chief_complaint" m in
  let m :=
    if notNullish (state !! "openingDescription")
       && negb (truthy (m !! "chief_complaint"))
    then setIfPresent state "openingDescription" "chief_complaint" m
    else m in
  let m := setIfPresent state "onset" "onset" m in
  let m := setIfPresent state "duration" "duration" m in
  let m := setIfPresent state "severity" "severity_score" m in
  let m := setIfPresent state "location" "location" m in
  let m := setIfPresent state "shortnessOfBreath" "shortness_of_breath" m in
  let m :=
    if notNullish (state !! "troubleBreathing")
       && negb (notNullish (m !! "shortness_of_breath"))
    then setIfPresent state "troubleBreathing" "shortness_of_breath" m
    else m in
  let m := setIfPresent state "collapse" "collapse" m in
  let m := setIfPresent state "confusion" "confusion" m in
  let m := setIfPresent state "severeBleeding" "severe_bleeding" m in
  let m := setIfPresent state "radiatingPain" "radiating_pain" m in
  let m := setIfPresent state "thunderclap" "thunderclap" m in
  let m := setIfPresent state "neckStiffness" "neck_stiffness" m in
  let m := setIfPresent state "nonBlanchingRash" "non_blanching_rash" m in
  let m := setIfPresent state "vomitingBlood" "vomiting_blood" m in
  let m := setIfPresent state "pregnancy" "pregnant_possible" m in
  let m := setIfPresent state "fever" "fever" m in
  m.

(** [\s*\/\s*10] at the start of [s]. *)
Definition matchSlashTen (s : string) : bool :=
  match trimStart s with
  | String c r => (charCode c =? 47)%N && String.prefix "10" (trimStart r)
  | EmptyString => false
  end.

(** A [\b] at the start of [s], just after a digit. *)
Definition boundaryAfterWord (s : string) : bool :=
  match s with
  | EmptyString => true
  | String c _ => negb (isWordChar c)
  end.

(** [\d{1,2}] followed by [rest], at the start of [s]. *)
Definition oneOrTwoDigits (rest : string -> bool) (s : string) : bool :=
  match s with
  | String d r =>
      isDigit d
      && ((match r with
           | String d2 r2 => isDigit d2 && rest r2
           | EmptyString => false
           end) || rest r)
  | EmptyString => false
  end.

(** [/\d{1,2}\s*\/\s*10|\b\d{1,2}\b/.test(s)], scanning [s] from the left;
    [prevWord] tells whether the character before [s] is a word character. *)
Fixpoint testSeverityPattern (prevWord : bool) (s : string) : bool :=
  oneOrTwoDigits matchSlashTen s
  || (negb prevWord && oneOrTwoDigits boundaryAfterWord s)
  || match s with
     | String c r => testSeverityPattern (isWordChar c) r
     | EmptyString => false
     end.

Definition foundInConversation (conversationText : string) (value : Value)
  : bool :=
  let text := toLowerCase conversationText in
  match value with
  | VBool _ => true (* no cheap substring check for yes/no *)
  | VNum n =>
      includes text (pretty n)
      || ((n <=? 10)%Z && testSeverityPattern false text)
  | VStr s => includes text (trim (toLowerCase s))
  | VNull | VObj _ => false
  end.

(** One entry of the [facts] or [negations] array of the extraction reply;
    the reply is taken to follow the schema of the extraction prompt. *)
Record ExtractedFact := { key : string; value : Value; confidence : Z }.

(** The parsed extraction reply: either array may be missing. *)
Record ExtractionResult := {
  facts : option (list ExtractedFact);
  negations : option (list ExtractedFact)
}.

(** One call of [onDivergence(sessionId, key, llmValue, stateValue)]. *)
Record Divergence := {
  div_session : option Z;
  div_key : string;
  llmValue : Value;
  stateValue : Value
}.

(** Options for fact extraction; [onDivergence] tells whether a callback is
    supplied. *)
Record ExtractFactsOpts := { sessionId : option Z; onDivergence : bool }.

Definition threshold (k : string) : Z :=
  if bool_decide (k ∈ CRITICAL_FACT_KEYS) then CONFIDENCE_CRITICAL
  else CONFIDENCE_DEFAULT.

Definition isBoolean (v : Value) : bool :=
  match v with VBool _ => true | _ => false end.

(** The two gates of the [facts] loop: confidence, and corroboration in the
    patient text for critical facts that are not boolean. *)
Definition admitted (patientMessages : string) (f : ExtractedFact) : bool :=
  negb (confidence f <? threshold (key f))%Z
  && negb (bool_decide (key f ∈ CRITICAL_FACT_KEYS) && negb (isBoolean (value f))
           && negb (foundInConversation patientMessages (value f))).

(** The fact record under construction together with the calls made to
    [onDivergence] so far. *)
Definition Extraction : Type := gmap string Value * list Divergence.

(** The body of [for (const fact of result.facts)].  [deterministic[key]] is
    a read of a plain object ([jsGet]) and [facts[key] = value] a write to
    one ([jsSet]); the record is followed by its own properties, which are
    exact for every key other than [__proto__] (after a fact has replaced
    the prototype of the record, a later write to [__proto__] may create an
    own property; no statement below reads that key). *)
Definition factStep (patientMessages : string)
    (deterministic : gmap string Value) (opts : option ExtractFactsOpts)
    (acc : Extraction) (fact : ExtractedFact) : Extraction :=
  let '(record, events) := acc in
  if (confidence fact <? threshold (key fact))%Z then acc
  else
    let mustValidate :=
      bool_decide (key fact ∈ CRITICAL_FACT_KEYS)
      && negb (isBoolean (value fact)) in
    if mustValidate && negb (foundInConversation patientMessages (value fact))
    then acc
    else
      let events :=
        match jsGet deterministic (key fact) with
        | Some d =>
            if negb (strictEq (Some d) (Some (value fact))) then
              match opts with
              | Some o =>
                  if onDivergence o then
                    (events ++ [ {| div_session := sessionId o;
                                    div_key := key fact;
                                    llmValue := value fact;
                                    stateValue := d |} ])%list
                  else events
              | None => events
              end
            else events
        | None => events
        end in
      (jsSet record (key fact) (value fact), events).

(** The body of [for (const neg of result.negations)]. *)
Definition negationStep (record : gmap string Value) (neg : ExtractedFact)
  : gmap string Value :=
  if (confidence neg <? threshold (key neg))%Z then record
  else jsSet record (key neg) (VBool false).

Definition patientText (messages : list ChatMessage) : string :=
  join nl (map content (filter (fun m => role m = user) messages)).

(** Extract facts from patient messages. Uses deterministic state first, then
    LLM with validation.  [reply] is the outcome of the structured extraction
    call: [None] when the call or the parsing of its JSON fails.  The result
    is the fact record and the calls made to [onDivergence], in order. *)
Definition extractFactsFromMessages (reply : option ExtractionResult)
    (messages : list ChatMessage) (existingFacts : gmap string Value)
    (opts : option ExtractFactsOpts) : Extraction :=
  let patientMessages := patientText messages in
  let deterministic := deterministicFactsFromState existingFacts in
  let record : gmap string Value := deterministic ∪ existingFacts in
  if isEmpty (trim patientMessages) then (record, [])
  else
    match reply with
    | None => (record, [])
    | Some result =>
        let acc : Extraction := (record, []) in
        let acc :=
          match facts result with
          | Some fs =>
              fold_left (factStep patientMessages deterministic opts) fs acc
          | None => acc
          end in
        let record :=
          match negations result with
          | Some ns => fold_left negationStep ns (fst acc)
          | None => fst acc
          end in
        (record, snd acc)
    end.

(** A criterion of a red-flag rule. *)
Record Criterion := { fact : string; op : string; crit_value : Value }.

Record RedFlagRule := {
  code : string;
  label : string;
  evidence_prompt : string;
  criteria_all : option (list Criterion);
  criteria_any : option (list Criterion)
}.

Record TriggeredFlag := {
  tf_code : string; tf_label : string; evidence : string
}.

Record RedFlagResults := {
  triggered : list TriggeredFlag;
  notTriggered : list string;
  notAssessed : list string
}.

(** The callback given to [every] and [some] in [evaluateRedFlags]. *)
Definition criterionHolds (record : gmap string Value) (criterion : Criterion)
  : bool :=
  let factValue := record !! fact criterion in
  if streq (op criterion) "eq" then
    strictEq factValue (Some (crit_value criterion))
  else if streq (op criterion) "gte" then
    match factValue, toNumber (Some (crit_value criterion)) with
    | Some (VNum n), Some k => (k <=? n)%Z
    | _, _ => false
    end
  else if streq (op criterion) "lte" then
    match factValue, toNumber (Some (crit_value criterion)) with
    | Some (VNum n), Some k => (n <=? k)%Z
    | _, _ => false
    end
  else false.

Definition ruleMatches (record : gmap string Value) (rule : RedFlagRule)
  : bool :=
  let matches := false in
  (* Check criteria_all (all must match) *)
  let matches :=
    match criteria_all rule with
    | Some cs => forallb (criterionHolds record) cs
    | None => matches
    end in
  (* Check criteria_any (any must match) *)
  match criteria_any rule with
  | Some cs => if negb matches then existsb (criterionHolds record) cs
               else matches
  | None => matches
  end.

Definition requiredFacts (rule : RedFlagRule) : list string :=
  (map fact (default [] (criteria_all rule))
   ++ map fact (default [] (criteria_any rule)))%list.

(** The body of [for (const rule of redFlagRules.red_flags)]. *)
Definition ruleStep (record : gmap string Value) (acc : RedFlagResults)
    (rule : RedFlagRule) : RedFlagResults :=
  if ruleMatches record rule then
    {| triggered := (triggered acc
                     ++ [ {| tf_code := code rule; tf_label := label rule;
                             evidence := evidence_prompt rule |} ])%list;
       notTriggered := notTriggered acc;
       notAssessed := notAssessed acc |}
  else
    (* Check if we have the facts to evaluate this rule *)
    let hasFacts := existsb (fun f => hasKey record f) (requiredFacts rule) in
    if hasFacts then
      {| triggered := triggered acc;
         notTriggered := (notTriggered acc ++ [label rule])%list;
         notAssessed := notAssessed acc |}
    else
      {| triggered := triggered acc;
         notTriggered := notTriggered acc;
         notAssessed := (notAssessed acc ++ [label rule])%list |}.

Section RedFlags.

(** The static rule table, [redFlagRules.json] (not part of the sources
    at hand): every statement below holds for any table. *)
Variable redFlagRules : list RedFlagRule.

(** Evaluate red flags using rules engine. *)
Definition evaluateRedFlags (record : gmap string Value) : RedFlagResults :=
  fold_left (ruleStep record) redFlagRules
    {| triggered := []; notTriggered := []; notAssessed := [] |}.

End RedFlags.

(** ** The handoff ([server/lib/handoff.ts]) *)

Record PresentingComplaint := {
  chief_complaint : string;
  pc_onset : string;
  pc_duration : string;
  pc_severity : string;
  pc_location : string;
  associated_symptoms : list string
}.

Record HandoffRedFlags := {
  hf_triggered : list (string * string);   (* flag, evidence *)
  not_triggered : list string;
  not_assessed : list string
}.

Record HandoffSeverity := {
  rules_engine_category : string;
  ai_suggested_category : string;
  ai_confidence : string;
  rationale : string
}.

Record Differential := {
  condition : string; why_consider : string; supporting_features : list string
}.

Record ConsultationFocus := {
  questions_to_confirm : list string;
  exam_checks : list string;
  immediate_actions : list string;
  safety_net : string
}.

Record HandoffJson := {
  presenting_complaint : PresentingComplaint;
  key_positives : list string;
  key_negatives : list string;
  hj_red_flags : HandoffRedFlags;
  hj_severity : HandoffSeverity;
  differentials : list Differential;
  consultation_focus : ConsultationFocus;
  summary_for_reception : string
}.

(** The defaults [buildAnswersFromState] lists before [...state]. *)
Definition answerDefaults (state : ChatState) : gmap string Value :=
  let orFalse k := orElse (state !! k) (VBool false) in
  <["complaint" := orElse (state !! "complaint") (VStr "")]>
  (<["age" := orElse (state !! "age") (VNum 0)]>
  (<["sex" := orElse (state !! "sex") (VStr "")]>
  (<["severity" := orElse (state !! "severity") (VNum 0)]>
  (<["shortnessOfBreath" :=
       orElse (state !! "shortnessOfBreath")
         (orElse (state !! "troubleBreathing") (VBool false))]>
  (<["collapse" := orFalse "collapse"]>
  (<["confusion" := orFalse "confusion"]>
  (<["severeBleeding" := orFalse "severeBleeding"]>
  (<["radiatingPain" := orFalse "radiatingPain"]>
  (<["sweating" := orFalse "sweating"]>
  (<["nausea" := orFalse "nausea"]>
  (<["cardiacHistory" := orFalse "cardiacHistory"]>
  (<["thunderclap" := orFalse "thunderclap"]>
  (<["neckStiffness" := orFalse "neckStiffness"]>
  (<["visualDisturbance" := orFalse "visualDisturbance"]>
  (<["neurologicalSymptoms" := orFalse "neurologicalSymptoms"]>
  (<["nonBlanchingRash" := orFalse "nonBlanchingRash"]>
  (<["vomitingBlood" := orFalse "vomitingBlood"]>
  (<["bloodyStools" := orFalse "bloodyStools"]>
  (<["pregnancy" := orFalse "pregnancy"]>
  (<["fever" := orFalse "fever"]>
  (copyFields ["onset"; "location"; "duration"] state))))))))))))))))))))).

(** Build answers object from chat state for rules engine: the defaults,
    overridden by every property of the state ([...state] comes last). *)
Definition buildAnswersFromState (state : ChatState) : gmap string Value :=
  state ∪ answerDefaults state.

(** Create minimal handoff if LLM fails. *)
Definition createMinimalHandoff (state : ChatState)
    (triageResult : TriageResult) (triggeredRedFlags : list TriggeredFlag)
    (notTriggered notAssessed : list string) : HandoffJson :=
  {| presenting_complaint :=
       {| chief_complaint :=
            if truthy (state !! "complaint") then toStr (state !! "complaint")
            else strOr (state !! "openingDescription") "Not specified";
          pc_onset := strOr (state !! "onset") "Not specified";
          pc_duration := strOr (state !! "duration") "Not specified";
          pc_severity :=
            match state !! "severity" with
            | Some v => toStr (Some v) +:+ "/10"
            | None => "Not rated"
            end;
          pc_location := strOr (state !! "location") "Not specified";
          associated_symptoms := [] |};
     key_positives := [];
     key_negatives := [];
     hj_red_flags :=
       {| hf_triggered :=
            map (fun rf => (tf_label rf, evidence rf)) triggeredRedFlags;
          not_triggered := notTriggered;
          not_assessed := notAssessed |};
     hj_severity :=
       {| rules_engine_category := toUpperCase (bandName (riskBand triageResult));
          ai_suggested_category := toUpperCase (bandName (riskBand triageResult));
          ai_confidence := "LOW";
          rationale := summary_text triageResult |};
     differentials := [];
     consultation_focus :=
       {| questions_to_confirm := [];
          exam_checks := [];
          immediate_actions := [];
          safety_net := "If symptoms worsen, seek urgent medical attention." |};
     summary_for_reception := summary_text triageResult |}.

(** Generate handoff JSON.  [reply] is the outcome of the generation call:
    [Some h] for a reply that parses into the schema, [None] when the call
    fails, the reply does not parse or lacks the objects written to below. *)
Definition generateHandoff (reply : option HandoffJson) (sessionId : Z)
    (state : ChatState) (messages : list ChatMessage)
    (triggeredRedFlags : list TriggeredFlag)
    (notTriggered notAssessed : list string) : HandoffJson :=
  let answers := buildAnswersFromState state in
  (* Run rules engine to get severity *)
  let triageResult := evaluateTriage answers in
  let rulesSeverity := toUpperCase (bandName (riskBand triageResult)) in
  match reply with
  | Some handoff =>
      {| presenting_complaint := presenting_complaint handoff;
         key_positives := key_positives handoff;
         key_negatives := key_negatives handoff;
         (* Format red flags *)
         hj_red_flags :=
           {| hf_triggered :=
                map (fun rf => (tf_label rf, evidence rf)) triggeredRedFlags;
              not_triggered := notTriggered;
              not_assessed := notAssessed |};
         (* Ensure rules engine category is set correctly *)
         hj_severity :=
           {| rules_engine_category := rulesSeverity;
              ai_suggested_category := ai_suggested_category (hj_severity handoff);
              ai_confidence := ai_confidence (hj_severity handoff);
              rationale := rationale (hj_severity handoff) |};
         differentials := differentials handoff;
         consultation_focus := consultation_focus handoff;
         summary_for_reception := summary_for_reception handoff |}
  | None =>
      (* Return minimal handoff on error *)
      createMinimalHandoff state triageResult triggeredRedFlags
        notTriggered notAssessed
  end.

(** ** The chat turn of [POST /api/chat/message] ([server/routes.ts]) *)

(** What the route stores with the submission created when a turn completes
    the session: escalated cases are always Red. *)
Definition storedRiskBand (r : TurnResult) : RiskBand :=
  let triageResult := result (buildTriageFromChat (newState r)) in
  if isEscalation r then Red else riskBand triageResult.

(** The stored session and one turn of the route.  A turn is refused when the
    message is empty or the session is no longer active. *)
Inductive Status := active | completed | escalatedStatus.

#[global] Instance Status_eq_dec : EqDecision Status.
Proof. solve_decision. Defined.

Record ChatSession := {
  messages : list ChatMessage;
  state : ChatState;
  stage : Stage;
  status : Status;
  retryCount : Z
}.

(** What the collaborators answer during one turn: the message of the
    patient, the outcome of the chat completion, and the question
    [generateRAGQuestion] returns ([None] for [null]). *)
Record TurnEnv := {
  message : string;
  completion : option string;
  ragQuestion : option string
}.

(** The session created by [POST /api/chat/start]. *)
Definition initialSession : ChatSession :=
  {| messages := [ {| role := assistant;
                      content := question (getNextQuestion ∅ opening) |} ];
     state := ∅; stage := opening; status := active; retryCount := 0 |}.

(** Handle RAG-guided follow-up questions. *)
Definition ragFollowup (env : TurnEnv) (r : TurnResult) : TurnResult :=
  if bool_decide (newStage r = rag_followup) && isEmpty (response r) then
    match ragQuestion env with
    | Some q =>
        if isEmpty q then
          (* Skip RAG if no relevant documents, move to context questions *)
          {| newState := newState r; newStage := context_conditions;
             response :=
               question (getNextQuestion (newState r) context_conditions);
             isEscalation := isEscalation r; isComplete := isComplete r;
             newRetryCount := newRetryCount r |}
        else
          {| newState := newState r; newStage := newStage r; response := q;
             isEscalation := isEscalation r; isComplete := isComplete r;
             newRetryCount := newRetryCount r |}
    | None =>
        {| newState := newState r; newStage := context_conditions;
           response :=
             question (getNextQuestion (newState r) context_conditions);
           isEscalation := isEscalation r; isComplete := isComplete r;
           newRetryCount := newRetryCount r |}
    end
  else r.

Definition chatTurn (session : ChatSession) (env : TurnEnv)
  : option ChatSession :=
  if isEmpty (message env) then None
  else if negb (bool_decide (status session = active)) then None
  else
    (* Add user message *)
    let currentMessages :=
      (messages session
       ++ [ {| role := user; content := message env |} ])%list in
    (* Process and get response *)
    let r := processUserMessage (completion env) (message env)
               currentMessages (state session) (stage session)
               (retryCount session) in
    let r := ragFollowup env r in
    (* Add assistant response *)
    let currentMessages :=
      if isEmpty (response r) then currentMessages
      else (currentMessages
            ++ [ {| role := assistant; content := response r |} ])%list in
    (* Update session *)
    let newStatus :=
      if isEscalation r then escalatedStatus
      else if isComplete r then completed else active in
    Some {| messages := currentMessages; state := newState r;
            stage := newStage r; status := newStatus;
            retryCount := newRetryCount r |}.

(** A run of [/api/chat/message] turns from a session; a refused turn leaves
    the session as it is.  ([/api/chat/finish], which changes the status
    only, is [chatFinish] below.) *)
Definition runTurns (session : ChatSession) (envs : list TurnEnv)
  : ChatSession :=
  fold_left (fun s env => default s (chatTurn s env)) envs session.

(** [POST /api/chat/finish], when its storage calls succeed: the submission
    and the handoff are stored and the session is marked completed,
    whatever its stage and its status; messages, state, stage and retry
    count are left as they are. *)
Definition chatFinish (session : ChatSession) : ChatSession :=
  {| messages := messages session; state := state session;
     stage := stage session; status := completed;
     retryCount := retryCount session |}.

(** The two requests that change a stored session. *)
Inductive Request :=
| Message (env : TurnEnv)
| Finish.

Definition request (session : ChatSession) (req : Request) : ChatSession :=
  match req with
  | Message env => default session (chatTurn session env)
  | Finish => chatFinish session
  end.

(** A run of requests from a session; a refused message leaves the session
    as it is. *)
Definition runRequests (session : ChatSession) (reqs : list Request)
  : ChatSession :=
  fold_left request reqs session.

(** A turn with the collaborators down: no completion, no RAG question. *)
Definition say (m : string) : TurnEnv :=
  {| message := m; completion := None; ragQuestion := None |}.

(** A turn in which the RAG collaborator offers the question [q]. *)
Definition sayWithRag (m q : string) : TurnEnv :=
  {| message := m; completion := None; ragQuestion := Some q |}.

(** ** Retrieval ([server/lib/rag.ts]) and the RAG question *)

(** [s.split(/\W+/)]: the maximal runs of word characters, with an empty
    first (last) element when [s] starts (ends) with a separator.  [cur] is
    the element being read and [inSep] tells whether the last character was a
    separator. *)
Fixpoint splitNonWordFrom (cur : string) (inSep : bool) (s : string)
  : list string :=
  match s with
  | EmptyString => [cur]
  | String c r =>
      if isWordChar c
      then splitNonWordFrom (cur +:+ String c EmptyString) false r
      else if inSep then splitNonWordFrom cur true r
           else cur :: splitNonWordFrom EmptyString true r
  end.

Definition splitNonWord (s : string) : list string :=
  splitNonWordFrom EmptyString false s.

(** [text.toLowerCase().split(/\W+/).filter(w => w.length > n)] *)
Definition keywordsOf (n : Z) (text : string) : list string :=
  List.filter (fun w => (strLength w >? n)%Z) (splitNonWord (toLowerCase text)).

(** A stored chunk and a stored document (the columns the retrieval
    reads). *)
Record Chunk := { chunk_id : Z; documentId : Z; chunkText : string }.
Record Document := { doc_id : Z; doc_name : string }.

Record RetrievedChunk := {
  chunkId : Z; sourceTitle : string; chunk_content : string
}.

(** [keywords.forEach(k => { if (text.includes(k)) score += 1 })] *)
Definition chunkScore (keywords : list string) (chunk : Chunk) : Z :=
  let text := toLowerCase (chunkText chunk) in
  fold_left (fun score k => if includes text k then score + 1 else score)
    keywords 0.

(** [scored.sort((a, b) => b.score - a.score)]: the sort is stable, so a
    chunk goes before the chunks after it that score no more. *)
Fixpoint insertByScore (x : Chunk * Z) (l : list (Chunk * Z))
  : list (Chunk * Z) :=
  match l with
  | [] => [x]
  | y :: r => if (snd y <=? snd x)%Z then x :: y :: r
              else y :: insertByScore x r
  end.

Definition sortByScore (l : list (Chunk * Z)) : list (Chunk * Z) :=
  foldr insertByScore [] l.

(** [new Map(allDocuments.map(d => [d.id, d.name])).get(id)]: the last
    document with that id. *)
Definition docName (allDocuments : list Document) (id : Z) : option string :=
  fold_left (fun found d => if (doc_id d =? id)%Z then Some (doc_name d)
                            else found) allDocuments None.

(** The scored chunks [retrieveRelevantChunks] keeps: top 5 most relevant
    chunks, without those that match no keyword. *)
Definition topChunks (allChunks : list Chunk) (keywords : list string)
  : list (Chunk * Z) :=
  let scored := map (fun chunk => (chunk, chunkScore keywords chunk)) allChunks in
  List.filter (fun c => (snd c >? 0)%Z) (take 5 (sortByScore scored)).

(** Build search query from complaint, symptoms, and red flags: the keywords
    of [[complaint, ...symptomKeys, ...redFlags].join(" ")], where
    [symptoms] lists the properties of the symptoms object in property
    order and the symptom keys are those whose value is [true]. *)
Definition searchKeywords (complaint : string)
    (symptoms : list (string * Value)) (redFlags : list string)
  : list string :=
  let searchTerms :=
    join " " ([complaint]
              ++ map fst (List.filter
                            (fun kv => strictEq (Some (snd kv))
                                         (Some (VBool true))) symptoms)
              ++ redFlags)%list in
  keywordsOf 3 searchTerms.

(** What is returned for a chunk that is kept. *)
Definition retrieved (allDocuments : list Document) (chunk : Chunk)
  : RetrievedChunk :=
  {| chunkId := chunk_id chunk;
     sourceTitle :=
       match docName allDocuments (documentId chunk) with
       | Some name =>
           if isEmpty name then "Document " +:+ pretty (documentId chunk)
           else name
       | None => "Document " +:+ pretty (documentId chunk)
       end;
     chunk_content := chunkText chunk |}.

(** Retrieve relevant chunks based on patient symptoms and risk assessment.
    [allChunks] and [allDocuments] are what the storage returns. *)
Definition retrieveRelevantChunks (allChunks : list Chunk)
    (allDocuments : list Document) (complaint : string)
    (symptoms : list (string * Value)) (redFlags : list string)
  : list RetrievedChunk :=
  let keywords := searchKeywords complaint symptoms redFlags in
  map (fun c => retrieved allDocuments (fst c)) (topChunks allChunks keywords).

(** Get RAG context based on symptoms: the keywords of the complaint, the
    location and the opening description. *)
Definition ragKeywords (state : ChatState) : list string :=
  let searchQuery :=
    trim (strOr (state !! "complaint") "" +:+ " "
          +:+ strOr (state !! "location") "" +:+ " "
          +:+ strOr (state !! "openingDescription") "") in
  keywordsOf 3 searchQuery.

(** Simple keyword matching for context. *)
Definition matchesKeyword (keywords : list string) (chunk : Chunk) : bool :=
  existsb (fun k => includes (toLowerCase (chunkText chunk)) k) keywords.

(** The RAG context the chat route builds before asking for a follow-up
    question: the first three chunks that contain a keyword. *)
Definition ragContext (allChunks : list Chunk) (state : ChatState) : string :=
  let keywords := ragKeywords state in
  let matchedChunks :=
    take 3 (List.filter (matchesKeyword keywords) allChunks) in
  join (nl +:+ nl) (map chunkText matchedChunks).

(** Generate a RAG-guided follow-up question based on symptoms and document
    knowledge.  [reply] is the outcome of the completion call: [Some c] for a
    reply whose content is [c], [None] when the call fails. *)
Definition generateRAGQuestion (reply : option string) (state : ChatState)
    (ragContext : string) : option string :=
  (* If no RAG context available, skip RAG questions *)
  if isEmpty ragContext || (strLength (trim ragContext) =? 0)%Z then None
  else
    match reply with
    | Some c => if isEmpty (trim c) then None else Some (trim c)
    | None =>
        (* Fallback to simple questions *)
        let questions :=
          [ "Based on your symptoms, have you experienced any similar episodes in the past?";
            "Have you noticed if your symptoms are worse at any particular time of day?";
            "Is there anything else that you think might be relevant to your symptoms that we haven't discussed?" ] in
        let ragCount := orElse (state !! "ragQuestionsAsked") (VNum 0) in
        if numLt (Some ragCount) (Z.of_nat (length questions)) then
          match ragCount with
          | VNum n => if (n <? 0)%Z then None else questions !! Z.to_nat n
          | _ => None
          end
        else None
    end.

(** One turn of the chat route with its RAG question computed as the route
    does, from the knowledge base [allChunks] and the outcome [ragReply] of
    the completion call of [generateRAGQuestion]. *)
Definition routeTurn (allChunks : list Chunk) (ragReply : option string)
    (session : ChatSession) (m : string) (completion : option string)
  : option ChatSession :=
  let r := processUserMessage completion m
             (messages session ++ [ {| role := user; content := m |} ])%list
             (state session) (stage session) (retryCount session) in
  chatTurn session
    {| message := m; completion := completion;
       ragQuestion :=
         generateRAGQuestion ragReply (newState r)
           (ragContext allChunks (newState r)) |}.

(** * Vocabulary of the statements *)

(** ** Emergency keywords *)

(** The keyword list as the specification words it, with its
    [stiff neck+fever] entry read as a conjunction (this definition follows
    the specification, not the source; it is what [checkEmergencySigns] is
    compared with). *)
Definition specifiedKeywords : list string :=
  [ "severe chest pain"; "can't breathe"; "blue lips"; "collapsed"; "fainting";
    "confusion"; "seizure"; "worst headache"; "purple non-blanching rash";
    "heavy bleeding"; "unconscious" ].

Definition specifiedEmergency (input : string) : bool :=
  let lower := toLowerCase input in
  existsb (fun keyword => includes lower keyword) specifiedKeywords
  || (includes lower "stiff neck" && includes lower "fever").

(** The keywords of [checkEmergencySigns] other than the two that come from
    the [stiff neck+fever] entry. *)
Definition plainKeywords : list string :=
  [ "severe chest pain"; "severe breathing"; "can't breathe"; "blue lips";
    "collapsed"; "fainted"; "fainting"; "confusion"; "confused"; "seizure";
    "worst headache"; "purple rash"; "heavy bleeding"; "bleeding heavily";
    "unconscious"; "not responding" ].

(** ** Fact reconciliation *)

(** The calls to [onDivergence] about key [k]. *)
Definition eventsFor (k : string) (events : list Divergence)
  : list Divergence :=
  filter (fun e => div_key e = k) events.

(** The events an admitted fact adds: one, when a callback is supplied and
    the projection object yields a value for the key of the fact (an own
    fact or an inherited member) other than the value of the fact. *)
Definition divergenceOf (deterministic : gmap string Value)
    (opts : option ExtractFactsOpts) (f : ExtractedFact) : list Divergence :=
  match jsGet deterministic (key f), opts with
  | Some d, Some o =>
      if negb (strictEq (Some d) (Some (value f))) && onDivergence o
      then [ {| div_session := sessionId o; div_key := key f;
                llmValue := value f; stateValue := d |} ]
      else []
  | _, _ => []
  end.

(** ** Red-flag verdicts *)

(** The list a rule ends up in. *)
Inductive Verdict := Triggered | NotTriggered | NotAssessed.

Definition sameVerdict (a b : Verdict) : bool :=
  match a, b with
  | Triggered, Triggered | NotTriggered, NotTriggered
  | NotAssessed, NotAssessed => true
  | _, _ => false
  end.

Definition verdict (record : gmap string Value) (rule : RedFlagRule)
  : Verdict :=
  if ruleMatches record rule then Triggered
  else if existsb (fun f => hasKey record f) (requiredFacts rule)
       then NotTriggered
       else NotAssessed.

(** The rules of the table with verdict [v], in table order. *)
Definition rulesWith (record : gmap string Value) (v : Verdict)
    (rules : list RedFlagRule) : list RedFlagRule :=
  List.filter (fun rule => sameVerdict (verdict record rule) v) rules.

Definition toTriggered (rule : RedFlagRule) : TriggeredFlag :=
  {| tf_code := code rule; tf_label := label rule;
     evidence := evidence_prompt rule |}.

(** ** Band decision *)

(** What the band decision reads from the answers. *)
Definition flagKeys : list string :=
  [ "confusion"; "severeBleeding"; "shortnessOfBreath"; "radiatingPain";
    "cardiacHistory"; "cyanosis"; "speakingDifficulty"; "vomitingBlood";
    "rigidAbdomen"; "pregnancy"; "bleeding"; "thunderclap"; "neckStiffness";
    "visualDisturbance" ].

(** ** Stage order and the write-once invariant *)

(** Position of a stage in the conversation. *)
Definition stageRank (s : Stage) : nat :=
  match s with
  | opening => 0 | localisation => 1 | time_start => 2 | time_trend => 3
  | severity => 4 | danger_breathing => 5 | danger_collapse => 6
  | danger_severe_pain => 7 | danger_bleeding => 8 | danger_confusion => 9
  | red_flags => 10 | rag_followup => 11 | context_conditions => 12
  | context_medications => 13 | context_surgery => 14 | functional_eat => 15
  | functional_move => 16 | functional_activities => 17 | collect_name => 18
  | summary => 19 | complete => 20 | escalated => 21
  end.

(** The stage each field of the chat state is first written in. *)
Definition fieldStages : list (string * Stage) :=
  [ ("complaint", opening); ("openingDescription", opening);
    ("location", localisation); ("onset", time_start);
    ("timeTrend", time_trend); ("gettingWorse", time_trend);
    ("severity", severity); ("troubleBreathing", danger_breathing);
    ("collapse", danger_collapse); ("severePain", danger_severe_pain);
    ("severeBleeding", danger_bleeding); ("confusion", danger_confusion);
    ("radiatingPain", red_flags); ("sweating", red_flags);
    ("nausea", red_flags); ("wheezing", red_flags);
    ("coughingBlood", red_flags); ("chestPain", red_flags);
    ("vomitingBlood", red_flags); ("bloodyStools", red_flags);
    ("worseWithMovement", red_flags); ("feverWithPain", red_flags);
    ("pregnancy", red_flags); ("thunderclap", red_flags);
    ("neckStiffness", red_flags); ("visualDisturbance", red_flags);
    ("neurologicalSymptoms", red_flags); ("photophobia", red_flags);
    ("nonBlanchingRash", red_flags); ("canKeepFluids", red_flags);
    ("ragQuestionsAsked", red_flags);
    ("ragAnswer0", rag_followup); ("ragAnswer1", rag_followup);
    ("ragAnswer2", rag_followup);
    ("medicalHistory", context_conditions);
    ("medications", context_medications);
    ("previousSurgery", context_surgery);
    ("canEatDrink", functional_eat); ("canMove", functional_move);
    ("stoppingActivities", functional_activities);
    ("patientName", collect_name) ].

(** The two stages that loop and keep writing fields of their own. *)
Definition accumulating (s : Stage) : bool :=
  match s with red_flags | rag_followup => true | _ => false end.

(** Whether field [k] may be set when the session is at stage [s]: it
    belongs to an earlier stage, or to [s] itself when [s] loops. *)
Definition allowed (s : Stage) (k : string) : bool :=
  match assoc k fieldStages with
  | Some w =>
      if accumulating s then (stageRank w <=? stageRank s)%nat
      else (stageRank w <? stageRank s)%nat
  | None => false
  end.

Definition keysAllowed (s : Stage) (st : ChatState) : Prop :=
  forall k, is_Some (st !! k) -> allowed s k = true.

Definition complaintSet (st : ChatState) : Prop :=
  forall v, st !! "complaint" = Some v -> truthy (Some v) = true.

(** In the RAG loop the counter is 0, 1 or 2 and no answer is stored yet at
    or above it. *)
Definition ragCounter (st : ChatState) : Prop :=
  (st !! "ragQuestionsAsked" = Some (VNum 0)
   /\ st !! "ragAnswer0" = None /\ st !! "ragAnswer1" = None
   /\ st !! "ragAnswer2" = None)
  \/ (st !! "ragQuestionsAsked" = Some (VNum 1)
      /\ st !! "ragAnswer1" = None /\ st !! "ragAnswer2" = None)
  \/ (st !! "ragQuestionsAsked" = Some (VNum 2) /\ st !! "ragAnswer2" = None).

Definition sessionInvariant (s : ChatSession) : Prop :=
  keysAllowed (stage s) (state s)
  /\ complaintSet (state s)
  /\ (stage s = rag_followup -> ragCounter (state s))
  /\ (status s = active -> stage s <> complete /\ stage s <> escalated).

(** Every field but the loop counter keeps the value it has. *)
Definition keepsFields (st st' : ChatState) : Prop :=
  forall k v, k <> "ragQuestionsAsked" -> st !! k = Some v -> st' !! k = Some v.

(** The sessions reached from the start of a chat by turns in which the
    forced advance never fires at a stage missing from its list. *)
Inductive reachable : ChatSession -> Prop :=
| reach_start : reachable initialSession
| reach_turn s env s' :
    reachable s ->
    (3 <= retryCount s -> In (stage s) stages) ->
    chatTurn s env = Some s' ->
    reachable s'.

(** What one turn may do to the state at stage [stg]: reset it on a rejected
    summary or keep its fields, and keep the invariant. *)
Definition stepOK (stg : Stage) (st : ChatState) (input : string)
    (r : TurnResult) : Prop :=
  ((stg = summary /\ parseYesNo input = Some false
    /\ newState r = ∅ /\ newStage r = opening)
   \/ keepsFields st (newState r))
  /\ keysAllowed (newStage r) (newState r)
  /\ complaintSet (newState r)
  /\ (newStage r = rag_followup -> ragCounter (newState r))
  /\ (newStage r = complete \/ newStage r = escalated ->
      isEscalation r = true \/ isComplete r = true).

(** Storing a list of fields, last first. *)
Definition store (ws : list (string * Value)) (st : ChatState) : ChatState :=
  foldr (fun kv m => <[kv.1 := kv.2]> m) st ws.

Definition storable (st : ChatState) (stg' : Stage) (kv : string * Value)
  : Prop :=
  (st !! kv.1 = None \/ kv.1 = "ragQuestionsAsked")
  /\ allowed stg' kv.1 = true
  /\ (kv.1 = "complaint" -> truthy (Some kv.2) = true).

(** A chat about chest pain up to the last red-flag question. *)
Definition chestPainIntake : list TurnEnv :=
  [ say "I have chest pain"; say "in my chest"; say "since yesterday";
    say "getting worse"; say "4";
    say "no"; say "no"; say "no"; say "no"; say "no";
    say "no"; say "no" ].

(** The rest of that chat, without RAG questions, up to the name. *)
Definition contextAndFunction : list TurnEnv :=
  [ say "no"; say "none"; say "none"; say "none";
    say "yes"; say "yes"; say "no" ].

(** ** Danger checks and bands *)

(** The field each of the four danger checks that escalate on any "yes"
    stores its answer in. *)
Definition dangerField (stg : Stage) : string :=
  match stg with
  | danger_breathing => "troubleBreathing"
  | danger_collapse => "collapse"
  | danger_bleeding => "severeBleeding"
  | danger_confusion => "confusion"
  | _ => ""
  end.

(** Green < Amber < Red. *)
Definition bandRank (b : RiskBand) : nat :=
  match b with Green => 0 | Amber => 1 | Red => 2 end.

(** [f2] holds a flag whenever [f1] does. *)
Definition flagsFollow (f1 f2 : list string) : Prop := f1 <> [] -> f2 <> [].

(** ** Contributions of an extraction reply *)

(** A negation at or above the threshold of its key. *)
Definition passes (neg : ExtractedFact) : bool :=
  negb (confidence neg <? threshold (key neg))%Z.

(** The keys a reply contributes to the record: those of its admitted facts
    and of its negations at or above the threshold. *)
Definition contributedKeys (reply : option ExtractionResult)
    (messages : list ChatMessage) : list string :=
  if isEmpty (trim (patientText messages)) then []
  else match reply with
       | Some result =>
           (map key (List.filter (admitted (patientText messages))
                       (default [] (facts result)))
            ++ map key (List.filter passes (default [] (negations result))))%list
       | None => []
       end.

(** The divergence events a reply gives rise to: those of its admitted
    facts, in reply order. *)
Definition expectedEvents (reply : option ExtractionResult)
    (messages : list ChatMessage) (st : gmap string Value)
    (opts : option ExtractFactsOpts) : list Divergence :=
  if isEmpty (trim (patientText messages)) then []
  else match reply with
       | Some result =>
           flat_map (divergenceOf (deterministicFactsFromState st) opts)
             (List.filter (admitted (patientText messages))
                (default [] (facts result)))
       | None => []
       end.

(** The state field each fact key of the projection is read from. *)
Definition factSources : list (string * string) :=
  [ ("age", "age_years"); ("sex", "sex"); ("complaint", "chief_complaint");
    ("openingDescription", "chief_complaint"); ("onset", "onset");
    ("duration", "duration"); ("severity", "severity_score");
    ("location", "location"); ("shortnessOfBreath", "shortness_of_breath");
    ("troubleBreathing", "shortness_of_breath"); ("collapse", "collapse");
    ("confusion", "confusion"); ("severeBleeding", "severe_bleeding");
    ("radiatingPain", "radiating_pain"); ("thunderclap", "thunderclap");
    ("neckStiffness", "neck_stiffness");
    ("nonBlanchingRash", "non_blanching_rash");
    ("vomitingBlood", "vomiting_blood"); ("pregnancy", "pregnant_possible");
    ("fever", "fever") ].

(** Every entry of [m] is read from the state [st]. *)
Definition readFrom (st m : gmap string Value) : Prop :=
  forall k v, m !! k = Some v ->
    exists src, In (src, k) factSources /\ st !! src = Some v /\ v <> VNull.

(** Whether [s] ends in a word character ([prev] when [s] is empty). *)
Fixpoint endsInWord (prev : bool) (s : string) : bool :=
  match s with
  | EmptyString => prev
  | String c r => endsInWord (isWordChar c) r
  end.

(** ** Ranking *)

(** Scored chunks in the order of the sort: no later chunk scores more. *)
Definition ranked (l : list (Chunk * Z)) : Prop :=
  StronglySorted (fun a b => snd b <= snd a) l.

(** ** Status and shape of a session *)

(** The status the route stores against the stage it stores. *)
Definition statusMatches (s : ChatSession) : Prop :=
  match status s with
  | active => stage s <> complete /\ stage s <> escalated
  | completed => stage s = complete
  | escalatedStatus => stage s = escalated
  end.

(** The flags [(isEscalation, isComplete)] a turn returns with each stage. *)
Definition stageFlags (s : Stage) : bool * bool :=
  match s with
  | escalated => (true, true)
  | complete => (false, true)
  | _ => (false, false)
  end.

Definition isFinish (req : Request) : bool :=
  match req with Finish => true | Message _ => false end.

(** The status of a session against its stage, given whether a finish has
    been requested. *)
Definition lifecycle (finished : bool) (s : ChatSession) : Prop :=
  if finished then status s = completed else statusMatches s.

(** Fields the rules engine or the fact projection reads and no stage of the
    chat writes. *)
Definition neverAsked : list string :=
  [ "age"; "sex"; "shortnessOfBreath"; "cardiacHistory"; "cyanosis";
    "speakingDifficulty"; "rigidAbdomen"; "bleeding" ].

(** Fields whose "yes" escalates at once: the danger checks, apart from
    severe pain, and the critical red flags. *)
Definition dangerFields : list string :=
  ([ "troubleBreathing"; "collapse"; "severeBleeding"; "confusion" ]
   ++ criticalFlags)%list.

(** What a field of the chat state may hold; [closed] tells whether the
    session has escalated. *)
Definition fieldOK (closed : bool) (k : string) (v : Value) : bool :=
  if existsb (String.eqb k) neverAsked then false
  else if existsb (String.eqb k) dangerFields
       then closed || negb (truthy (Some v))
  else if String.eqb k "severity"
       then match v with
            | VNum n => (0 <=? n)%Z && (n <=? 10)%Z
            | _ => false
            end
  else if String.eqb k "complaint"
       then match v with
            | VStr c => existsb (String.eqb c) COMPLAINTS
            | _ => false
            end
  else true.

Definition stateOK (closed : bool) (st : ChatState) : Prop :=
  forall k v, st !! k = Some v -> fieldOK closed k v = true.

Definition sessionOK (s : ChatSession) : Prop :=
  stateOK (bool_decide (status s = escalatedStatus)) (state s).

(** What raises a red flag for a submission made from a chat. *)
Definition chatRedFlag (st : ChatState) : bool :=
  numGe (st !! "severity") 9
  || (streq (complaintLower st) "chest pain" && truthy (st !! "radiatingPain"))
  || (streq (complaintLower st) "headache"
      && (truthy (st !! "neckStiffness") || truthy (st !! "visualDisturbance"))).

(** * Properties *)

(** ** Rules engine *)

Lemma numGe_num (n k : Z) : numGe (Some (VNum n)) k = true <-> k <= n.
Proof. unfold numGe; simpl. apply Z.leb_le. Qed.

Lemma numGt_num (n k : Z) : numGt (Some (VNum n)) k = true <-> k < n.
Proof. unfold numGt; simpl. apply Z.ltb_lt. Qed.

Lemma evaluateTriage_redFlags answers :
  redFlags (evaluateTriage answers) = collectFlags answers.
Proof. reflexivity. Qed.

(** The band decision of [evaluateTriage], read off its definition. *)
Lemma evaluateTriage_riskBand answers :
  riskBand (evaluateTriage answers) =
    match collectFlags answers with
    | _ :: _ => Red
    | [] => if numGe (answers !! "severity") 6 || numGt (answers !! "age") 75
            then Amber else Green
    end.
Proof.
  unfold evaluateTriage; cbn [riskBand].
  destruct (collectFlags answers); reflexivity.
Qed.

(** C4. Band characterization by [evaluateTriage]: for every answers record
    whose severity and age are the numbers [s] and [a], a result with at
    least one red flag has band Red whatever [s] and [a] are; a result with
    no flag has band Amber exactly when [s >= 6] or [a > 75], and Green
    exactly otherwise. *)
Theorem evaluateTriage_band (answers : gmap string Value) (s a : Z) :
  answers !! "severity" = Some (VNum s) ->
  answers !! "age" = Some (VNum a) ->
  let r := evaluateTriage answers in
  (redFlags r <> [] -> riskBand r = Red)
  /\ (redFlags r = [] ->
      (riskBand r = Amber <-> (6 <= s \/ 75 < a))
      /\ (riskBand r = Green <-> ~ (6 <= s \/ 75 < a))).
Proof.
  intros Hs Ha r. subst r.
  rewrite evaluateTriage_redFlags, evaluateTriage_riskBand, Hs, Ha.
  split.
  - destruct (collectFlags answers); [congruence | reflexivity].
  - intros ->.
    destruct (numGe (Some (VNum s)) 6) eqn:E6;
      destruct (numGt (Some (VNum a)) 75) eqn:E75; simpl;
      try apply numGe_num in E6; try apply numGt_num in E75;
      try (apply not_true_iff_false in E6; rewrite numGe_num in E6);
      try (apply not_true_iff_false in E75; rewrite numGt_num in E75);
      (split; split; intros; try discriminate; try reflexivity; lia).
Qed.

Lemma evaluateTriage_band_witness :
  let answers : gmap string Value :=
    <["complaint" := VStr "chest pain"]>
      (<["shortnessOfBreath" := VBool true]>
         (<["severity" := VNum 7]> (<["age" := VNum 55]> ∅))) in
  redFlags (evaluateTriage answers)
    = ["Chest pain + SOB"; "Age > 50 with moderate chest pain"]
  /\ riskBand (evaluateTriage answers) = Red.
Proof.
  intros answers. split; [reflexivity |].
  apply (evaluateTriage_band answers 7 55); [reflexivity | reflexivity |].
  discriminate.
Defined.

(** ** Escalation *)

(** C3. Escalation precedence: when the raw input matches an emergency
    keyword, [processUserMessage] returns stage [escalated] with
    [isEscalation] and [isComplete] set, for every current stage and retry
    count and whatever the completion replies, and the chat state comes back
    as it was given. *)
Theorem escalation_precedence (completion : option string) (input : string)
    (history : list ChatMessage) (st : ChatState) (stage : Stage) (rc : Z) :
  checkEmergencySigns input = true ->
  let r := processUserMessage completion input history st stage rc in
  newStage r = escalated
  /\ isEscalation r = true
  /\ isComplete r = true
  /\ newState r = st
  /\ response r = EMERGENCY_RESPONSE
  /\ newRetryCount r = 0.
Proof.
  intros H r. subst r. unfold processUserMessage. rewrite H.
  repeat split.
Qed.

Lemma escalation_precedence_witness :
  let r := processUserMessage None "I can't breathe" [] ∅ opening 0 in
  newStage r = escalated /\ isComplete r = true.
Proof.
  intros r.
  destruct (escalation_precedence None "I can't breathe" [] ∅ opening 0)
    as (H1 & _ & H3 & _); [reflexivity |].
  split; assumption.
Defined.

(** ** Stage parsing: severity *)

Lemma takeDigits_app (ds rest : string) :
  Forall (fun c => isDigit c = true) (list_ascii_of_string ds) ->
  boundaryDigit rest = true ->
  takeDigits (ds +:+ rest) = ds.
Proof.
  induction ds as [|c ds IH]; intros Hd Hr.
  - destruct rest as [|c r]; [reflexivity |]. cbn [boundaryDigit] in Hr.
    apply negb_true_iff in Hr.
    change (takeDigits (String c r) = ""). cbn [takeDigits]. now rewrite Hr.
  - inversion Hd as [|? ? Hc Hds]; subst.
    change (takeDigits (String c (ds +:+ rest)) = String c ds).
    cbn [takeDigits]. rewrite Hc. f_equal. now apply IH.
Qed.

(** [parseNumber] reads the first run of digits: with no digit in [pre], a
    non-empty run [ds] of digits and a rest that does not go on with a digit,
    the number parsed from [pre ds rest] is the one [ds] denotes. *)
Lemma parseNumber_first_run (pre ds rest : string) :
  Forall (fun c => isDigit c = false) (list_ascii_of_string pre) ->
  Forall (fun c => isDigit c = true) (list_ascii_of_string ds) ->
  ds <> "" ->
  boundaryDigit rest = true ->
  parseNumber (pre +:+ ds +:+ rest) = Some (parseInt ds).
Proof.
  intros Hpre Hds Hne Hrest. unfold parseNumber.
  assert (matchDigits (pre +:+ ds +:+ rest) = Some ds) as ->; [| reflexivity].
  induction pre as [|c pre IH].
  - destruct ds as [|d ds]; [congruence |].
    inversion Hds as [|? ? Hd Hds']; subst.
    change (matchDigits (String d (ds +:+ rest)) = Some (String d ds)).
    cbn [matchDigits]. rewrite Hd. f_equal.
    change (takeDigits (String d ds +:+ rest) = String d ds).
    now apply takeDigits_app.
  - inversion Hpre as [|? ? Hc Hpre']; subst.
    change (matchDigits (String c (pre +:+ ds +:+ rest)) = Some ds).
    cbn [matchDigits]. rewrite Hc. now apply IH.
Qed.

Lemma parseNumber_None_unparsed (input : string) :
  parseNumber input = None <->
  Forall (fun c => isDigit c = false) (list_ascii_of_string input).
Proof.
  unfold parseNumber.
  induction input as [|c r IH]; cbn [matchDigits list_ascii_of_string].
  - split; [constructor | reflexivity].
  - destruct (isDigit c) eqn:E.
    + split; [discriminate |]. intros H. inversion H; congruence.
    + rewrite IH. split; [now constructor |]. intros H. now inversion H.
Qed.

(** C10, as stated, fails: "any other input leaves severity unset and
    increments the retry count" holds only when the stage logic is reached.
    After three failed answers the forced advance takes the fourth, "11",
    to [danger_breathing] with the retry count back at 0; and an answer with
    an emergency keyword escalates, again with retry count 0.  The severity
    stays unset in both. *)
Lemma severity_retry_counterexample :
  (let r := processUserMessage None "11" [] ∅ severity 3 in
   newState r !! "severity" = None
   /\ newStage r = danger_breathing /\ newRetryCount r = 0)
  /\ (let r := processUserMessage None "15, and I fainted" [] ∅ severity 1 in
      newState r !! "severity" = None
      /\ newStage r = escalated /\ newRetryCount r = 0).
Proof. vm_compute. repeat apply conj; reflexivity. Qed.

(** C10 (amended). Severity acceptance range: at the [severity] stage,
    [processUserMessage] changes the chat state only by storing, under
    [severity], the number [n] parsed from the first run of digits of the
    input, and only when [0 <= n <= 10].  When the stage logic is reached
    (no emergency keyword, fewer than three retries) an accepted number
    advances to [danger_breathing], while any other input, such as 11, leaves
    the state as it was, keeps the stage and increments the retry count.
    With an emergency keyword the turn escalates, and from the third retry on
    the forced advance moves to [danger_breathing] whatever the input; both
    leave the state as it was and reset the retry count. *)
Theorem severity_acceptance (completion : option string) (input : string)
    (history : list ChatMessage) (st : ChatState) (rc : Z) :
  let r := processUserMessage completion input history st severity rc in
  (newState r = st
   \/ exists n, parseNumber input = Some n /\ 0 <= n <= 10
                /\ newState r = <["severity" := VNum n]> st)
  /\ (checkEmergencySigns input = false -> rc < 3 ->
      match parseNumber input with
      | Some n =>
          if (0 <=? n)%Z && (n <=? 10)%Z
          then newState r = <["severity" := VNum n]> st
               /\ newStage r = danger_breathing /\ newRetryCount r = 0
          else newState r = st
               /\ newStage r = severity /\ newRetryCount r = rc + 1
      | None => newState r = st
                /\ newStage r = severity /\ newRetryCount r = rc + 1
      end)
  /\ (checkEmergencySigns input = true ->
      newState r = st /\ newStage r = escalated /\ newRetryCount r = 0)
  /\ (checkEmergencySigns input = false -> 3 <= rc ->
      newState r = st /\ newStage r = danger_breathing
      /\ newRetryCount r = 0).
Proof.
  intros r. subst r. unfold processUserMessage. split; [| split; [| split]].
  - destruct (checkEmergencySigns input); [now left |].
    destruct (_ && _).
    + destruct (stages !! _); [now left |].
      cbn [stageSwitch].
      destruct (parseNumber input) as [n|] eqn:E; [| now left].
      destruct ((0 <=? n)%Z && (n <=? 10)%Z) eqn:R; [| now left].
      right. exists n. apply andb_true_iff in R as [R1 R2].
      apply Z.leb_le in R1, R2. repeat split; auto.
    + cbn [stageSwitch].
      destruct (parseNumber input) as [n|] eqn:E; [| now left].
      destruct ((0 <=? n)%Z && (n <=? 10)%Z) eqn:R; [| now left].
      right. exists n. apply andb_true_iff in R as [R1 R2].
      apply Z.leb_le in R1, R2. repeat split; auto.
  - intros -> Hrc.
    assert ((rc >=? 3)%Z = false) as -> by lia.
    cbn [andb stageSwitch].
    destruct (parseNumber input) as [n|]; [| repeat split].
    destruct ((0 <=? n)%Z && (n <=? 10)%Z); repeat split.
  - intros ->. repeat split.
  - intros -> Hrc.
    assert ((rc >=? 3)%Z = true) as -> by lia.
    replace (indexOf stages severity <? Z.of_nat (length stages) - 1)%Z
      with true by reflexivity.
    replace (stages !! Z.to_nat (indexOf stages severity + 1))
      with (Some danger_breathing) by reflexivity.
    repeat split.
Qed.

Lemma severity_acceptance_witness :
  let r := processUserMessage None "11" [] ∅ severity 1 in
  newState r = ∅ /\ newStage r = severity /\ newRetryCount r = 2.
Proof.
  intros r.
  exact (proj1 (proj2 (severity_acceptance None "11" [] ∅ 1)) eq_refl eq_refl).
Defined.

(** ** The emergency keyword list *)


(** C5, as stated, fails: the source list has synonyms the specified list
    lacks ("fainted" fires), has "purple rash" where the specification has
    "purple non-blanching rash" (which therefore does not fire), and holds
    "stiff neck" and "fever" as two independent keywords, so that an input
    with "fever" alone fires. *)
Lemma keyword_list_counterexample :
  (checkEmergencySigns "I fainted" = true
   /\ specifiedEmergency "I fainted" = false)
  /\ (checkEmergencySigns "a purple non-blanching rash" = false
      /\ specifiedEmergency "a purple non-blanching rash" = true)
  /\ (includes (toLowerCase "I have a fever") "fever" = true
      /\ includes (toLowerCase "I have a fever") "stiff neck" = false
      /\ existsb (includes (toLowerCase "I have a fever")) specifiedKeywords
         = false
      /\ checkEmergencySigns "I have a fever" = true).
Proof. vm_compute. repeat apply conj; reflexivity. Qed.

(** What the turn does on "fever" alone, at the opening stage: it escalates
    and the complaint is never parsed, although "fever" is one of the five
    complaints of [COMPLAINTS] and the last opening fallback prompt asks the
    patient to name it. *)
Lemma fever_alone_escalates :
  parseComplaint "fever" = Some "fever"
  /\ includes (final (default {| first := ""; second := ""; final := "" |}
                        (assoc "opening" FALLBACK_PROMPTS))) "fever" = true
  /\ let r := processUserMessage None "fever" [] ∅ opening 2 in
     newStage r = escalated /\ isEscalation r = true /\ newState r = ∅.
Proof. vm_compute. repeat apply conj; reflexivity. Qed.

Lemma existsb_In_true {A} (f : A -> bool) (l : list A) (x : A) :
  In x l -> f x = true -> existsb f l = true.
Proof. intros Hin Hx. apply existsb_exists. eauto. Qed.

(** C5 (amended). On every input that holds both or neither of "stiff neck"
    and "fever", the emergency short-circuit fires exactly when the
    lower-cased input contains both of them or contains one of the other
    keywords of the source list. *)
Theorem emergency_keywords_fidelity (input : string) :
  let lower := toLowerCase input in
  includes lower "stiff neck" = includes lower "fever" ->
  checkEmergencySigns input =
    existsb (fun keyword => includes lower keyword) plainKeywords
    || (includes lower "stiff neck" && includes lower "fever").
Proof.
  intros lower Heq. unfold checkEmergencySigns. fold lower.
  apply eq_true_iff_eq. split.
  - intros H. apply existsb_exists in H as (k & Hin & Hk).
    apply orb_true_iff.
    cbv [emergencyKeywords In] in Hin.
    repeat (destruct Hin as [<- | Hin];
            [ first
                [ left; eapply existsb_In_true; [| exact Hk];
                  cbv [plainKeywords In]; tauto
                | right;
                  first [ rewrite <- Heq, Hk; reflexivity
                        | rewrite Heq, Hk; reflexivity ] ]
            | ]).
    contradiction.
  - intros H. apply orb_true_iff in H as [H | H].
    + apply existsb_exists in H as (k & Hin & Hk).
      eapply existsb_In_true; [| exact Hk].
      cbv [plainKeywords In] in Hin. cbv [emergencyKeywords In].
      repeat (destruct Hin as [<- | Hin]; [tauto |]). contradiction.
    + apply andb_true_iff in H as [H _].
      eapply existsb_In_true; [| exact H].
      cbv [emergencyKeywords In]. tauto.
Qed.

Lemma emergency_keywords_fidelity_witness :
  checkEmergencySigns "My neck hurts and I feel hot" = false.
Proof.
  rewrite (emergency_keywords_fidelity "My neck hurts and I feel hot");
    reflexivity.
Defined.

(** ** The retry ceiling *)

(** The stage the forced advance moves to: the successor in [stages]. *)
Lemma forced_advance_step (completion : option string) (input : string)
    (history : list ChatMessage) (st : ChatState) (rc : Z)
    (n : nat) (stage next : Stage) :
  checkEmergencySigns input = false ->
  3 <= rc ->
  stages !! n = Some stage ->
  stages !! S n = Some next ->
  processUserMessage completion input history st stage rc
  = turn st next (question (getNextQuestion st next)) 0.
Proof.
  intros Hem Hrc Hn Hs. unfold processUserMessage. rewrite Hem.
  assert ((rc >=? 3)%Z = true) as -> by lia.
  do 18 (destruct n as [|n];
         [ cbv in Hn, Hs;
           first [ discriminate
                 | injection Hn as <-; injection Hs as <-; reflexivity ] | ]).
  discriminate.
Qed.

(** C6, as stated, fails.  At [summary], the last entry of the forced-advance
    list, a fourth unparseable answer stays at [summary] and the retry count
    keeps growing; and [collect_name], which the list omits, is not exempt:
    [indexOf] answers [-1] for it, so the turn moves to the first entry of
    the list, [opening], with the state kept. *)
Lemma retry_ceiling_counterexample :
  (let r := processUserMessage None "maybe" [] ∅ summary 3 in
   newStage r = summary /\ newRetryCount r = 4)
  /\ (let st : ChatState := <["complaint" := VStr "headache"]> ∅ in
      let r := processUserMessage None "x" [] st collect_name 3 in
      newStage r = opening
      /\ newState r !! "complaint" = Some (VStr "headache")
      /\ newRetryCount r = 0).
Proof. vm_compute. repeat apply conj; reflexivity. Qed.

(** A name is counted in UTF-16 code units after [trim]: the one-letter name
    U+00E9 and a name of two no-break spaces U+00A0 are too short, and keep
    the stage. *)
Lemma short_names_rejected :
  let e_acute := String (ascii_of_N 233) EmptyString in
  let nbsp := String (ascii_of_N 160) EmptyString in
  (let r := processUserMessage None e_acute [] ∅ collect_name 0 in
   newStage r = collect_name /\ newRetryCount r = 1
   /\ newState r !! "patientName" = None)
  /\ (let r := processUserMessage None (nbsp +:+ nbsp) [] ∅ collect_name 0 in
      newStage r = collect_name /\ newRetryCount r = 1
      /\ newState r !! "patientName" = None).
Proof. vm_compute. repeat apply conj; reflexivity. Qed.

(** C6 (amended). With no emergency keyword in the input: (1) at every stage
    of the forced-advance list that has a successor in it (all of them but
    [summary]; the list holds neither [rag_followup] nor [collect_name]) a
    call with [retryCount >= 3] moves to that successor whatever the input
    is, keeps the state and resets the retry count; (2) at [summary] there
    is no forced advance: an answer that is neither yes nor no keeps the
    stage and the state and increments the retry count; (3) at
    [collect_name] with [retryCount < 3], a name that after [trim] is shorter
    than two characters (UTF-16 code units, as [length] counts them) keeps
    the stage and the state and increments the retry count, and a longer
    one is stored and moves to [summary]. *)
Theorem retry_ceiling (completion : option string) (input : string)
    (history : list ChatMessage) (st : ChatState) (rc : Z) :
  checkEmergencySigns input = false ->
  (forall (n : nat) (stage next : Stage),
      3 <= rc -> stages !! n = Some stage -> stages !! S n = Some next ->
      let r := processUserMessage completion input history st stage rc in
      newStage r = next /\ newState r = st /\ newRetryCount r = 0
      /\ isEscalation r = false /\ isComplete r = false)
  /\ (parseYesNo input = None ->
      let r := processUserMessage completion input history st summary rc in
      newStage r = summary /\ newState r = st /\ newRetryCount r = rc + 1)
  /\ (rc < 3 ->
      let r := processUserMessage completion input history st collect_name rc in
      if (strLength (trim input) >=? 2)%Z
      then newStage r = summary
           /\ newState r = <["patientName" := VStr (trim input)]> st
           /\ newRetryCount r = 0
      else newStage r = collect_name /\ newState r = st
           /\ newRetryCount r = rc + 1).
Proof.
  intros Hem. split; [| split].
  - intros n stage next Hrc Hn Hs r. subst r.
    rewrite (forced_advance_step completion input history st rc n stage next
               Hem Hrc Hn Hs).
    repeat split.
  - intros Hyn r. subst r. unfold processUserMessage. rewrite Hem.
    replace (indexOf stages summary <? Z.of_nat (length stages) - 1)%Z
      with false by reflexivity.
    rewrite andb_false_r. cbn [stageSwitch]. rewrite Hyn. repeat split.
  - intros Hrc r. subst r. unfold processUserMessage. rewrite Hem.
    assert ((rc >=? 3)%Z = false) as -> by lia.
    cbn [andb stageSwitch].
    destruct (strLength (trim input) >=? 2)%Z; repeat split.
Qed.

Lemma retry_ceiling_witness :
  let r := processUserMessage None "no idea, sorry" [] ∅ severity 3 in
  newStage r = danger_breathing /\ newState r = ∅ /\ newRetryCount r = 0.
Proof.
  intros r.
  destruct (retry_ceiling None "no idea, sorry" [] ∅ 3 eq_refl) as [H _].
  destruct (H 4%nat severity danger_breathing ltac:(lia) eq_refl eq_refl)
    as (H1 & H2 & H3 & _).
  repeat split; assumption.
Defined.

(** ** Plain objects *)

Lemma lookup_jsSet_ne (obj : gmap string Value) (k k' : string) (v : Value) :
  k' <> k -> jsSet obj k' v !! k = obj !! k.
Proof.
  intros Hne. unfold jsSet.
  destruct (_ && _); [reflexivity | now rewrite lookup_insert_ne].
Qed.

Lemma lookup_jsSet_eq (obj : gmap string Value) (k : string) (v : Value) :
  k <> "__proto__" -> jsSet obj k v !! k = Some v.
Proof.
  intros Hne. unfold jsSet. rewrite bool_decide_eq_false_2 by exact Hne.
  apply lookup_insert_eq.
Qed.

Lemma lookup_jsSet_is_Some (obj : gmap string Value) (k k' : string)
    (v : Value) :
  is_Some (obj !! k) -> is_Some (jsSet obj k' v !! k).
Proof.
  intros H. unfold jsSet. destruct (_ && _); [exact H |].
  destruct (decide (k' = k)) as [-> | Hne].
  - rewrite lookup_insert_eq. eauto.
  - now rewrite lookup_insert_ne.
Qed.

Lemma jsGet_own (obj : gmap string Value) (k : string) (v : Value) :
  obj !! k = Some v -> jsGet obj k = Some v.
Proof. intros H. unfold jsGet. now rewrite H. Qed.

(** ** The deterministic projection reads the state *)

Lemma readFrom_setIfPresent (st m : gmap string Value) (src dst : string) :
  In (src, dst) factSources -> readFrom st m ->
  readFrom st (setIfPresent st src dst m).
Proof.
  intros Hin Hm. unfold setIfPresent.
  destruct (st !! src) as [v|] eqn:E; [| exact Hm].
  destruct (notNullish (Some v)) eqn:N; [| exact Hm].
  intros k w Hk. destruct (decide (dst = k)) as [<- | Hne].
  - rewrite lookup_insert_eq in Hk. injection Hk as <-.
    exists src. repeat split; [exact Hin | exact E |].
    intros ->. discriminate.
  - rewrite lookup_insert_ne in Hk by exact Hne. now apply Hm.
Qed.

Lemma readFrom_if (st m1 m2 : gmap string Value) (b : bool) :
  readFrom st m1 -> readFrom st m2 -> readFrom st (if b then m1 else m2).
Proof. now destruct b. Qed.

Lemma deterministicFacts_readFrom (st : gmap string Value) :
  readFrom st (deterministicFactsFromState st).
Proof.
  unfold deterministicFactsFromState. cbv zeta.
  repeat lazymatch goal with
    | |- readFrom _ (setIfPresent _ _ _ _) =>
        apply readFrom_setIfPresent; [cbn; tauto |]
    | |- readFrom _ (if _ then _ else _) => apply readFrom_if
    end.
  all: intros k v Hk; now rewrite lookup_empty in Hk.
Qed.

(** No key of the projection is [__proto__]. *)
Lemma projection_key_plain (st : gmap string Value) (k : string) (d : Value) :
  deterministicFactsFromState st !! k = Some d -> k <> "__proto__".
Proof.
  intros H. destruct (deterministicFacts_readFrom st k d H) as (src & Hin & _).
  intros ->. cbv [factSources In] in Hin.
  repeat (destruct Hin as [Hin | Hin]; [discriminate Hin |]). contradiction.
Qed.

(** ** Fact reconciliation *)

Section Reconciliation.

Variable patientMessages : string.
Variable deterministic : gmap string Value.
Variable opts : option ExtractFactsOpts.

Let step := factStep patientMessages deterministic opts.


Lemma factStep_rejected acc f :
  admitted patientMessages f = false -> step acc f = acc.
Proof.
  unfold admitted, step, factStep. destruct acc as [record events].
  destruct (confidence f <? threshold (key f))%Z; [reflexivity |].
  cbn [negb andb]. intros H. apply negb_false_iff in H. now rewrite H.
Qed.

Lemma factStep_admitted record events f :
  admitted patientMessages f = true ->
  step (record, events) f
  = (jsSet record (key f) (value f),
     (events ++ divergenceOf deterministic opts f)%list).
Proof.
  unfold admitted, step, factStep, divergenceOf.
  destruct (confidence f <? threshold (key f))%Z; [discriminate |].
  cbn [negb andb]. intros H. apply negb_true_iff in H. rewrite H.
  f_equal.
  destruct (jsGet deterministic (key f)) as [d|], opts as [o|];
    try destruct (negb (strictEq (Some d) (Some (value f))));
    try destruct (onDivergence o);
    cbn [andb]; now rewrite ?app_nil_r.
Qed.

Lemma eventsFor_app k e1 e2 :
  eventsFor k (e1 ++ e2)%list = (eventsFor k e1 ++ eventsFor k e2)%list.
Proof. apply filter_app. Qed.

Lemma eventsFor_divergenceOf_other k f :
  key f <> k -> eventsFor k (divergenceOf deterministic opts f) = [].
Proof.
  intros Hne. unfold divergenceOf.
  destruct (jsGet deterministic (key f)), opts; try reflexivity.
  destruct (_ && _); [| reflexivity].
  unfold eventsFor. rewrite filter_cons_False; [reflexivity | exact Hne].
Qed.

(** A fact about another key leaves key [k] and its events alone. *)
Lemma factStep_other k acc f :
  key f <> k ->
  fst (step acc f) !! k = fst acc !! k
  /\ eventsFor k (snd (step acc f)) = eventsFor k (snd acc).
Proof.
  intros Hne. destruct (admitted patientMessages f) eqn:E.
  - destruct acc as [record events]. rewrite factStep_admitted by exact E.
    cbn [fst snd]. split.
    + now rewrite lookup_jsSet_ne.
    + now rewrite eventsFor_app, eventsFor_divergenceOf_other, app_nil_r.
  - now rewrite factStep_rejected.
Qed.

Lemma fold_factStep_other k fs : forall acc,
  Forall (fun f => key f <> k) fs ->
  fst (fold_left step fs acc) !! k = fst acc !! k
  /\ eventsFor k (snd (fold_left step fs acc)) = eventsFor k (snd acc).
Proof.
  induction fs as [|f fs IH]; intros acc Hall; [now split |].
  inversion Hall as [|? ? Hf Hfs]; subst. cbn [fold_left].
  destruct (IH (step acc f) Hfs) as [-> ->]. now apply factStep_other.
Qed.

End Reconciliation.

(** A list whose only element about [k] is [f]. *)
Lemma filter_singleton_split (k : string) (fs : list ExtractedFact)
    (f : ExtractedFact) :
  filter (fun g => key g = k) fs = [f] ->
  key f = k
  /\ exists l1 l2, fs = (l1 ++ f :: l2)%list
                   /\ Forall (fun g => key g <> k) l1
                   /\ Forall (fun g => key g <> k) l2.
Proof.
  induction fs as [|g fs IH]; [discriminate |].
  destruct (decide (key g = k)) as [Hg | Hg].
  - rewrite filter_cons_True by exact Hg. intros [= -> Hnil].
    split; [exact Hg |]. exists [], fs. split; [reflexivity |].
    split; [constructor |].
    apply Forall_forall. intros x Hx Hk.
    assert (x ∈ filter (fun g => key g = k) fs) as Hin.
    { apply list_elem_of_filter. split; [exact Hk | exact Hx]. }
    rewrite Hnil in Hin. inversion Hin.
  - rewrite filter_cons_False by exact Hg. intros H.
    destruct (IH H) as (Hk & l1 & l2 & -> & H1 & H2).
    split; [exact Hk |]. exists (g :: l1), l2.
    split; [reflexivity |]. split; [now constructor | exact H2].
Qed.

Lemma negationStep_other (k : string) (record : gmap string Value)
    (neg : ExtractedFact) :
  (key neg = k -> confidence neg < threshold k) ->
  negationStep record neg !! k = record !! k.
Proof.
  intros H. unfold negationStep.
  destruct (confidence neg <? threshold (key neg))%Z eqn:E; [reflexivity |].
  destruct (decide (key neg = k)) as [Hk | Hk].
  - specialize (H Hk). subst k. lia.
  - now rewrite lookup_jsSet_ne.
Qed.

Lemma fold_negationStep_other (k : string) (ns : list ExtractedFact) :
  forall record,
    Forall (fun neg => key neg = k -> confidence neg < threshold k) ns ->
    fold_left negationStep ns record !! k = record !! k.
Proof.
  induction ns as [|n ns IH]; intros record Hall; [reflexivity |].
  inversion Hall as [|? ? Hn Hns]; subst. cbn [fold_left].
  rewrite IH by exact Hns. now apply negationStep_other.
Qed.

Lemma fold_negationStep_false (k : string) (ns : list ExtractedFact) :
  forall record,
    record !! k = Some (VBool false) ->
    fold_left negationStep ns record !! k = Some (VBool false).
Proof.
  induction ns as [|n ns IH]; intros record H; [exact H |].
  cbn [fold_left]. apply IH. unfold negationStep.
  destruct (confidence n <? threshold (key n))%Z; [exact H |].
  destruct (decide (key n = k)) as [<- | Hk].
  - unfold jsSet. destruct (_ && _); [exact H | apply lookup_insert_eq].
  - now rewrite lookup_jsSet_ne.
Qed.

Lemma fold_negationStep_admitted (ns : list ExtractedFact)
    (neg : ExtractedFact) :
  forall record,
    In neg ns -> threshold (key neg) <= confidence neg ->
    key neg <> "__proto__" ->
    fold_left negationStep ns record !! key neg = Some (VBool false).
Proof.
  induction ns as [|n ns IH]; intros record Hin Hc Hk; [contradiction |].
  cbn [fold_left]. destruct Hin as [-> | Hin].
  - apply fold_negationStep_false. unfold negationStep.
    assert ((confidence neg <? threshold (key neg))%Z = false) as -> by lia.
    now apply lookup_jsSet_eq.
  - now apply IH.
Qed.

(** C1, as stated, fails: an admitted LLM fact is written over the
    deterministic value.  The patient rated the pain 7 at the severity stage;
    the extraction reads 3 out of a later message with confidence 90; the
    record then holds 3 under [severity_score] and one divergence is
    reported.  With the same fact listed twice, two divergences are
    reported. *)
Lemma deterministic_authority_counterexample :
  let st : ChatState := <["severity" := VNum 7]> ∅ in
  let messages := [ {| role := user; content := "it was a 3 this morning" |} ] in
  let f := {| key := "severity_score"; value := VNum 3; confidence := 90 |} in
  let o := Some {| sessionId := Some 1; onDivergence := true |} in
  let out1 := extractFactsFromMessages
                (Some {| facts := Some [f]; negations := None |})
                messages st o in
  let out2 := extractFactsFromMessages
                (Some {| facts := Some [f; f]; negations := None |})
                messages st o in
  deterministicFactsFromState st !! "severity_score" = Some (VNum 7)
  /\ admitted (patientText messages) f = true
  /\ fst out1 !! "severity_score" = Some (VNum 3)
  /\ length (eventsFor "severity_score" (snd out1)) = 1%nat
  /\ length (eventsFor "severity_score" (snd out2)) = 2%nat.
Proof. vm_compute. repeat apply conj; reflexivity. Qed.

(** C1 (amended). For a key [k] that the deterministic projection holds with
    value [d] and that occurs once among the LLM facts, in a fact [f] that
    passes the confidence and corroboration gates with a value different from
    [d]: the record returned holds the LLM value under [k] (unless an
    admitted negation for [k] follows, which this statement excludes), and
    exactly one call to the supplied [onDivergence] callback is about [k]; it
    carries the session id, the LLM value and the deterministic value. *)
Theorem deterministic_divergence (result : ExtractionResult)
    (messages : list ChatMessage) (st : ChatState) (o : ExtractFactsOpts)
    (fs : list ExtractedFact) (f : ExtractedFact) (k : string) (d : Value) :
  isEmpty (trim (patientText messages)) = false ->
  facts result = Some fs ->
  filter (fun g => key g = k) fs = [f] ->
  admitted (patientText messages) f = true ->
  deterministicFactsFromState st !! k = Some d ->
  strictEq (Some d) (Some (value f)) = false ->
  onDivergence o = true ->
  Forall (fun neg => key neg = k -> confidence neg < threshold k)
    (default [] (negations result)) ->
  let out := extractFactsFromMessages (Some result) messages st (Some o) in
  fst out !! k = Some (value f)
  /\ eventsFor k (snd out)
     = [ {| div_session := sessionId o; div_key := k;
            llmValue := value f; stateValue := d |} ].
Proof.
  intros Htext Hfs Hone Hadm Hdet Hneq Hcb Hneg out. subst out.
  pose proof (projection_key_plain st k d Hdet) as Hplain.
  unfold extractFactsFromMessages. rewrite Htext, Hfs.
  destruct (filter_singleton_split k fs f Hone)
    as (Hk & l1 & l2 & -> & Hl1 & Hl2).
  rewrite fold_left_app. cbn [fold_left].
  set (det := deterministicFactsFromState st) in *.
  set (pm := patientText messages) in *.
  set (acc1 := fold_left (factStep pm det (Some o)) l1 (det ∪ st, [])).
  destruct (fold_factStep_other pm det (Some o) k l1 (det ∪ st, []) Hl1)
    as [_ Hev1]. fold acc1 in Hev1. cbn [snd] in Hev1.
  destruct acc1 as [rec1 ev1] eqn:Eacc1. cbn [snd] in Hev1.
  pose proof (factStep_admitted pm det (Some o) rec1 ev1 f Hadm) as Hstep.
  cbv zeta in Hstep. rewrite Hstep.
  destruct (fold_factStep_other pm det (Some o) k l2
              (jsSet rec1 (key f) (value f),
               (ev1 ++ divergenceOf det (Some o) f)%list) Hl2)
    as [Hrec2 Hev2].
  cbn [fst snd] in Hrec2, Hev2.
  assert (divergenceOf det (Some o) f
          = [ {| div_session := sessionId o; div_key := k;
                 llmValue := value f; stateValue := d |} ]) as Hdiv.
  { unfold divergenceOf. rewrite Hk, (jsGet_own det k d Hdet), Hneq, Hcb.
    reflexivity. }
  split.
  - cbn [fst snd].
    assert (fold_left negationStep (default [] (negations result))
              (fst (fold_left (factStep pm det (Some o)) l2
                      (jsSet rec1 (key f) (value f),
                       (ev1 ++ divergenceOf det (Some o) f)%list))) !! k
            = Some (value f)) as Hfin.
    { rewrite fold_negationStep_other by exact Hneg.
      rewrite Hrec2, Hk. now apply lookup_jsSet_eq. }
    destruct (negations result); exact Hfin.
  - cbn [snd]. rewrite Hev2, eventsFor_app, Hev1, Hdiv.
    unfold eventsFor. rewrite filter_nil. cbn [app].
    rewrite filter_cons_True by reflexivity. now rewrite filter_nil.
Qed.

Lemma deterministic_divergence_witness :
  let st : ChatState := <["severity" := VNum 7]> ∅ in
  let messages := [ {| role := user; content := "it was a 3 this morning" |} ] in
  let f := {| key := "severity_score"; value := VNum 3; confidence := 90 |} in
  let g := {| key := "onset"; value := VStr "this morning"; confidence := 80 |} in
  let o := {| sessionId := Some 1; onDivergence := true |} in
  let out := extractFactsFromMessages
               (Some {| facts := Some [g; f]; negations := Some [] |})
               messages st (Some o) in
  fst out !! "severity_score" = Some (VNum 3)
  /\ eventsFor "severity_score" (snd out)
     = [ {| div_session := Some 1; div_key := "severity_score";
            llmValue := VNum 3; stateValue := VNum 7 |} ].
Proof.
  intros st messages f g o out.
  apply (deterministic_divergence
           {| facts := Some [g; f]; negations := Some [] |}
           messages st o [g; f] f "severity_score" (VNum 7));
    try reflexivity.
  constructor.
Defined.

(** C7, as stated, fails: a negation is gated by the threshold of its key,
    not by the default threshold.  A negation of the critical key [fever]
    with confidence 60 (at least 50, below 70) is dropped. *)
Lemma negation_gate_counterexample :
  let messages := [ {| role := user; content := "no temperature at all" |} ] in
  let neg := {| key := "fever"; value := VBool false; confidence := 60 |} in
  let out := extractFactsFromMessages
               (Some {| facts := None; negations := Some [neg] |})
               messages ∅ None in
  (CONFIDENCE_DEFAULT <=? confidence neg)%Z = true
  /\ bool_decide (key neg ∈ CRITICAL_FACT_KEYS) = true
  /\ fst out !! "fever" = None.
Proof. vm_compute. repeat apply conj; reflexivity. Qed.

(** Negations below the threshold of their key change nothing. *)
Lemma fold_negationStep_filter (ns : list ExtractedFact) :
  forall record,
    fold_left negationStep ns record
    = fold_left negationStep
        (List.filter (fun neg => (threshold (key neg) <=? confidence neg)%Z) ns)
        record.
Proof.
  induction ns as [|n ns IH]; intros record; [reflexivity |].
  cbn [fold_left List.filter]. rewrite IH. unfold negationStep at 2.
  destruct (confidence n <? threshold (key n))%Z eqn:E.
  - assert ((threshold (key n) <=? confidence n)%Z = false) as -> by lia.
    reflexivity.
  - assert ((threshold (key n) <=? confidence n)%Z = true) as -> by lia.
    cbn [fold_left]. unfold negationStep at 3. now rewrite E.
Qed.

(** C7 (amended). A negation is gated by the threshold of its key: 70 for a
    key of the critical-fact set, 50 for any other.  Every extracted negation
    whose confidence is at or above that threshold, for a key other than
    [__proto__] (which a write to a plain object does not store), sets that
    fact to [false] in the returned record, whatever the deterministic
    projection or the LLM facts hold for the key; and the negations below
    their threshold are dropped: the record returned is the one returned
    for the reply without them. *)
Theorem negation_gating (result : ExtractionResult)
    (messages : list ChatMessage) (st : ChatState)
    (opts : option ExtractFactsOpts) (ns : list ExtractedFact) :
  isEmpty (trim (patientText messages)) = false ->
  negations result = Some ns ->
  (forall neg,
      In neg ns ->
      (if bool_decide (key neg ∈ CRITICAL_FACT_KEYS) then 70 else 50)
        <= confidence neg ->
      key neg <> "__proto__" ->
      fst (extractFactsFromMessages (Some result) messages st opts) !! key neg
      = Some (VBool false))
  /\ fst (extractFactsFromMessages (Some result) messages st opts)
     = fst (extractFactsFromMessages
              (Some {| facts := facts result;
                       negations :=
                         Some (List.filter
                                 (fun neg =>
                                    ((if bool_decide
                                           (key neg ∈ CRITICAL_FACT_KEYS)
                                      then 70 else 50) <=? confidence neg)%Z)
                                 ns) |})
              messages st opts).
Proof.
  intros Htext Hns. unfold extractFactsFromMessages.
  rewrite Htext, Hns. cbn [fst facts negations]. split.
  - intros neg Hin Hc Hk.
    apply fold_negationStep_admitted; [exact Hin | | exact Hk].
    unfold threshold, CONFIDENCE_CRITICAL, CONFIDENCE_DEFAULT. exact Hc.
  - apply fold_negationStep_filter.
Qed.

Lemma negation_gating_witness :
  let messages := [ {| role := user; content := "no temperature at all" |} ] in
  let kept := {| key := "fever"; value := VBool false; confidence := 70 |} in
  let low := {| key := "fever"; value := VBool false; confidence := 60 |} in
  let st : ChatState := <["fever" := VBool true]> ∅ in
  fst (extractFactsFromMessages
         (Some {| facts := None; negations := Some [kept] |})
         messages st None) !! "fever" = Some (VBool false)
  /\ fst (extractFactsFromMessages
            (Some {| facts := None; negations := Some [low] |})
            messages st None) !! "fever" = Some (VBool true).
Proof.
  intros messages kept low st. split.
  - assert (isEmpty (trim (patientText messages)) = false) as Ht
        by reflexivity.
    destruct (negation_gating {| facts := None; negations := Some [kept] |}
                messages st None [kept] Ht eq_refl) as [H _].
    apply (H kept); [now left | vm_compute; discriminate | discriminate].
  - assert (isEmpty (trim (patientText messages)) = false) as Ht
        by reflexivity.
    destruct (negation_gating {| facts := None; negations := Some [low] |}
                messages st None [low] Ht eq_refl) as [_ H].
    rewrite H. vm_compute. reflexivity.
Defined.

(** ** Red-flag evaluation *)


Lemma ruleStep_verdict record acc rule :
  ruleStep record acc rule =
    match verdict record rule with
    | Triggered =>
        {| triggered := (triggered acc ++ [toTriggered rule])%list;
           notTriggered := notTriggered acc;
           notAssessed := notAssessed acc |}
    | NotTriggered =>
        {| triggered := triggered acc;
           notTriggered := (notTriggered acc ++ [label rule])%list;
           notAssessed := notAssessed acc |}
    | NotAssessed =>
        {| triggered := triggered acc;
           notTriggered := notTriggered acc;
           notAssessed := (notAssessed acc ++ [label rule])%list |}
    end.
Proof.
  unfold ruleStep, verdict.
  destruct (ruleMatches record rule); [reflexivity |].
  destruct (existsb _ _); reflexivity.
Qed.

Lemma evaluateRedFlags_fold record rules : forall acc,
  fold_left (ruleStep record) rules acc
  = {| triggered :=
         (triggered acc
          ++ map toTriggered (rulesWith record Triggered rules))%list;
       notTriggered :=
         (notTriggered acc
          ++ map label (rulesWith record NotTriggered rules))%list;
       notAssessed :=
         (notAssessed acc
          ++ map label (rulesWith record NotAssessed rules))%list |}.
Proof.
  induction rules as [|rule rules IH]; intros acc.
  - destruct acc. cbn. now rewrite !app_nil_r.
  - cbn [fold_left]. rewrite IH, ruleStep_verdict.
    unfold rulesWith. cbn [List.filter].
    destruct (verdict record rule);
      cbn [triggered notTriggered notAssessed sameVerdict map];
      now rewrite <- ?app_assoc.
Qed.

Lemma rulesWith_length record rules :
  (length (rulesWith record Triggered rules)
   + length (rulesWith record NotTriggered rules)
   + length (rulesWith record NotAssessed rules))%nat = length rules.
Proof.
  unfold rulesWith. induction rules as [|rule rules IH]; [reflexivity |].
  cbn [List.filter].
  destruct (verdict record rule); cbn [sameVerdict length]; lia.
Qed.

Lemma existsb_hasKey record keys :
  existsb (fun f => hasKey record f) keys = false
  <-> Forall (fun f => record !! f = None) keys.
Proof.
  induction keys as [|k keys IH]; cbn [existsb].
  - split; [constructor | reflexivity].
  - rewrite orb_false_iff, IH. unfold hasKey.
    rewrite bool_decide_eq_false, <- eq_None_not_Some.
    split; [intros []; now constructor | intros H; now inversion H].
Qed.



(** ** Stored band and handoff category *)

Lemma lookup_copyFields (keys : list string) (st : ChatState) (k : string) :
  copyFields keys st !! k
  = if existsb (String.eqb k) keys then st !! k else None.
Proof.
  induction keys as [|x keys IH]; cbn [copyFields existsb].
  - apply lookup_empty.
  - destruct (String.eqb_spec k x) as [-> | Hne]; cbn [orb].
    + destruct (st !! x) eqn:E.
      * now rewrite lookup_insert_eq.
      * rewrite IH. now destruct (existsb _ _).
    + destruct (st !! x); [rewrite lookup_insert_ne by congruence |]; exact IH.
Qed.


Lemma riskBand_ext (m1 m2 : gmap string Value) :
  complaintLower m1 = complaintLower m2 ->
  (forall k, In k flagKeys -> truthy (m1 !! k) = truthy (m2 !! k)) ->
  (forall k, 0 < k ->
             numGe (m1 !! "severity") k = numGe (m2 !! "severity") k) ->
  (forall k, 0 < k ->
             numGt (m1 !! "severity") k = numGt (m2 !! "severity") k) ->
  (forall k, 0 < k -> numGt (m1 !! "age") k = numGt (m2 !! "age") k) ->
  riskBand (evaluateTriage m1) = riskBand (evaluateTriage m2).
Proof.
  intros Hc Ht Hs Hs' Ha. rewrite !evaluateTriage_riskBand.
  assert (collectFlags m1 = collectFlags m2) as ->.
  { unfold collectFlags. rewrite Hc.
    rewrite (Hs 9), (Hs' 5), (Ha 50) by lia.
    rewrite !(Ht "confusion"), !(Ht "severeBleeding"),
      !(Ht "shortnessOfBreath"), !(Ht "radiatingPain"),
      !(Ht "cardiacHistory"), !(Ht "cyanosis"), !(Ht "speakingDifficulty"),
      !(Ht "vomitingBlood"), !(Ht "rigidAbdomen"), !(Ht "pregnancy"),
      !(Ht "bleeding"), !(Ht "thunderclap"), !(Ht "neckStiffness"),
      !(Ht "visualDisturbance") by (cbv [flagKeys In]; tauto).
    reflexivity. }
  now rewrite (Hs 6), (Ha 75) by lia.
Qed.

Lemma lookup_buildAnswers (st : ChatState) (k : string) :
  buildAnswersFromState st !! k
  = match st !! k with
    | Some v => Some v
    | None => answerDefaults st !! k
    end.
Proof.
  unfold buildAnswersFromState. rewrite lookup_union.
  destruct (st !! k), (answerDefaults st !! k); reflexivity.
Qed.

(** Evaluate a lookup of a literal key in a chain of inserts over
    [copyFields]. *)
Ltac lookup_literal :=
  repeat first [ rewrite lookup_insert_eq
               | rewrite lookup_insert_ne by discriminate ];
  rewrite ?lookup_copyFields;
  repeat match goal with
         | |- context [existsb (String.eqb ?k) ?l] =>
             let b := eval vm_compute in (existsb (String.eqb k) l) in
             change (existsb (String.eqb k) l) with b
         end;
  cbv iota.

Lemma truthy_orElse_false (v : option Value) :
  truthy (Some (orElse v (VBool false))) = truthy v.
Proof.
  destruct v as [v|]; [| reflexivity]. unfold orElse.
  destruct (truthy (Some v)) eqn:E; [exact E | reflexivity].
Qed.

Lemma numGe_orElse_zero (v : option Value) (k : Z) :
  0 < k -> numGe (Some (orElse v (VNum 0))) k = numGe v k.
Proof.
  intros Hk. unfold numGe.
  destruct v as [[[]| n | s | |]|]; cbn; try reflexivity; try lia.
  - destruct (n =? 0)%Z eqn:E; cbn; [| reflexivity].
    apply Z.eqb_eq in E. subst n. reflexivity.
  - destruct s; cbn; [lia | reflexivity].
Qed.

Lemma numGt_orElse_zero (v : option Value) (k : Z) :
  0 < k -> numGt (Some (orElse v (VNum 0))) k = numGt v k.
Proof.
  intros Hk. unfold numGt.
  destruct v as [[[]| n | s | |]|]; cbn; try reflexivity; try lia.
  - destruct (n =? 0)%Z eqn:E; cbn; [| reflexivity].
    apply Z.eqb_eq in E. subst n. reflexivity.
  - destruct s; cbn; [lia | reflexivity].
Qed.

Lemma complaintLower_orElse (m : gmap string Value) (v : option Value) :
  m !! "complaint" = Some (orElse v (VStr "")) ->
  complaintLower m = match v with Some (VStr s) => toLowerCase s | _ => "" end.
Proof.
  unfold complaintLower. intros ->.
  destruct v as [[[]| n | s | |]|]; cbn; try reflexivity.
  - now destruct (n =? 0)%Z.
  - now destruct s.
Qed.

Lemma triageAnswers_complaint (st : ChatState) :
  triageAnswers st !! "complaint" = Some (orElse (st !! "complaint") (VStr "")).
Proof. unfold triageAnswers. now lookup_literal. Qed.

Lemma triageAnswers_severity (st : ChatState) :
  triageAnswers st !! "severity" = Some (orElse (st !! "severity") (VNum 0)).
Proof. unfold triageAnswers. now lookup_literal. Qed.

Lemma triageAnswers_age (st : ChatState) :
  triageAnswers st !! "age" = Some (orElse (st !! "age") (VNum 0)).
Proof. unfold triageAnswers. now lookup_literal. Qed.

Lemma answerDefaults_complaint (st : ChatState) :
  answerDefaults st !! "complaint"
  = Some (orElse (st !! "complaint") (VStr "")).
Proof. unfold answerDefaults. now lookup_literal. Qed.

Lemma answerDefaults_severity (st : ChatState) :
  answerDefaults st !! "severity" = Some (orElse (st !! "severity") (VNum 0)).
Proof. unfold answerDefaults. now lookup_literal. Qed.

Lemma answerDefaults_age (st : ChatState) :
  answerDefaults st !! "age" = Some (orElse (st !! "age") (VNum 0)).
Proof. unfold answerDefaults. now lookup_literal. Qed.

(** The truthiness the two projections give to the keys the band decision
    reads, apart from [shortnessOfBreath] and [bleeding]. *)
Lemma answers_truthy_agree (st : ChatState) (k : string) :
  In k flagKeys -> k <> "shortnessOfBreath" -> k <> "bleeding" ->
  truthy (buildAnswersFromState st !! k) = truthy (st !! k)
  /\ truthy (triageAnswers st !! k) = truthy (st !! k).
Proof.
  intros Hin Hsob Hbl. cbv [flagKeys In] in Hin.
  rewrite lookup_buildAnswers.
  repeat (destruct Hin as [<- | Hin];
          [ first
              [ congruence
              | split;
                [ destruct (st !! _) eqn:E; [reflexivity |];
                  unfold answerDefaults; lookup_literal;
                  rewrite ?E; reflexivity
                | unfold triageAnswers; now lookup_literal ] ]
          | ]).
  contradiction.
Qed.

(** The band the handoff and the submission derive from one chat state. *)
Lemma rules_band_agree (st : ChatState) :
  truthy (st !! "bleeding") = false ->
  is_Some (st !! "shortnessOfBreath")
  \/ truthy (st !! "troubleBreathing") = false ->
  riskBand (evaluateTriage (buildAnswersFromState st))
  = riskBand (result (buildTriageFromChat st)).
Proof.
  intros Hbl Hsob.
  assert (riskBand (result (buildTriageFromChat st))
          = riskBand (evaluateTriage (triageAnswers st))) as ->.
  { unfold buildTriageFromChat. now destruct (bool_decide _). }
  apply riskBand_ext.
  - rewrite (complaintLower_orElse (triageAnswers st) (st !! "complaint"))
      by apply triageAnswers_complaint.
    unfold complaintLower. rewrite lookup_buildAnswers.
    destruct (st !! "complaint") as [v|] eqn:E; [reflexivity |].
    now rewrite answerDefaults_complaint, E.
  - intros k Hin.
    destruct (decide (k = "shortnessOfBreath")) as [-> | Hk1].
    + rewrite lookup_buildAnswers.
      assert (triageAnswers st !! "shortnessOfBreath"
              = st !! "shortnessOfBreath") as ->.
      { unfold triageAnswers. now lookup_literal. }
      destruct (st !! "shortnessOfBreath") as [v|] eqn:E; [reflexivity |].
      destruct Hsob as [[v Hv] | Htb]; [discriminate |].
      unfold answerDefaults. lookup_literal. rewrite E. cbn [orElse].
      rewrite truthy_orElse_false. exact Htb.
    + destruct (decide (k = "bleeding")) as [-> | Hk2].
      * rewrite lookup_buildAnswers.
        assert (triageAnswers st !! "bleeding" = None) as ->.
        { unfold triageAnswers. now lookup_literal. }
        destruct (st !! "bleeding") as [v|] eqn:E; [exact Hbl |].
        unfold answerDefaults. now lookup_literal.
      * destruct (answers_truthy_agree st k Hin Hk1 Hk2) as [-> ->].
        reflexivity.
  - intros k Hk. rewrite lookup_buildAnswers, triageAnswers_severity.
    rewrite numGe_orElse_zero by exact Hk.
    destruct (st !! "severity") as [v|] eqn:E; [reflexivity |].
    rewrite answerDefaults_severity, numGe_orElse_zero by exact Hk.
    now rewrite E.
  - intros k Hk. rewrite lookup_buildAnswers, triageAnswers_severity.
    rewrite numGt_orElse_zero by exact Hk.
    destruct (st !! "severity") as [v|] eqn:E; [reflexivity |].
    rewrite answerDefaults_severity, numGt_orElse_zero by exact Hk.
    now rewrite E.
  - intros k Hk. rewrite lookup_buildAnswers, triageAnswers_age.
    rewrite numGt_orElse_zero by exact Hk.
    destruct (st !! "age") as [v|] eqn:E; [reflexivity |].
    rewrite answerDefaults_age, numGt_orElse_zero by exact Hk.
    now rewrite E.
Qed.

Lemma generateHandoff_category (reply : option HandoffJson) (sid : Z)
    (st : ChatState) (messages : list ChatMessage)
    (trig : list TriggeredFlag) (nt na : list string) :
  rules_engine_category
    (hj_severity (generateHandoff reply sid st messages trig nt na))
  = toUpperCase (bandName (riskBand (evaluateTriage (buildAnswersFromState st)))).
Proof. unfold generateHandoff. destruct reply; reflexivity. Qed.

(** C2, as stated, fails: a session escalated on an emergency keyword is
    stored as Red while the handoff, which re-runs the rules engine on the
    chat state alone, says GREEN. *)
Lemma handoff_band_counterexample :
  let r := processUserMessage None "I can't breathe" [] ∅ opening 0 in
  let handoff := generateHandoff None 1 (newState r) [] [] [] [] in
  isComplete r = true
  /\ storedRiskBand r = Red
  /\ rules_engine_category (hj_severity handoff) = "GREEN"
  /\ rules_engine_category (hj_severity handoff)
     <> toUpperCase (bandName (storedRiskBand r)).
Proof. vm_compute. repeat apply conj; try reflexivity. discriminate. Qed.

(** C2 (amended). For every turn result that is not an escalation, whose
    chat state holds no truthy [bleeding] field and does not hold a truthy
    [troubleBreathing] without a [shortnessOfBreath] field, the
    [rules_engine_category] of the handoff (whatever the generation call
    replies) is the upper-cased risk band stored with the submission. *)
Theorem handoff_category_matches_stored_band (reply : option HandoffJson)
    (sid : Z) (r : TurnResult) (messages : list ChatMessage)
    (trig : list TriggeredFlag) (nt na : list string) :
  isEscalation r = false ->
  truthy (newState r !! "bleeding") = false ->
  is_Some (newState r !! "shortnessOfBreath")
  \/ truthy (newState r !! "troubleBreathing") = false ->
  rules_engine_category
    (hj_severity (generateHandoff reply sid (newState r) messages trig nt na))
  = toUpperCase (bandName (storedRiskBand r)).
Proof.
  intros Hesc Hbl Hsob. rewrite generateHandoff_category.
  unfold storedRiskBand. rewrite Hesc.
  now rewrite rules_band_agree.
Qed.

Lemma handoff_category_matches_stored_band_witness :
  let st : ChatState :=
    <["complaint" := VStr "headache"]>
      (<["severity" := VNum 7]> (<["troubleBreathing" := VBool false]> ∅)) in
  let r := processUserMessage None "yes" [] st summary 0 in
  rules_engine_category
    (hj_severity (generateHandoff None 1 (newState r) [] [] [] []))
  = "AMBER"
  /\ storedRiskBand r = Amber.
Proof.
  intros st r. split; [| reflexivity].
  rewrite (handoff_category_matches_stored_band None 1 r [] [] [] []);
    [reflexivity | reflexivity | reflexivity | right; reflexivity].
Defined.

(** ** Write-once chat state *)


Lemma stageRank_inj (a b : Stage) : stageRank a = stageRank b -> a = b.
Proof. destruct a, b; cbn; intros H; try reflexivity; discriminate. Qed.

Lemma allowed_mono (s s' : Stage) (k : string) :
  (stageRank s <= stageRank s')%nat -> allowed s k = true -> allowed s' k = true.
Proof.
  intros Hle. unfold allowed. destruct (assoc k fieldStages) as [w|]; [| easy].
  destruct (decide (s = s')) as [-> | Hne]; [easy |].
  assert (stageRank s < stageRank s')%nat as Hlt.
  { destruct (Nat.eq_dec (stageRank s) (stageRank s')) as [E | E];
      [apply stageRank_inj in E; contradiction | lia]. }
  destruct (accumulating s), (accumulating s'); intros H;
    (apply Nat.leb_le in H || apply Nat.ltb_lt in H);
    (apply Nat.leb_le || apply Nat.ltb_lt); lia.
Qed.

Lemma allowed_later (s w : Stage) (k : string) :
  assoc k fieldStages = Some w -> (stageRank w < stageRank s)%nat ->
  allowed s k = true.
Proof.
  intros Hk Hlt. unfold allowed. rewrite Hk.
  destruct (accumulating s); [apply Nat.leb_le | apply Nat.ltb_lt]; lia.
Qed.

Lemma keysAllowed_mono (s s' : Stage) (st : ChatState) :
  (stageRank s <= stageRank s')%nat -> keysAllowed s st -> keysAllowed s' st.
Proof. intros Hle H k Hk. eapply allowed_mono; eauto. Qed.

Lemma keysAllowed_insert (s : Stage) (st : ChatState) (k : string) (v : Value) :
  allowed s k = true -> keysAllowed s st -> keysAllowed s (<[k := v]> st).
Proof.
  intros Hk H k' Hk'. destruct (decide (k = k')) as [<- | Hne]; [exact Hk |].
  rewrite lookup_insert_ne in Hk' by exact Hne. now apply H.
Qed.

Lemma keysAllowed_empty (s : Stage) : keysAllowed s ∅.
Proof. intros k [v Hv]. now rewrite lookup_empty in Hv. Qed.

(** A field of a stage that does not loop is still unset at that stage. *)
Lemma field_unset (s : Stage) (st : ChatState) (k : string) :
  keysAllowed s st -> assoc k fieldStages = Some s -> accumulating s = false ->
  st !! k = None.
Proof.
  intros H Hk Hacc. destruct (st !! k) as [v|] eqn:E; [| reflexivity].
  assert (allowed s k = true) as Ha by (apply H; eauto).
  unfold allowed in Ha. rewrite Hk, Hacc in Ha.
  apply Nat.ltb_lt in Ha. lia.
Qed.

(** A field of a later stage is unset. *)
Lemma later_field_unset (s w : Stage) (st : ChatState) (k : string) :
  keysAllowed s st -> assoc k fieldStages = Some w ->
  (stageRank s < stageRank w)%nat -> st !! k = None.
Proof.
  intros H Hk Hlt. destruct (st !! k) as [v|] eqn:E; [| reflexivity].
  assert (allowed s k = true) as Ha by (apply H; eauto).
  unfold allowed in Ha. rewrite Hk in Ha.
  destruct (accumulating s);
    [apply Nat.leb_le in Ha | apply Nat.ltb_lt in Ha]; lia.
Qed.

Lemma keepsFields_refl (st : ChatState) : keepsFields st st.
Proof. intros k v _ H. exact H. Qed.

Lemma keepsFields_insert (st st' : ChatState) (k : string) (v : Value) :
  st !! k = None \/ k = "ragQuestionsAsked" ->
  keepsFields st st' -> keepsFields st (<[k := v]> st').
Proof.
  intros Hk H k' v' Hne Hv. destruct (decide (k = k')) as [<- | Hkk].
  - destruct Hk as [Hk | Hk]; congruence.
  - rewrite lookup_insert_ne by exact Hkk. now apply H.
Qed.

Lemma complaintSet_insert_other (st : ChatState) (k : string) (v : Value) :
  k <> "complaint" -> complaintSet st -> complaintSet (<[k := v]> st).
Proof. intros Hk H v'. rewrite lookup_insert_ne by exact Hk. apply H. Qed.

Lemma complaintSet_insert (st : ChatState) (v : Value) :
  truthy (Some v) = true -> complaintSet (<["complaint" := v]> st).
Proof. intros Hv v'. rewrite lookup_insert_eq. now intros [= <-]. Qed.

Lemma complaintSet_empty : complaintSet ∅.
Proof. intros v. now rewrite lookup_empty. Qed.

Lemma parseComplaint_truthy (input c : string) :
  parseComplaint input = Some c -> truthy (Some (VStr c)) = true.
Proof.
  unfold parseComplaint.
  destruct (List.find _ COMPLAINTS) as [x|] eqn:E.
  - intros [= <-]. apply find_some in E as [Hin _].
    cbv [COMPLAINTS In] in Hin.
    repeat (destruct Hin as [<- | Hin]; [reflexivity |]). contradiction.
  - repeat (match goal with |- context [if ?b then _ else _] => destruct b end;
            [intros [= <-]; reflexivity |]).
    discriminate.
Qed.

Lemma redFlagQuestion_field (complaint : string) (q : RedFlagQuestion) :
  In q (redFlagQuestionsFor complaint) ->
  assoc (field q) fieldStages = Some red_flags.
Proof.
  unfold redFlagQuestionsFor, RED_FLAG_QUESTIONS. cbn [assoc].
  repeat (match goal with |- context [if ?b then _ else _] => destruct b end;
          [ cbn [default In]; intros Hin;
            repeat (destruct Hin as [<- | Hin]; [reflexivity |]);
            contradiction | ]).
  cbn. contradiction.
Qed.


Section Steps.

Variable completion : option string.
Variable input : string.
Variable history : list ChatMessage.
Variable st : ChatState.
Variable stg : Stage.
Variable rc : Z.
Hypothesis Hkeys : keysAllowed stg st.
Hypothesis Hcomplaint : complaintSet st.

(** The state is returned as it is, at a stage that is not behind. *)
Lemma stepOK_same (stg' : Stage) (resp : string) (rc' : Z) :
  (stageRank stg <= stageRank stg')%nat ->
  (stg' = rag_followup -> ragCounter st) ->
  stg' <> complete -> stg' <> escalated ->
  stepOK stg st input (turn st stg' resp rc').
Proof.
  intros Hle Hrag Hc He. unfold stepOK, turn; cbn.
  split; [right; apply keepsFields_refl |].
  split; [now apply (keysAllowed_mono stg) |].
  split; [assumption |]. split; [assumption |]. intros [|]; contradiction.
Qed.

(** One field of the current stage is stored and the stage moves on. *)
Lemma stepOK_store (k : string) (v : Value) (stg' : Stage) (resp : string)
    (rc' : Z) :
  st !! k = None -> k <> "complaint" ->
  allowed stg' k = true ->
  (stageRank stg <= stageRank stg')%nat ->
  stg' <> rag_followup -> stg' <> complete -> stg' <> escalated ->
  stepOK stg st input (turn (<[k := v]> st) stg' resp rc').
Proof.
  intros Hk Hkc Ha Hle Hr Hc He. unfold stepOK, turn; cbn.
  split; [right; apply keepsFields_insert; [now left | apply keepsFields_refl] |].
  split; [apply keysAllowed_insert; [exact Ha | now apply (keysAllowed_mono stg)] |].
  split; [now apply complaintSet_insert_other |].
  split; [contradiction |]. intros [|]; contradiction.
Qed.

Lemma stepOK_escalation (st' : ChatState) :
  keepsFields st st' -> keysAllowed escalated st' -> complaintSet st' ->
  stepOK stg st input (escalation st').
Proof.
  intros H1 H2 H3. unfold stepOK, escalation; cbn.
  split; [now right |]. split; [exact H2 |]. split; [exact H3 |].
  split; [discriminate |]. intros _. now left.
Qed.

Lemma stepOK_dangerCheck (key : string) (escalates : ChatState -> bool)
    (next : ChatState -> Stage) :
  assoc key fieldStages = Some stg -> accumulating stg = false ->
  key <> "complaint" ->
  stg <> complete -> stg <> escalated ->
  (forall st', (stageRank stg < stageRank (next st'))%nat
               /\ next st' <> rag_followup /\ next st' <> complete
               /\ next st' <> escalated) ->
  stepOK stg st input
    (dangerCheck completion input history st stg rc key escalates next).
Proof.
  intros Hk Hacc Hkc Hc He Hnext. unfold dangerCheck.
  assert (st !! key = None) as Hnone by now apply (field_unset stg).
  destruct (parseYesNo input) as [answer|].
  - destruct (answer && escalates _).
    + apply stepOK_escalation.
      * apply keepsFields_insert; [now left | apply keepsFields_refl].
      * apply keysAllowed_insert.
        -- apply (allowed_later _ stg); [exact Hk |].
           destruct stg; cbn; try lia; contradiction.
        -- apply (keysAllowed_mono stg); [destruct stg; cbn; lia | assumption].
      * now apply complaintSet_insert_other.
    + destruct (Hnext (<[key := VBool answer]> st)) as (H1 & H2 & H3 & H4).
      apply stepOK_store; auto; [| lia].
      now apply (allowed_later _ stg).
  - apply stepOK_same; auto. intros ->. discriminate.
Qed.

End Steps.


Lemma stepOK_intro (stg : Stage) (st : ChatState) (input : string)
    (r : TurnResult) (ws : list (string * Value)) :
  keysAllowed stg st -> complaintSet st ->
  newState r = store ws st ->
  Forall (storable st (newStage r)) ws ->
  (stageRank stg <= stageRank (newStage r))%nat ->
  (newStage r = rag_followup -> ragCounter (newState r)) ->
  (newStage r = complete \/ newStage r = escalated ->
   isEscalation r = true \/ isComplete r = true) ->
  stepOK stg st input r.
Proof.
  intros Hkeys Hcomplaint Hst Hws Hle Hrag Hterm. unfold stepOK.
  split; [right |]; [| split; [| split; [| split; assumption]]];
    rewrite Hst; clear Hst Hrag Hterm.
  - induction Hws as [|[k v] ws (Hk & _ & _) _ IH]; cbn [store foldr].
    + apply keepsFields_refl.
    + apply keepsFields_insert; [exact Hk | exact IH].
  - induction Hws as [|[k v] ws (_ & Hk & _) _ IH]; cbn [store foldr].
    + now apply (keysAllowed_mono stg).
    + apply keysAllowed_insert; [exact Hk | exact IH].
  - induction Hws as [|[k v] ws (_ & _ & Hk) _ IH]; cbn [store foldr].
    + assumption.
    + cbn [fst snd] in *. destruct (decide (k = "complaint")) as [-> | Hne].
      * apply complaintSet_insert. now apply Hk.
      * now apply complaintSet_insert_other.
Qed.

Ltac unset_here :=
  left; eapply field_unset; [eassumption | reflexivity | reflexivity].

Ltac storable_here :=
  cbn [fst snd]; split; [unset_here | split; [reflexivity |]];
  first [ intros; discriminate | intros _; assumption | idtac ].

Ltac step_store ws :=
  apply (stepOK_intro _ _ _ _ ws);
  [ assumption | assumption | reflexivity
  | repeat (apply Forall_cons; split; [storable_here |]); constructor
  | cbn; lia
  | cbn; intros; discriminate
  | cbn; intros [|]; discriminate ].

Section StageSwitch.

Variable completion : option string.
Variable input : string.
Variable history : list ChatMessage.
Variable st : ChatState.
Variable rc : Z.
Hypothesis Hcomplaint : complaintSet st.

Lemma stepOK_opening :
  keysAllowed opening st ->
  stepOK opening st input (stageSwitch completion input history st opening rc).
Proof.
  intros Hkeys. cbn [stageSwitch].
  destruct (parseComplaint input) as [c|] eqn:E.
  - pose proof (parseComplaint_truthy _ _ E) as Hc.
    step_store [("openingDescription", VStr (trim input));
                ("complaint", VStr c)].
  - destruct (_ >? _)%Z.
    + step_store [("openingDescription", VStr (trim input))].
    + step_store (@nil (string * Value)).
Qed.

Lemma stepOK_localisation :
  keysAllowed localisation st ->
  stepOK localisation st input
    (stageSwitch completion input history st localisation rc).
Proof.
  intros Hkeys. cbn [stageSwitch].
  destruct (_ >? _)%Z; [| step_store (@nil (string * Value))].
  rewrite lookup_insert_ne by discriminate.
  destruct (st !! "complaint") as [v|] eqn:E.
  - rewrite (Hcomplaint v E). cbn [negb].
    step_store [("location", VStr (trim input))].
  - cbn [truthy negb].
    destruct (parseComplaint (trim input)) as [c|] eqn:Ec.
    + pose proof (parseComplaint_truthy _ _ Ec) as Hc.
      apply (stepOK_intro _ _ _ _ [("complaint", VStr c);
                                   ("location", VStr (trim input))]);
        [ assumption | assumption | reflexivity | | cbn; lia
        | cbn; intros; discriminate | cbn; intros [|]; discriminate ].
      apply Forall_cons; split.
      * cbn [fst snd]. split; [now left |]. split; [reflexivity |].
        intros _. exact Hc.
      * apply Forall_cons; split; [storable_here | constructor].
    + step_store [("location", VStr (trim input))].
Qed.

Lemma stepOK_simple (stg : Stage) :
  keysAllowed stg st ->
  In stg [ time_start; time_trend; severity; context_conditions;
           context_medications; context_surgery; functional_eat;
           functional_move; functional_activities; collect_name ] ->
  stepOK stg st input (stageSwitch completion input history st stg rc).
Proof.
  intros Hkeys Hin. cbv [In] in Hin.
  repeat (destruct Hin as [<- | Hin]; [cbn [stageSwitch] |]);
    try contradiction.
  - destruct (_ >? _)%Z; [| step_store (@nil (string * Value))].
    step_store [("onset", VStr (trim input))].
  - destruct (_ >? _)%Z; [| step_store (@nil (string * Value))].
    destruct (_ || _).
    + step_store [("gettingWorse", VBool true);
                  ("timeTrend", VStr (toLowerCase (trim input)))].
    + step_store [("timeTrend", VStr (toLowerCase (trim input)))].
  - destruct (parseNumber input) as [n|];
      [| step_store (@nil (string * Value))].
    destruct (_ && _); [| step_store (@nil (string * Value))].
    step_store [("severity", VNum n)].
  - step_store [("medicalHistory",
                 VStr (strOrElse (trim input) "None reported"))].
  - step_store [("medications", VStr (strOrElse (trim input) "None"))].
  - step_store [("previousSurgery", VStr (strOrElse (trim input) "None"))].
  - match goal with
    | |- context [<["canEatDrink" := VBool ?b]> st] =>
        step_store [("canEatDrink", VBool b)]
    end.
  - match goal with
    | |- context [<["canMove" := VBool ?b]> st] =>
        step_store [("canMove", VBool b)]
    end.
  - match goal with
    | |- context [<["stoppingActivities" := VBool ?b]> st] =>
        step_store [("stoppingActivities", VBool b)]
    end.
  - destruct (_ >=? _)%Z; [| step_store (@nil (string * Value))].
    step_store [("patientName", VStr (trim input))].
Qed.

Lemma stepOK_danger (stg : Stage) :
  keysAllowed stg st ->
  In stg [ danger_breathing; danger_collapse; danger_severe_pain;
           danger_bleeding; danger_confusion ] ->
  stepOK stg st input (stageSwitch completion input history st stg rc).
Proof.
  intros Hkeys Hin. cbv [In] in Hin.
  repeat (destruct Hin as [<- | Hin]; [cbn [stageSwitch] |]);
    try contradiction;
    (apply stepOK_dangerCheck;
     [ assumption | assumption | reflexivity | reflexivity | discriminate
     | discriminate | discriminate | ]);
    intros st'; try (cbn; repeat split; try lia; discriminate).
  destruct (isEmpty _); cbn; repeat split; try lia; discriminate.
Qed.

Lemma stepOK_summary :
  keysAllowed summary st ->
  stepOK summary st input (stageSwitch completion input history st summary rc).
Proof.
  intros Hkeys. cbn [stageSwitch].
  destruct (parseYesNo input) as [[|]|] eqn:E.
  - apply (stepOK_intro _ _ _ _ []);
      [ assumption | assumption | reflexivity | constructor | cbn; lia
      | cbn; intros; discriminate | cbn; intros _; now right ].
  - unfold stepOK, turn; cbn.
    split; [left; repeat split; assumption |].
    split; [apply keysAllowed_empty |].
    split; [apply complaintSet_empty |].
    split; [discriminate | intros [|]; discriminate].
  - step_store (@nil (string * Value)).
Qed.

End StageSwitch.

Section Loops.

Variable completion : option string.
Variable input : string.
Variable history : list ChatMessage.
Variable st : ChatState.
Variable rc : Z.
Hypothesis Hcomplaint : complaintSet st.

Lemma ragCounter_enter (st' : ChatState) :
  st' !! "ragQuestionsAsked" = Some (VNum 0) ->
  keysAllowed red_flags (delete "ragQuestionsAsked" st') ->
  ragCounter st'.
Proof.
  intros H0 Hk. left. split; [exact H0 |].
  assert (forall k, assoc k fieldStages = Some rag_followup ->
                    k <> "ragQuestionsAsked" -> st' !! k = None) as Hnone.
  { intros k Hf Hne.
    rewrite <- (lookup_delete_ne st' "ragQuestionsAsked" k) by congruence.
    apply (later_field_unset red_flags rag_followup); [exact Hk | exact Hf |].
    cbn; lia. }
  repeat split; apply Hnone; (reflexivity || discriminate).
Qed.

Lemma keysAllowed_delete (s : Stage) (m : ChatState) (k : string) :
  keysAllowed s m -> keysAllowed s (delete k m).
Proof.
  intros H k' [v Hv]. apply H. exists v.
  destruct (decide (k = k')) as [<- | Hne].
  - now rewrite lookup_delete_eq in Hv.
  - now rewrite lookup_delete_ne in Hv.
Qed.

Lemma stepOK_red_flags :
  keysAllowed red_flags st ->
  stepOK red_flags st input
    (stageSwitch completion input history st red_flags rc).
Proof.
  intros Hkeys. cbn [stageSwitch].
  destruct (List.find _ _) as [q|] eqn:Eq.
  - apply find_some in Eq as [Hin Hq].
    pose proof (redFlagQuestion_field _ _ Hin) as Hf.
    assert (st !! field q = None) as Hnone.
    { apply negb_true_iff in Hq. unfold hasKey in Hq.
      apply bool_decide_eq_false in Hq. now apply eq_None_not_Some. }
    assert (field q <> "complaint") as Hqc.
    { intros Heq. rewrite Heq in Hf. discriminate. }
    assert (allowed red_flags (field q) = true) as Hqa.
    { unfold allowed. now rewrite Hf. }
    destruct (parseYesNo input) as [answer|].
    + destruct (answer && _).
      * apply stepOK_escalation.
        -- apply keepsFields_insert; [now left | apply keepsFields_refl].
        -- apply keysAllowed_insert.
           ++ apply (allowed_later _ red_flags); [exact Hf | cbn; lia].
           ++ apply (keysAllowed_mono red_flags); [cbn; lia | assumption].
        -- now apply complaintSet_insert_other.
      * destruct (isEmpty _).
        -- apply (stepOK_intro _ _ _ _ [("ragQuestionsAsked", VNum 0);
                                        (field q, VBool answer)]);
             [ assumption | assumption | reflexivity | | cbn; lia
             | | cbn; intros [|]; discriminate ].
           ++ apply Forall_cons; split;
                [ cbn [fst snd]; split; [now right |];
                  split; [reflexivity | intros; discriminate] |].
              apply Forall_cons; split; [| constructor].
              cbn [fst snd]. split; [now left |]. split.
              ** apply (allowed_later _ red_flags); [exact Hf | cbn; lia].
              ** intros; contradiction.
           ++ intros _. cbn [newState turn]. apply ragCounter_enter.
              ** apply lookup_insert_eq.
              ** rewrite delete_insert_eq. apply keysAllowed_delete.
                 now apply keysAllowed_insert.
        -- apply (stepOK_intro _ _ _ _ [(field q, VBool answer)]);
             [ assumption | assumption | reflexivity | | cbn; lia
             | cbn; intros; discriminate | cbn; intros [|]; discriminate ].
           apply Forall_cons; split; [| constructor].
           cbn [fst snd]. split; [now left |]. split; [exact Hqa |].
           intros; contradiction.
    + step_store (@nil (string * Value)).
  - apply (stepOK_intro _ _ _ _ [("ragQuestionsAsked", VNum 0)]);
      [ assumption | assumption | reflexivity | | cbn; lia
      | | cbn; intros [|]; discriminate ].
    + apply Forall_cons; split; [| constructor].
      cbn [fst snd]. split; [now right |].
      split; [reflexivity | intros; discriminate].
    + intros _. cbn [newState turn]. apply ragCounter_enter.
      * apply lookup_insert_eq.
      * rewrite delete_insert_eq. now apply keysAllowed_delete.
Qed.

Lemma stepOK_rag_followup :
  keysAllowed rag_followup st -> ragCounter st ->
  stepOK rag_followup st input
    (stageSwitch completion input history st rag_followup rc).
Proof.
  intros Hkeys Hrag. cbn [stageSwitch].
  destruct Hrag as [(Hn & H0 & H1 & H2) | [(Hn & H1 & H2) | (Hn & H2)]];
    rewrite Hn; cbn [orElse truthy negb Z.eqb plusOne numLt toNumber Z.ltb
                     Z.compare Pos.compare Pos.compare_cont].
  - change ("ragAnswer" +:+ toStr (Some (VNum 0))) with "ragAnswer0".
    apply (stepOK_intro _ _ _ _ [("ragQuestionsAsked", VNum (0 + 1));
                                 ("ragAnswer0", VStr (trim input))]);
      [ assumption | assumption | reflexivity | | cbn; lia
      | | cbn; intros [|]; discriminate ].
    + apply Forall_cons; split;
        [ cbn [fst snd]; split; [now right |];
          split; [reflexivity | intros; discriminate] |].
      apply Forall_cons; split; [| constructor].
      cbn [fst snd]. split; [now left |].
      split; [reflexivity | intros; discriminate].
    + intros _. cbn [newState turn]. right; left.
      rewrite lookup_insert_eq, !lookup_insert_ne by discriminate.
      now repeat split.
  - change ("ragAnswer" +:+ toStr (Some (VNum 1))) with "ragAnswer1".
    apply (stepOK_intro _ _ _ _ [("ragQuestionsAsked", VNum (1 + 1));
                                 ("ragAnswer1", VStr (trim input))]);
      [ assumption | assumption | reflexivity | | cbn; lia
      | | cbn; intros [|]; discriminate ].
    + apply Forall_cons; split;
        [ cbn [fst snd]; split; [now right |];
          split; [reflexivity | intros; discriminate] |].
      apply Forall_cons; split; [| constructor].
      cbn [fst snd]. split; [now left |].
      split; [reflexivity | intros; discriminate].
    + intros _. cbn [newState turn]. right; right.
      rewrite lookup_insert_eq, !lookup_insert_ne by discriminate.
      now repeat split.
  - change ("ragAnswer" +:+ toStr (Some (VNum 2))) with "ragAnswer2".
    apply (stepOK_intro _ _ _ _ [("ragQuestionsAsked", VNum (2 + 1));
                                 ("ragAnswer2", VStr (trim input))]);
      [ assumption | assumption | reflexivity | | cbn; lia
      | cbn; intros; discriminate | cbn; intros [|]; discriminate ].
    apply Forall_cons; split;
      [ cbn [fst snd]; split; [now right |];
        split; [reflexivity | intros; discriminate] |].
    apply Forall_cons; split; [| constructor].
    cbn [fst snd]. split; [now left |].
    split; [reflexivity | intros; discriminate].
Qed.

End Loops.

Lemma stepOK_stageSwitch (completion : option string) (input : string)
    (history : list ChatMessage) (st : ChatState) (stg : Stage) (rc : Z) :
  keysAllowed stg st -> complaintSet st ->
  (stg = rag_followup -> ragCounter st) ->
  stg <> complete -> stg <> escalated ->
  stepOK stg st input (stageSwitch completion input history st stg rc).
Proof.
  intros Hkeys Hcomplaint Hrag Hc He.
  destruct stg; try contradiction;
    first [ now apply stepOK_opening
          | now apply stepOK_localisation
          | now apply stepOK_red_flags
          | apply stepOK_rag_followup; auto
          | now apply stepOK_summary
          | apply stepOK_danger; [assumption | assumption | cbv [In]; tauto]
          | apply stepOK_simple; [assumption | assumption | cbv [In]; tauto] ].
Qed.

Lemma stepOK_processUserMessage (completion : option string) (input : string)
    (history : list ChatMessage) (st : ChatState) (stg : Stage) (rc : Z) :
  keysAllowed stg st -> complaintSet st ->
  (stg = rag_followup -> ragCounter st) ->
  stg <> complete -> stg <> escalated ->
  (3 <= rc -> In stg stages) ->
  stepOK stg st input
    (processUserMessage completion input history st stg rc).
Proof.
  intros Hkeys Hcomplaint Hrag Hc He Hforced. unfold processUserMessage.
  destruct (checkEmergencySigns input).
  { apply stepOK_escalation; [apply keepsFields_refl | | assumption].
    apply (keysAllowed_mono stg); [destruct stg; cbn; lia | assumption]. }
  destruct (rc >=? 3)%Z eqn:Hrc;
    [| now apply stepOK_stageSwitch].
  assert (In stg stages) as Hin by (apply Hforced; lia).
  cbv [stages In] in Hin.
  repeat (destruct Hin as [<- | Hin];
          [ first [ now apply stepOK_stageSwitch
                  | apply stepOK_same;
                    [ assumption | assumption | cbn; lia
                    | intros; discriminate | discriminate | discriminate ] ]
          | ]).
  contradiction.
Qed.

Lemma ragFollowup_cases (env : TurnEnv) (r : TurnResult) :
  newState (ragFollowup env r) = newState r
  /\ isEscalation (ragFollowup env r) = isEscalation r
  /\ isComplete (ragFollowup env r) = isComplete r
  /\ newRetryCount (ragFollowup env r) = newRetryCount r
  /\ (newStage (ragFollowup env r) = newStage r
      \/ (newStage r = rag_followup
          /\ newStage (ragFollowup env r) = context_conditions)).
Proof.
  unfold ragFollowup.
  destruct (bool_decide (newStage r = rag_followup)) eqn:E;
    cbn [andb]; [| repeat split; now left].
  apply bool_decide_eq_true in E.
  destruct (isEmpty (response r)); [| repeat split; now left].
  destruct (ragQuestion env) as [q|]; [destruct (isEmpty q) |];
    cbn; repeat split; auto.
Qed.

(** A turn that is no forced advance from a stage missing from the list keeps
    the invariant, and either resets the state on a rejected summary or keeps
    every field but the loop counter. *)
Lemma chatTurn_invariant (s : ChatSession) (env : TurnEnv) (s' : ChatSession) :
  sessionInvariant s ->
  (3 <= retryCount s -> In (stage s) stages) ->
  chatTurn s env = Some s' ->
  sessionInvariant s'
  /\ ((stage s = summary /\ parseYesNo (message env) = Some false
       /\ state s' = ∅ /\ stage s' = opening)
      \/ keepsFields (state s) (state s')).
Proof.
  intros (Hkeys & Hcomplaint & Hrag & Hactive) Hforced. unfold chatTurn.
  destruct (isEmpty (message env)); [discriminate |].
  destruct (bool_decide (status s = active)) eqn:Hst; [| discriminate].
  apply bool_decide_eq_true in Hst. destruct (Hactive Hst) as [Hc He].
  cbn [negb]. intros [= <-]. cbn [state stage status].
  set (r := processUserMessage _ _ _ _ _ _).
  assert (stepOK (stage s) (state s) (message env) r) as Hstep
    by now apply stepOK_processUserMessage.
  destruct Hstep as (Hwo & Hk' & Hc' & Hr' & Ht').
  destruct (ragFollowup_cases env r) as (-> & Hesc & Hcomp & _ & Hstage).
  split.
  - split; [| split; [assumption | split]].
    + destruct Hstage as [-> | [Hrf ->]]; [assumption |].
      apply (keysAllowed_mono (newStage r)); [rewrite Hrf; cbn; lia | assumption].
    + destruct Hstage as [-> | [_ ->]]; [assumption | discriminate].
    + rewrite Hesc, Hcomp. intros Hact.
      destruct (isEscalation r) eqn:E1; [discriminate |].
      destruct (isComplete r) eqn:E2; [discriminate |].
      destruct Hstage as [-> | [_ ->]]; [| split; discriminate].
      split; intros Hx; destruct Ht' as [|]; auto; discriminate.
  - destruct Hwo as [(H1 & H2 & H3 & H4) | Hwo]; [left | now right].
    repeat split; auto.
    destruct Hstage as [-> | [Hrf _]]; [assumption |].
    rewrite H4 in Hrf. discriminate.
Qed.

Lemma initialSession_invariant : sessionInvariant initialSession.
Proof.
  unfold sessionInvariant, initialSession; cbn.
  split; [apply keysAllowed_empty |]. split; [apply complaintSet_empty |].
  split; [discriminate |]. intros _. split; discriminate.
Qed.

Lemma reachable_invariant (s : ChatSession) :
  reachable s -> sessionInvariant s.
Proof.
  induction 1 as [| s env s' _ IH Hforced Hturn].
  - apply initialSession_invariant.
  - now destruct (chatTurn_invariant s env s' IH Hforced Hturn).
Qed.


(** C9, as stated, fails.  First run: the RAG loop counter
    [ragQuestionsAsked] is set to 0 when the last red-flag question is
    answered and is 1 after the next turn, with no reset in between.  Second
    run: after three names that are too short, the fourth turn at
    [collect_name] is a forced advance from a stage the list does not hold;
    it lands on [opening] with the state kept, and the next answer replaces
    the stored complaint. *)
Lemma write_once_counterexample :
  (let s1 := runTurns initialSession
               (chestPainIntake ++ [sayWithRag "no" "Any cough?"]) in
   let s2 := runTurns s1 [sayWithRag "a little" "Since when?"] in
   stage s1 = rag_followup
   /\ state s1 !! "ragQuestionsAsked" = Some (VNum 0)
   /\ stage s2 = rag_followup
   /\ state s2 !! "ragQuestionsAsked" = Some (VNum 1))
  /\ (let t1 := runTurns initialSession
                  (chestPainIntake ++ contextAndFunction
                   ++ [say "x"; say "y"; say "z"]) in
      let t2 := runTurns t1 [say "w"] in
      let t3 := runTurns t2 [say "I have a headache"] in
      (stage t1 = collect_name /\ retryCount t1 = 3
       /\ state t1 !! "complaint" = Some (VStr "chest pain"))
      /\ (stage t2 = opening
          /\ state t2 !! "complaint" = Some (VStr "chest pain"))
      /\ state t3 !! "complaint" = Some (VStr "headache")).
Proof. vm_compute. repeat apply conj; reflexivity. Qed.

(** C9 (amended). Along every run of turns from the start of a chat in which
    the forced advance never fires at a stage missing from its list (which
    can only be [collect_name], after three names that are too short), a
    turn either is the rejected summary confirmation, which empties the
    state and returns to [opening], or leaves every field that is set,
    other than the RAG loop counter [ragQuestionsAsked], with the value it
    has. *)
Theorem write_once (s : ChatSession) (env : TurnEnv) (s' : ChatSession) :
  reachable s ->
  (3 <= retryCount s -> In (stage s) stages) ->
  chatTurn s env = Some s' ->
  (stage s = summary /\ parseYesNo (message env) = Some false
   /\ state s' = ∅ /\ stage s' = opening)
  \/ (forall k v, k <> "ragQuestionsAsked" ->
                  state s !! k = Some v -> state s' !! k = Some v).
Proof.
  intros Hreach Hforced Hturn.
  apply reachable_invariant in Hreach.
  now destruct (chatTurn_invariant s env s' Hreach Hforced Hturn) as [_ H].
Qed.

Lemma write_once_witness :
  let s := default initialSession
             (chatTurn initialSession (say "I have chest pain")) in
  let s' := default s (chatTurn s (say "my head, mostly")) in
  state s !! "complaint" = Some (VStr "chest pain")
  /\ state s' !! "complaint" = Some (VStr "chest pain").
Proof.
  intros s s'. split; [vm_compute; reflexivity |].
  assert (reachable s) as Hs.
  { apply (reach_turn initialSession (say "I have chest pain") s
             reach_start);
      [ intros H; vm_compute in H; exfalso; now apply H
      | vm_compute; reflexivity ]. }
  destruct (write_once s (say "my head, mostly") s' Hs) as [(H & _) | H];
    [ intros H; vm_compute in H; exfalso; now apply H
    | vm_compute; reflexivity
    | vm_compute in H; discriminate H |].
  apply H; [discriminate | vm_compute; reflexivity].
Defined.

(** * Further properties of the embedded code *)

(** ** Outcomes of a turn of the state machine *)

(** Case analysis over the branches of a stage. *)
Ltac crush_switch :=
  unfold dangerCheck, ask, turn, escalation;
  repeat match goal with
         | |- context [match ?x with _ => _ end] => destruct x eqn:?
         end.

Lemma forced_stage_listed (i : nat) (s : Stage) :
  stages !! i = Some s ->
  s <> complete /\ s <> escalated /\ s <> rag_followup.
Proof.
  intros H.
  do 18 (destruct i as [|i];
         [cbv in H; injection H as <-; repeat split; discriminate |]).
  discriminate.
Qed.

(** X1. The chat completion and the conversation history only word the
    reply: the state, the stage, the two flags and the retry count a turn
    returns are the same whatever the completion call answers. *)
Theorem completion_only_words_reply (c1 c2 : option string) (input : string)
    (h1 h2 : list ChatMessage) (st : ChatState) (stg : Stage) (rc : Z) :
  let r1 := processUserMessage c1 input h1 st stg rc in
  let r2 := processUserMessage c2 input h2 st stg rc in
  newState r1 = newState r2 /\ newStage r1 = newStage r2
  /\ isEscalation r1 = isEscalation r2 /\ isComplete r1 = isComplete r2
  /\ newRetryCount r1 = newRetryCount r2.
Proof.
  cbv zeta. unfold processUserMessage.
  destruct (checkEmergencySigns input); [repeat split |].
  destruct (_ && _).
  - destruct (stages !! _); [repeat split |].
    destruct stg; cbn [stageSwitch]; unfold dangerCheck, ask, turn, escalation;
      repeat match goal with
             | |- context [match ?x with _ => _ end] => destruct x
             end; repeat split.
  - destruct stg; cbn [stageSwitch]; unfold dangerCheck, ask, turn, escalation;
      repeat match goal with
             | |- context [match ?x with _ => _ end] => destruct x
             end; repeat split.
Qed.

(** X2. A turn reports completion exactly when it ends in [complete] or
    [escalated]; a turn that escalates ends in [escalated], is complete,
    answers the emergency instruction and resets the retry count. *)
Theorem completion_flags (completion : option string) (input : string)
    (history : list ChatMessage) (st : ChatState) (stg : Stage) (rc : Z) :
  let r := processUserMessage completion input history st stg rc in
  (isComplete r = true <-> newStage r = complete \/ newStage r = escalated)
  /\ (isEscalation r = true ->
      newStage r = escalated /\ isComplete r = true
      /\ response r = EMERGENCY_RESPONSE /\ newRetryCount r = 0).
Proof.
  cbv zeta. unfold processUserMessage.
  destruct (checkEmergencySigns input);
    [cbn; split; [split; auto | auto] |].
  destruct (_ && _).
  - destruct (stages !! _) as [s|] eqn:E.
    + destruct (forced_stage_listed _ _ E) as (? & ? & _). cbn.
      split; [split; [discriminate | intros [|]; contradiction] | discriminate].
    + destruct stg; cbn [stageSwitch]; crush_switch; cbn;
        (split; [split; [try discriminate; auto | intros [|]; try discriminate; auto]
                | try discriminate; auto]).
  - destruct stg; cbn [stageSwitch]; crush_switch; cbn;
        (split; [split; [try discriminate; auto | intros [|]; try discriminate; auto]
                | try discriminate; auto]).
Qed.

Lemma completion_flags_witness :
  let r := processUserMessage None "I think she has fainted" [] ∅ opening 0 in
  newStage r = escalated /\ response r = EMERGENCY_RESPONSE.
Proof.
  intros r.
  destruct (completion_flags None "I think she has fainted" [] ∅ opening 0)
    as [_ H].
  destruct H as (H1 & _ & H2 & _); [vm_compute; reflexivity |].
  split; [exact H1 | exact H2].
Defined.

(** X3. The retry count a turn returns is 0, or the count it was given plus
    one; in the latter case the turn changes neither the stage nor the state
    and neither completes nor escalates. *)
Theorem retry_count_step (completion : option string) (input : string)
    (history : list ChatMessage) (st : ChatState) (stg : Stage) (rc : Z) :
  let r := processUserMessage completion input history st stg rc in
  newRetryCount r = 0
  \/ (newRetryCount r = rc + 1 /\ newStage r = stg /\ newState r = st
      /\ isEscalation r = false /\ isComplete r = false).
Proof.
  cbv zeta. unfold processUserMessage.
  destruct (checkEmergencySigns input); [now left |].
  destruct (_ && _).
  - destruct (stages !! _) as [s|] eqn:E; [now left |].
    destruct stg; cbn [stageSwitch]; crush_switch; cbn;
      first [ now left | right; repeat split ].
  - destruct stg; cbn [stageSwitch]; crush_switch; cbn;
      first [ now left | right; repeat split ].
Qed.

(** Evaluate the forced-advance test at a literal stage. *)
Ltac eval_forced :=
  match goal with
  | |- context [indexOf stages ?s] =>
      let v := eval vm_compute in (indexOf stages s) in
      change (indexOf stages s) with v
  end;
  match goal with
  | |- context [(?a <? Z.of_nat (length stages) - 1)%Z] =>
      let v := eval vm_compute in (a <? Z.of_nat (length stages) - 1)%Z in
      change (a <? Z.of_nat (length stages) - 1)%Z with v
  end;
  cbv iota;
  try match goal with
      | |- context [stages !! ?i] =>
          let v := eval vm_compute in (stages !! i) in
          change (stages !! i) with v
      end;
  cbv iota.

(** X4. Stages only move forward: unless the forced advance fires at a stage
    missing from its list, the stage a turn returns is the stage it was
    given or a later one, except on a rejected summary, which goes back to
    [opening] with an empty state. *)
Theorem stage_moves_forward (completion : option string) (input : string)
    (history : list ChatMessage) (st : ChatState) (stg : Stage) (rc : Z) :
  (3 <= rc -> In stg stages) ->
  let r := processUserMessage completion input history st stg rc in
  (stageRank stg <= stageRank (newStage r))%nat
  \/ (stg = summary /\ parseYesNo input = Some false
      /\ newStage r = opening /\ newState r = ∅).
Proof.
  intros Hforced. cbv zeta. unfold processUserMessage.
  destruct (checkEmergencySigns input);
    [left; destruct stg; cbn; lia |].
  destruct (rc >=? 3)%Z eqn:Hrc; cbn [andb].
  - assert (In stg stages) as Hin by (apply Hforced; lia).
    cbv [stages In] in Hin.
    repeat (destruct Hin as [<- | Hin];
            [ eval_forced;
              first [ left; cbn; lia
                    | cbn [stageSwitch]; crush_switch; cbn;
                      first [ left; lia | right; repeat split; assumption ] ]
            | ]).
    contradiction.
  - destruct stg; cbn [stageSwitch]; crush_switch; cbn;
      first [ left; lia | now right ].
Qed.

Lemma stage_moves_forward_witness :
  let r := processUserMessage None "hmm" [] ∅ time_trend 3 in
  (stageRank time_trend <= stageRank (newStage r))%nat
  \/ (time_trend = summary /\ parseYesNo "hmm" = Some false
      /\ newStage r = opening /\ newState r = ∅).
Proof.
  apply (stage_moves_forward None "hmm" [] ∅ time_trend 3).
  intros _. cbv [stages In]. tauto.
Defined.

(** X5. At the severe-pain check a "yes" is stored, and escalates exactly
    when the severity stored so far is 8 or more (an unset severity counts
    as 0); otherwise the chat goes on to the bleeding check. *)
Theorem severe_pain_escalation (completion : option string) (input : string)
    (history : list ChatMessage) (st : ChatState) (rc : Z) :
  checkEmergencySigns input = false -> rc < 3 ->
  parseYesNo input = Some true ->
  let r := processUserMessage completion input history st danger_severe_pain rc in
  newState r = <["severePain" := VBool true]> st
  /\ (isEscalation r = true <->
      numGe (if notNullish (st !! "severity") then st !! "severity"
             else Some (VNum 0)) 8 = true)
  /\ (isEscalation r = false -> newStage r = danger_bleeding).
Proof.
  intros Hem Hrc Hyes. cbv zeta. unfold processUserMessage. rewrite Hem.
  assert ((rc >=? 3)%Z = false) as -> by lia. cbn [andb stageSwitch].
  unfold dangerCheck. rewrite Hyes. cbn [andb].
  rewrite lookup_insert_ne by discriminate.
  destruct (numGe _ 8); cbn; repeat split; auto; discriminate.
Qed.

Lemma severe_pain_escalation_witness :
  let st : ChatState := <["severity" := VNum 9]> ∅ in
  isEscalation (processUserMessage None "yes" [] st danger_severe_pain 0)
  = true.
Proof.
  intros st.
  assert (checkEmergencySigns "yes" = false) as Hem by reflexivity.
  assert (0 < 3) as Hrc by lia.
  assert (parseYesNo "yes" = Some true) as Hyes by reflexivity.
  destruct (severe_pain_escalation None "yes" [] st 0 Hem Hrc Hyes)
    as (_ & H & _).
  apply H. reflexivity.
Defined.

(** X6. At the breathing, collapse, bleeding and confusion checks the answer
    is stored under the field of the check, and the turn escalates exactly
    on "yes"; on "no" the chat moves on and the retry count is reset. *)
Theorem danger_check_answer (completion : option string) (input : string)
    (history : list ChatMessage) (st : ChatState) (stg : Stage) (rc : Z)
    (answer : bool) :
  In stg [danger_breathing; danger_collapse; danger_bleeding; danger_confusion] ->
  checkEmergencySigns input = false -> rc < 3 ->
  parseYesNo input = Some answer ->
  let r := processUserMessage completion input history st stg rc in
  newState r = <[dangerField stg := VBool answer]> st
  /\ isEscalation r = answer
  /\ (answer = true -> newStage r = escalated)
  /\ (answer = false -> (stageRank stg < stageRank (newStage r))%nat
                        /\ newRetryCount r = 0).
Proof.
  intros Hin Hem Hrc Hyes. cbv zeta. unfold processUserMessage. rewrite Hem.
  assert ((rc >=? 3)%Z = false) as -> by lia. cbn [andb].
  cbv [In] in Hin.
  repeat (destruct Hin as [<- | Hin];
          [ cbn [stageSwitch dangerField]; unfold dangerCheck; rewrite Hyes;
            destruct answer; cbn [andb];
            [ cbn; repeat split; auto; discriminate
            | unfold ask, turn; cbn [newState isEscalation newStage newRetryCount];
              repeat split; try discriminate;
              try (cbn; lia);
              try (destruct (isEmpty _); cbn; lia) ]
          | ]).
  contradiction.
Qed.

Lemma danger_check_answer_witness :
  let r := processUserMessage None "no" [] ∅ danger_breathing 0 in
  isEscalation r = false /\ newRetryCount r = 0.
Proof.
  intros r.
  assert (In danger_breathing
            [danger_breathing; danger_collapse; danger_bleeding;
             danger_confusion]) as Hin by now left.
  assert (checkEmergencySigns "no" = false) as Hem by reflexivity.
  assert (0 < 3) as Hrc by lia.
  assert (parseYesNo "no" = Some false) as Hno by reflexivity.
  destruct (danger_check_answer None "no" [] ∅ danger_breathing 0 false
              Hin Hem Hrc Hno) as (_ & H1 & _ & H2).
  split; [exact H1 |]. now apply H2.
Defined.

(** X7. At the red-flag stage the answer is stored under the field of the
    first unanswered question of the complaint; the turn escalates exactly
    on a "yes" to a field of [criticalFlags], and otherwise stays in the
    red-flag loop or moves to the RAG loop. *)
Theorem red_flag_answer (completion : option string) (input : string)
    (history : list ChatMessage) (st : ChatState) (rc : Z)
    (q : RedFlagQuestion) (answer : bool) :
  checkEmergencySigns input = false -> rc < 3 ->
  List.find (fun q => negb (hasKey st (field q)))
    (redFlagQuestionsFor (complaintLower st)) = Some q ->
  parseYesNo input = Some answer ->
  let r := processUserMessage completion input history st red_flags rc in
  newState r !! field q = Some (VBool answer)
  /\ (isEscalation r = true <-> answer = true /\ In (field q) criticalFlags)
  /\ (isEscalation r = false ->
      newStage r = red_flags \/ newStage r = rag_followup).
Proof.
  intros Hem Hrc Hq Hyes. cbv zeta. unfold processUserMessage. rewrite Hem.
  assert ((rc >=? 3)%Z = false) as -> by lia. cbn [andb stageSwitch].
  rewrite Hq, Hyes.
  destruct (bool_decide (field q ∈ criticalFlags)) eqn:Hc.
  - apply bool_decide_eq_true in Hc. apply list_elem_of_In in Hc.
    destruct answer; cbn [andb].
    + cbn. rewrite lookup_insert_eq. repeat split; auto; discriminate.
    + destruct (isEmpty _); cbn.
      * rewrite lookup_insert_ne, lookup_insert_eq.
        -- repeat split; auto; try discriminate. intros [? _]; discriminate.
        -- intros Heq. rewrite <- Heq in Hc. cbv [criticalFlags In] in Hc.
           intuition discriminate.
      * rewrite lookup_insert_eq.
        repeat split; auto; try discriminate. intros [? _]; discriminate.
  - apply bool_decide_eq_false in Hc.
    assert (~ In (field q) criticalFlags) as Hn
      by (intros H; apply Hc; now apply list_elem_of_In).
    rewrite andb_false_r.
    assert (field q <> "ragQuestionsAsked") as Hne.
    { apply find_some in Hq as [Hin _].
      pose proof (redFlagQuestion_field _ _ Hin) as Hf. intros Heq.
      revert Hin. unfold redFlagQuestionsFor, RED_FLAG_QUESTIONS. cbn [assoc].
      repeat (match goal with |- context [if ?b then _ else _] => destruct b end;
              [ cbn [default In]; intros Hin;
                repeat (destruct Hin as [<- | Hin]; [discriminate Heq |]);
                contradiction | ]).
      cbn. contradiction. }
    destruct (isEmpty _); cbn.
    + rewrite lookup_insert_ne, lookup_insert_eq by congruence.
      repeat split; auto; try discriminate; intros [_ H]; contradiction.
    + rewrite lookup_insert_eq.
      repeat split; auto; try discriminate; intros [_ H]; contradiction.
Qed.

Lemma red_flag_answer_witness :
  let st : ChatState := <["complaint" := VStr "headache"]> ∅ in
  isEscalation (processUserMessage None "yes" [] st red_flags 0) = true.
Proof.
  intros st.
  set (q := rfq "Did this headache come on suddenly like a thunderclap?"
              "thunderclap").
  assert (checkEmergencySigns "yes" = false) as Hem by reflexivity.
  assert (0 < 3) as Hrc by lia.
  assert (List.find (fun q => negb (hasKey st (field q)))
            (redFlagQuestionsFor (complaintLower st)) = Some q) as Hq
      by (vm_compute; reflexivity).
  assert (parseYesNo "yes" = Some true) as Hyes by reflexivity.
  destruct (red_flag_answer None "yes" [] st 0 q true Hem Hrc Hq Hyes)
    as (_ & H & _).
  apply H. split; [reflexivity | cbv [criticalFlags In field q rfq]; tauto].
Defined.

(** One turn of the RAG loop: the answer is stored under [ragAnswer<n>], the
    counter goes from [n] to [n + 1], and the loop goes on while [n < 2]. *)
Lemma rag_followup_turn (completion : option string) (input : string)
    (history : list ChatMessage) (st : ChatState) (rc : Z) (n : Z) :
  checkEmergencySigns input = false -> rc < 3 ->
  st !! "ragQuestionsAsked" = Some (VNum n) ->
  let r := processUserMessage completion input history st rag_followup rc in
  newState r = <["ragQuestionsAsked" := VNum (n + 1)]>
                 (<["ragAnswer" +:+ pretty n := VStr (trim input)]> st)
  /\ (n < 2 -> newStage r = rag_followup /\ response r = "")
  /\ (2 <= n -> newStage r = context_conditions)
  /\ newRetryCount r = 0 /\ isEscalation r = false /\ isComplete r = false.
Proof.
  intros Hem Hrc Hn. cbv zeta. unfold processUserMessage. rewrite Hem.
  assert ((rc >=? 3)%Z = false) as -> by lia. cbn [andb stageSwitch].
  rewrite Hn.
  assert (orElse (Some (VNum n)) (VNum 0) = VNum n) as ->.
  { unfold orElse, truthy. destruct (n =? 0)%Z eqn:E; [| reflexivity].
    apply Z.eqb_eq in E. now subst. }
  cbn [plusOne toStr numLt toNumber].
  destruct (n <? 2)%Z eqn:E; cbn; repeat split; auto; intros; lia.
Qed.

(** X8. The RAG loop is bounded: from a counter of 0, three answers without
    an emergency keyword leave the loop for [context_conditions], with the
    three answers stored under [ragAnswer0], [ragAnswer1], [ragAnswer2] and
    the counter at 3. *)
Theorem rag_loop_bounded (c1 c2 c3 : option string) (i1 i2 i3 : string)
    (h1 h2 h3 : list ChatMessage) (st : ChatState) :
  checkEmergencySigns i1 = false -> checkEmergencySigns i2 = false ->
  checkEmergencySigns i3 = false ->
  st !! "ragQuestionsAsked" = Some (VNum 0) ->
  let r1 := processUserMessage c1 i1 h1 st rag_followup 0 in
  let r2 := processUserMessage c2 i2 h2 (newState r1) (newStage r1)
              (newRetryCount r1) in
  let r3 := processUserMessage c3 i3 h3 (newState r2) (newStage r2)
              (newRetryCount r2) in
  newStage r1 = rag_followup /\ newStage r2 = rag_followup
  /\ newStage r3 = context_conditions
  /\ newState r3 !! "ragAnswer0" = Some (VStr (trim i1))
  /\ newState r3 !! "ragAnswer1" = Some (VStr (trim i2))
  /\ newState r3 !! "ragAnswer2" = Some (VStr (trim i3))
  /\ newState r3 !! "ragQuestionsAsked" = Some (VNum 3).
Proof.
  intros H1 H2 H3 Hn r1 r2 r3.
  destruct (rag_followup_turn c1 i1 h1 st 0 0 H1 ltac:(lia) Hn)
    as (Hs1 & Hstay1 & _ & Hrc1 & _).
  destruct (Hstay1 ltac:(lia)) as [Hg1 _]. fold r1 in Hs1, Hg1, Hrc1.
  assert (newState r1 !! "ragQuestionsAsked" = Some (VNum 1)) as Hn1
    by (rewrite Hs1; apply lookup_insert_eq).
  assert (r2 = processUserMessage c2 i2 h2 (newState r1) rag_followup 0) as Hr2
    by (subst r2; now rewrite Hg1, Hrc1).
  destruct (rag_followup_turn c2 i2 h2 (newState r1) 0 1 H2 ltac:(lia) Hn1)
    as (Hs2 & Hstay2 & _ & Hrc2 & _).
  destruct (Hstay2 ltac:(lia)) as [Hg2 _]. rewrite <- Hr2 in Hs2, Hg2, Hrc2.
  assert (newState r2 !! "ragQuestionsAsked" = Some (VNum 2)) as Hn2
    by (rewrite Hs2; apply lookup_insert_eq).
  assert (r3 = processUserMessage c3 i3 h3 (newState r2) rag_followup 0) as Hr3
    by (subst r3; now rewrite Hg2, Hrc2).
  destruct (rag_followup_turn c3 i3 h3 (newState r2) 0 2 H3 ltac:(lia) Hn2)
    as (Hs3 & _ & Hleave & _).
  rewrite <- Hr3 in Hs3, Hleave.
  split; [exact Hg1 |]. split; [exact Hg2 |]. split; [apply Hleave; lia |].
  rewrite Hs3, Hs2, Hs1.
  change ("ragAnswer" +:+ pretty 0) with "ragAnswer0".
  change ("ragAnswer" +:+ pretty 1) with "ragAnswer1".
  change ("ragAnswer" +:+ pretty 2) with "ragAnswer2".
  repeat split;
    repeat first [ rewrite lookup_insert_eq | rewrite lookup_insert_ne by discriminate ];
    reflexivity.
Qed.

Lemma rag_loop_bounded_witness :
  let st : ChatState := <["ragQuestionsAsked" := VNum 0]> ∅ in
  let r1 := processUserMessage None "once before" [] st rag_followup 0 in
  let r2 := processUserMessage None "in the evening" [] (newState r1)
              (newStage r1) (newRetryCount r1) in
  let r3 := processUserMessage None "nothing else" [] (newState r2)
              (newStage r2) (newRetryCount r2) in
  newStage r3 = context_conditions
  /\ newState r3 !! "ragAnswer1" = Some (VStr "in the evening").
Proof.
  intros st r1 r2 r3.
  assert (checkEmergencySigns "once before" = false) as H1 by reflexivity.
  assert (checkEmergencySigns "in the evening" = false) as H2 by reflexivity.
  assert (checkEmergencySigns "nothing else" = false) as H3 by reflexivity.
  assert (st !! "ragQuestionsAsked" = Some (VNum 0)) as Hn by reflexivity.
  destruct (rag_loop_bounded None None None "once before" "in the evening"
              "nothing else" [] [] [] st H1 H2 H3 Hn)
    as (_ & _ & Hs & _ & Ha & _).
  split; [exact Hs | exact Ha].
Defined.

(** ** Parsers and wording *)

Lemma lowerChar_upperChar (c : ascii) : lowerChar (upperChar c) = lowerChar c.
Proof. destruct c as [[] [] [] [] [] [] [] []]; reflexivity. Qed.

Lemma lowerChar_idem (c : ascii) : lowerChar (lowerChar c) = lowerChar c.
Proof. destruct c as [[] [] [] [] [] [] [] []]; reflexivity. Qed.

Lemma toLowerCase_toUpperCase (s : string) :
  isAscii s = true -> toLowerCase (toUpperCase s) = toLowerCase s.
Proof.
  unfold isAscii. induction s as [|c s IH]; [reflexivity |].
  cbn [list_ascii_of_string forallb toUpperCase toLowerCase]. intros H.
  apply andb_true_iff in H as [_ H].
  now rewrite lowerChar_upperChar, IH.
Qed.

Lemma toLowerCase_idem (s : string) : toLowerCase (toLowerCase s) = toLowerCase s.
Proof.
  induction s as [|c s IH]; [reflexivity |].
  cbn [toLowerCase]. now rewrite lowerChar_idem, IH.
Qed.

(** X9. The emergency scan, the complaint parser and the yes/no parser
    ignore the case of ASCII letters: on an input of ASCII characters,
    upper-casing the input changes none of their results. *)
Theorem scans_ignore_case (input : string) :
  isAscii input = true ->
  checkEmergencySigns (toUpperCase input) = checkEmergencySigns input
  /\ parseComplaint (toUpperCase input) = parseComplaint input
  /\ parseYesNo (toUpperCase input) = parseYesNo input.
Proof.
  intros H. unfold checkEmergencySigns, parseComplaint, parseYesNo.
  now rewrite (toLowerCase_toUpperCase input H).
Qed.

Lemma scans_ignore_case_witness :
  checkEmergencySigns (toUpperCase "I can't breathe") = true
  /\ parseComplaint (toUpperCase "My chest hurts") = Some "chest pain".
Proof.
  split.
  - rewrite (proj1 (scans_ignore_case "I can't breathe" eq_refl)).
    reflexivity.
  - rewrite (proj1 (proj2 (scans_ignore_case "My chest hurts" eq_refl))).
    reflexivity.
Defined.

(** X10. An answer in which a word other than the first starts with "y" is
    read as "yes", whatever else it says: the yes-words are tried before the
    no-words and "y" is one of them. *)
Theorem parseYesNo_word_in_y (input : string) :
  includes (trim (toLowerCase input)) " y" = true ->
  parseYesNo input = Some true.
Proof.
  intros H. unfold parseYesNo.
  assert (matchesWord (trim (toLowerCase input))
            ["yes"; "y"; "yeah"; "yep"; "true"; "correct"; "yea"; "sure";
             "ok"; "okay"; "definitely"; "absolutely"; "i can"; "i am";
             "i do"] = true) as ->; [| reflexivity].
  unfold matchesWord. apply existsb_exists. exists "y".
  split; [cbv [In]; tauto |].
  change (" " +:+ "y") with " y". rewrite H. now rewrite !orb_true_r.
Qed.

Lemma parseYesNo_word_in_y_witness : parseYesNo "No, not yet" = Some true.
Proof. apply (parseYesNo_word_in_y "No, not yet"). reflexivity. Defined.

Lemma parseComplaint_In (input c : string) :
  parseComplaint input = Some c -> In c COMPLAINTS.
Proof.
  unfold parseComplaint.
  destruct (List.find _ COMPLAINTS) as [x|] eqn:E.
  - intros [= <-]. now apply find_some in E as [Hin _].
  - repeat (match goal with |- context [if ?b then _ else _] => destruct b end;
            [intros [= <-]; cbv [COMPLAINTS In]; tauto |]).
    discriminate.
Qed.

(** X11. The complaint parser only returns one of the five complaints of
    [COMPLAINTS], each of which has its red-flag questions and its
    recommendations. *)
Theorem parseComplaint_range (input c : string) :
  parseComplaint input = Some c ->
  In c COMPLAINTS
  /\ is_Some (assoc c RED_FLAG_QUESTIONS)
  /\ is_Some (assoc c GREEN_RECOMMENDATIONS).
Proof.
  intros H. apply parseComplaint_In in H. split; [exact H |].
  cbv [COMPLAINTS In] in H.
  repeat (destruct H as [<- | H]; [split; eexists; reflexivity |]).
  contradiction.
Qed.

Lemma parseComplaint_range_witness :
  In "chest pain" COMPLAINTS
  /\ is_Some (assoc "chest pain" RED_FLAG_QUESTIONS)
  /\ is_Some (assoc "chest pain" GREEN_RECOMMENDATIONS).
Proof.
  apply (parseComplaint_range "My heart is racing" "chest pain"). reflexivity.
Defined.

Lemma prefix_append (b c : string) : String.prefix b (b +:+ c) = true.
Proof.
  induction b as [|x b IH]; [now destruct c |].
  change (String x b +:+ c) with (String x (b +:+ c)). cbn [String.prefix].
  destruct (ascii_dec x x); [exact IH | contradiction].
Qed.

Lemma includes_append (a b c : string) : includes (a +:+ b +:+ c) b = true.
Proof.
  induction a as [|x a IH].
  - change ("" +:+ b +:+ c) with (b +:+ c).
    destruct (b +:+ c) eqn:E; cbn [includes]; rewrite <- E, prefix_append;
      reflexivity.
  - change (String x a +:+ b +:+ c) with (String x (a +:+ b +:+ c)).
    cbn [includes]. rewrite IH. apply orb_true_r.
Qed.

Lemma append_assoc' (a b c : string) : (a +:+ b) +:+ c = a +:+ b +:+ c.
Proof.
  induction a as [|x a IH]; [reflexivity |].
  change ((String x a +:+ b) +:+ c) with (String x ((a +:+ b) +:+ c)).
  now rewrite IH.
Qed.

Lemma generateFinalResponse_safety_net (st : ChatState) :
  includes (generateFinalResponse st) SAFETY_NET = true.
Proof.
  unfold generateFinalResponse.
  match goal with
  | |- includes ((?a +:+ SAFETY_NET) +:+ ?c) _ = _ =>
      rewrite (append_assoc' a SAFETY_NET c)
  end.
  apply includes_append.
Qed.

(** X12. A turn that completes the chat without escalating includes the
    fixed safety net in its reply; a turn that escalates answers the fixed
    emergency instruction, which names 999 and A&E. *)
Theorem completion_wording (completion : option string) (input : string)
    (history : list ChatMessage) (st : ChatState) (stg : Stage) (rc : Z) :
  let r := processUserMessage completion input history st stg rc in
  isComplete r = true ->
  if isEscalation r
  then response r = EMERGENCY_RESPONSE
       /\ includes (response r) "999" = true
       /\ includes (response r) "A&E" = true
  else includes (response r) SAFETY_NET = true.
Proof.
  cbv zeta. unfold processUserMessage.
  destruct (checkEmergencySigns input);
    [intros _; cbn [isEscalation escalation response]; repeat split; reflexivity |].
  assert (forall s, isComplete (stageSwitch completion input history st s rc) = true ->
            if isEscalation (stageSwitch completion input history st s rc)
            then response (stageSwitch completion input history st s rc)
                 = EMERGENCY_RESPONSE
                 /\ includes (response (stageSwitch completion input history st s rc)) "999" = true
                 /\ includes (response (stageSwitch completion input history st s rc)) "A&E" = true
            else includes (response (stageSwitch completion input history st s rc))
                   SAFETY_NET = true) as Hsw.
  { intros s. destruct s; cbn [stageSwitch]; crush_switch;
      cbn [isComplete isEscalation response];
      try discriminate; intros _;
      first [ repeat split; reflexivity
            | apply generateFinalResponse_safety_net
            | apply (includes_append "Thank you for completing the assessment."
                       SAFETY_NET "") || idtac ].
    all: change ("Thank you for completing the assessment." +:+ SAFETY_NET)
           with ("Thank you for completing the assessment." +:+ SAFETY_NET +:+ "");
      apply includes_append. }
  destruct (_ && _); [| apply Hsw].
  destruct (stages !! _); [discriminate | apply Hsw].
Qed.

Lemma completion_wording_witness :
  includes (response (processUserMessage None "yes" [] ∅ summary 0)) SAFETY_NET
  = true.
Proof.
  pose proof (completion_wording None "yes" [] ∅ summary 0) as H.
  cbv zeta in H. apply H. reflexivity.
Defined.

Lemma redFlagQuestion_nonempty (complaint : string) (q : RedFlagQuestion) :
  In q (redFlagQuestionsFor complaint) -> isEmpty (rfq_question q) = false.
Proof.
  unfold redFlagQuestionsFor, RED_FLAG_QUESTIONS. cbn [assoc].
  repeat (match goal with |- context [if ?b then _ else _] => destruct b end;
          [ cbn [default In]; intros Hin;
            repeat (destruct Hin as [<- | Hin]; [reflexivity |]);
            contradiction | ]).
  cbn. contradiction.
Qed.

(** X13. For a state whose complaint, lower-cased, is no property name of
    [Object.prototype]: the red-flag loop asks the first question of the
    complaint whose field is not set yet, and hands over to the RAG loop
    with an empty question when every field is set; a complaint outside
    [COMPLAINTS] has no red-flag question. *)
Theorem next_red_flag_question (st : ChatState) :
  ~ In (complaintLower st) objectPrototypeNames ->
  let nq := getNextQuestion st red_flags in
  let questions := redFlagQuestionsFor (complaintLower st) in
  (Forall (fun q => is_Some (st !! field q)) questions ->
   question nq = "" /\ nextStage nq = rag_followup)
  /\ (forall q, List.find (fun q => negb (hasKey st (field q))) questions = Some q ->
        question nq = rfq_question q /\ nextStage nq = red_flags
        /\ st !! field q = None /\ question nq <> "")
  /\ (~ In (complaintLower st) COMPLAINTS -> questions = []).
Proof.
  intros _. cbv zeta. cbn [getNextQuestion]. split; [| split].
  - intros Hall.
    destruct (List.find _ _) as [q|] eqn:E; [| now split].
    apply find_some in E as [Hin Hq]. rewrite Forall_forall in Hall.
    apply list_elem_of_In in Hin. specialize (Hall q Hin).
    apply negb_true_iff, bool_decide_eq_false in Hq. contradiction.
  - intros q E. rewrite E. cbn. pose proof E as E'.
    apply find_some in E' as [Hin Hq].
    pose proof (redFlagQuestion_nonempty _ _ Hin) as Hne.
    repeat split; auto.
    + apply negb_true_iff, bool_decide_eq_false in Hq.
      now apply eq_None_not_Some.
    + intros H0. rewrite H0 in Hne. discriminate.
  - intros Hnot. unfold redFlagQuestionsFor, RED_FLAG_QUESTIONS. cbn [assoc].
    unfold streq.
    repeat (match goal with
            | |- context [bool_decide (?a = ?b)] =>
                destruct (bool_decide_reflect (a = b)) as [Heq | _];
                [ exfalso; apply Hnot; rewrite <- Heq; cbv [COMPLAINTS In]; tauto | ]
            end).
    reflexivity.
Qed.

Lemma next_red_flag_question_witness :
  let st : ChatState := <["complaint" := VStr "chest pain"]> ∅ in
  question (getNextQuestion st red_flags)
  = "Is the pain spreading to your arm, jaw, neck, or back?"
  /\ st !! "radiatingPain" = None.
Proof.
  intros st.
  assert (~ In (complaintLower st) objectPrototypeNames) as Hplain.
  { intros H. vm_compute in H.
    repeat (destruct H as [H | H]; [discriminate H |]). exact H. }
  destruct (next_red_flag_question st Hplain) as (_ & H & _).
  destruct (H (rfq "Is the pain spreading to your arm, jaw, neck, or back?"
                 "radiatingPain")) as (H1 & _ & H2 & _);
    [vm_compute; reflexivity |].
  split; [exact H1 | exact H2].
Defined.

Lemma getGreenRecommendations_length (complaint : string) :
  length (getGreenRecommendations complaint) = 5%nat.
Proof.
  unfold getGreenRecommendations, GREEN_RECOMMENDATIONS. cbn [assoc].
  repeat (match goal with |- context [if ?b then _ else _] => destruct b end;
          [reflexivity |]).
  reflexivity.
Qed.

(** X14. For a state whose complaint, lower-cased, is no property name of
    [Object.prototype], [buildTriageFromChat] attaches recommendations
    exactly when the band is Green, and then five of them. *)
Theorem green_recommendations (st : ChatState) :
  ~ In (toLowerCase (strOr (st !! "complaint") "")) objectPrototypeNames ->
  match recommendations (buildTriageFromChat st) with
  | Some l => riskBand (result (buildTriageFromChat st)) = Green
              /\ length l = 5%nat
  | None => riskBand (result (buildTriageFromChat st)) <> Green
  end.
Proof.
  intros _. unfold buildTriageFromChat.
  destruct (bool_decide_reflect
              (riskBand (evaluateTriage (triageAnswers st)) = Green)) as [H | H];
    cbn [recommendations result].
  - split; [exact H | apply getGreenRecommendations_length].
  - exact H.
Qed.

Lemma green_recommendations_witness :
  let st : ChatState :=
    <["severity" := VNum 3]> (<["complaint" := VStr "headache"]> ∅) in
  match recommendations (buildTriageFromChat st) with
  | Some l => riskBand (result (buildTriageFromChat st)) = Green
              /\ length l = 5%nat
  | None => riskBand (result (buildTriageFromChat st)) <> Green
  end.
Proof.
  intros st. apply (green_recommendations st).
  intros H. vm_compute in H.
  repeat (destruct H as [H | H]; [discriminate H |]). exact H.
Defined.

(** ** Rules engine: letter case and monotonicity *)

(** X15. The rules engine reads the complaint without regard to letter
    case. *)
Theorem evaluateTriage_complaint_case (m : gmap string Value) (c : string) :
  evaluateTriage (<["complaint" := VStr c]> m)
  = evaluateTriage (<["complaint" := VStr (toLowerCase c)]> m).
Proof.
  unfold evaluateTriage, collectFlags, complaintLower.
  rewrite !lookup_insert_eq.
  rewrite !lookup_insert_ne by discriminate.
  now rewrite toLowerCase_idem.
Qed.

Lemma flagsFollow_pushIf (c1 c2 : bool) (l : string) (f1 f2 : list string) :
  flagsFollow f1 f2 -> (c1 = true -> c2 = true) ->
  flagsFollow (pushIf c1 l f1) (pushIf c2 l f2).
Proof.
  unfold flagsFollow, pushIf. intros Hf Hc.
  destruct c1, c2; try (specialize (Hc eq_refl); discriminate); intros H.
  - intros E. now apply app_eq_nil in E as [_ E].
  - intros E. now apply app_eq_nil in E as [_ E].
  - now apply Hf.
Qed.

Lemma flagsFollow_if (b : bool) (x1 y1 x2 y2 : list string) :
  flagsFollow x1 x2 -> flagsFollow y1 y2 ->
  flagsFollow (if b then x1 else y1) (if b then x2 else y2).
Proof. now destruct b. Qed.

Lemma flagsFollow_refl (f : list string) : flagsFollow f f.
Proof. now intros H. Qed.

(** X16. A higher severity or a higher age never lowers the band, everything
    else being equal (Green < Amber < Red). *)
Theorem band_monotone (m : gmap string Value) (s s' a a' : Z) :
  s <= s' -> a <= a' ->
  let answers := <["severity" := VNum s]> (<["age" := VNum a]> m) in
  let answers' := <["severity" := VNum s']> (<["age" := VNum a']> m) in
  (bandRank (riskBand (evaluateTriage answers))
   <= bandRank (riskBand (evaluateTriage answers')))%nat.
Proof.
  intros Hs Ha answers answers'.
  assert (flagsFollow (collectFlags answers) (collectFlags answers')) as Hflags.
  { subst answers answers'. unfold collectFlags, complaintLower.
    rewrite !lookup_insert_eq.
    rewrite !(lookup_insert_ne _ "severity") by discriminate.
    rewrite !lookup_insert_eq.
    rewrite !(lookup_insert_ne _ "age") by discriminate.
    repeat lazymatch goal with
      | |- flagsFollow ?f ?f => apply flagsFollow_refl
      | |- flagsFollow (pushIf _ _ _) (pushIf _ _ _) =>
          apply flagsFollow_pushIf; [| try (intros H; exact H)]
      | |- flagsFollow (if _ then _ else _) (if _ then _ else _) =>
          apply flagsFollow_if
      end.
    all: intros H;
      first [ apply numGe_num in H; apply numGe_num; lia
            | apply andb_true_iff in H as [H1 H2];
              apply numGt_num in H1, H2; apply andb_true_iff;
              split; apply numGt_num; lia ]. }
  rewrite !evaluateTriage_riskBand.
  subst answers answers'.
  rewrite !lookup_insert_eq.
  rewrite !(lookup_insert_ne _ "severity" "age") by discriminate.
  rewrite !lookup_insert_eq.
  unfold flagsFollow in Hflags.
  destruct (collectFlags (<["severity":=VNum s]> (<["age":=VNum a]> m))) eqn:E1;
    destruct (collectFlags (<["severity":=VNum s']> (<["age":=VNum a']> m))) eqn:E2;
    try (cbn; lia).
  - destruct (numGe (Some (VNum s)) 6 || numGt (Some (VNum a)) 75) eqn:B1;
      [| destruct (_ || _); cbn; lia].
    assert (numGe (Some (VNum s')) 6 || numGt (Some (VNum a')) 75 = true) as ->;
      [| cbn; lia].
    apply orb_true_iff in B1. apply orb_true_iff.
    destruct B1 as [B | B]; [left | right].
    + apply numGe_num in B. apply numGe_num. lia.
    + apply numGt_num in B. apply numGt_num. lia.
  - destruct (_ || _); cbn; lia.
  - exfalso. now apply Hflags.
Qed.

Lemma band_monotone_witness :
  let m : gmap string Value := <["complaint" := VStr "chest pain"]> ∅ in
  (bandRank (riskBand (evaluateTriage
                         (<["severity" := VNum 4]> (<["age" := VNum 30]> m))))
   <= bandRank (riskBand (evaluateTriage
                            (<["severity" := VNum 9]> (<["age" := VNum 30]> m)))))%nat.
Proof.
  intros m. apply (band_monotone m 4 9 30 30); lia.
Defined.

(** ** The fact record *)

Section Folds.

Variable pm : string.
Variable det : gmap string Value.
Variable opts : option ExtractFactsOpts.

Lemma fold_factStep_keys (k : string) (fs : list ExtractedFact) :
  k <> "__proto__" ->
  forall acc,
    is_Some (fst (fold_left (factStep pm det opts) fs acc) !! k)
    <-> is_Some (fst acc !! k)
        \/ In k (map key (List.filter (admitted pm) fs)).
Proof.
  intros Hk.
  induction fs as [|f fs IH]; intros acc; cbn [fold_left List.filter map].
  - cbn. tauto.
  - rewrite IH. destruct (admitted pm f) eqn:E.
    + destruct acc as [record events]. rewrite factStep_admitted by exact E.
      cbn [fst map In].
      destruct (decide (key f = k)) as [-> | Hne].
      * rewrite lookup_jsSet_eq by exact Hk.
        split; [intros _; right; now left |]. intros _. left. eauto.
      * rewrite lookup_jsSet_ne by exact Hne. tauto.
    + rewrite factStep_rejected by exact E. tauto.
Qed.

Lemma fold_factStep_keeps (k : string) (fs : list ExtractedFact) :
  forall acc,
    is_Some (fst acc !! k) ->
    is_Some (fst (fold_left (factStep pm det opts) fs acc) !! k).
Proof.
  induction fs as [|f fs IH]; intros acc H; [exact H |].
  cbn [fold_left]. apply IH. destruct (admitted pm f) eqn:E.
  - destruct acc as [record events]. rewrite factStep_admitted by exact E.
    cbn [fst] in *. now apply lookup_jsSet_is_Some.
  - now rewrite factStep_rejected by exact E.
Qed.

Lemma fold_factStep_events (fs : list ExtractedFact) :
  forall acc,
    snd (fold_left (factStep pm det opts) fs acc)
    = (snd acc ++ flat_map (divergenceOf det opts)
                    (List.filter (admitted pm) fs))%list.
Proof.
  induction fs as [|f fs IH]; intros acc; cbn [fold_left List.filter flat_map].
  - now rewrite app_nil_r.
  - rewrite IH. destruct (admitted pm f) eqn:E.
    + destruct acc as [record events]. rewrite factStep_admitted by exact E.
      cbn [snd flat_map]. now rewrite app_assoc.
    + now rewrite factStep_rejected by exact E.
Qed.

Lemma fold_factStep_gated (k : string) (fs : list ExtractedFact) :
  forall acc,
    Forall (fun f => key f = k -> admitted pm f = false) fs ->
    fst (fold_left (factStep pm det opts) fs acc) !! k = fst acc !! k.
Proof.
  induction fs as [|f fs IH]; intros acc Hall; [reflexivity |].
  inversion Hall as [|? ? Hf Hfs]; subst. cbn [fold_left].
  rewrite IH by exact Hfs.
  destruct (decide (key f = k)) as [Hk | Hk].
  - now rewrite factStep_rejected by auto.
  - now apply factStep_other.
Qed.

End Folds.

Lemma fold_negationStep_keys (k : string) (ns : list ExtractedFact) :
  k <> "__proto__" ->
  forall record,
    is_Some (fold_left negationStep ns record !! k)
    <-> is_Some (record !! k) \/ In k (map key (List.filter passes ns)).
Proof.
  intros Hk.
  induction ns as [|n ns IH]; intros record; cbn [fold_left List.filter map].
  - cbn. tauto.
  - rewrite IH. unfold negationStep, passes.
    destruct (confidence n <? threshold (key n))%Z; cbn [negb map In]; [tauto |].
    destruct (decide (key n = k)) as [-> | Hne].
    + rewrite lookup_jsSet_eq by exact Hk.
      split; [intros _; right; now left |]. intros _. left. eauto.
    + rewrite lookup_jsSet_ne by exact Hne. tauto.
Qed.

Lemma fold_negationStep_keeps (k : string) (ns : list ExtractedFact) :
  forall record,
    is_Some (record !! k) -> is_Some (fold_left negationStep ns record !! k).
Proof.
  induction ns as [|n ns IH]; intros record H; [exact H |].
  cbn [fold_left]. apply IH. unfold negationStep.
  destruct (confidence n <? threshold (key n))%Z; [exact H |].
  now apply lookup_jsSet_is_Some.
Qed.

(** X17. The extraction never removes a key: every key of the stored facts
    or of their deterministic projection is a key of the record
    [extractFactsFromMessages] returns.  And for every key other than
    [__proto__] (which a write to a plain object does not store), the record
    holds it exactly when the stored facts, their projection, or an admitted
    fact or negation of the reply does. *)
Theorem record_keys (reply : option ExtractionResult)
    (messages : list ChatMessage) (st : gmap string Value)
    (opts : option ExtractFactsOpts) (k : string) :
  let record := fst (extractFactsFromMessages reply messages st opts) in
  (is_Some (st !! k) \/ is_Some (deterministicFactsFromState st !! k) ->
   is_Some (record !! k))
  /\ (k <> "__proto__" ->
      (is_Some (record !! k)
       <-> is_Some (st !! k)
           \/ is_Some (deterministicFactsFromState st !! k)
           \/ In k (contributedKeys reply messages))).
Proof.
  cbv zeta. unfold extractFactsFromMessages, contributedKeys.
  assert (is_Some ((deterministicFactsFromState st ∪ st) !! k)
          <-> is_Some (st !! k)
              \/ is_Some (deterministicFactsFromState st !! k)) as Hbase.
  { rewrite lookup_union_is_Some. tauto. }
  destruct (isEmpty (trim (patientText messages))); cbn [fst In];
    [tauto |].
  destruct reply as [result|]; cbn [fst In]; [| tauto].
  split.
  - intros H. apply Hbase in H.
    destruct (negations result) as [ns|], (facts result) as [fs|];
      cbn [fst];
      repeat first [ apply fold_negationStep_keeps
                   | apply fold_factStep_keeps ];
      exact H.
  - intros Hk. rewrite in_app_iff.
    destruct (negations result) as [ns|], (facts result) as [fs|];
      cbn [default List.filter map In fst];
      rewrite ?fold_negationStep_keys, ?fold_factStep_keys by exact Hk;
      cbn [fst]; tauto.
Qed.

Lemma record_keys_witness :
  let st : ChatState := <["severity" := VNum 7]> ∅ in
  let messages := [ {| role := user; content := "since today" |} ] in
  let f := {| key := "onset"; value := VStr "today"; confidence := 80 |} in
  let record := fst (extractFactsFromMessages
                       (Some {| facts := Some [f]; negations := None |})
                       messages st None) in
  is_Some (record !! "severity_score") /\ is_Some (record !! "onset").
Proof.
  intros st messages f record.
  destruct (record_keys (Some {| facts := Some [f]; negations := None |})
              messages st None "severity_score") as [H1 _].
  destruct (record_keys (Some {| facts := Some [f]; negations := None |})
              messages st None "onset") as [_ H2].
  split.
  - apply H1. right. exists (VNum 7). vm_compute. reflexivity.
  - apply H2; [discriminate |]. right. right. vm_compute. tauto.
Defined.

(** Reads of the projection see the members a plain object inherits: an
    admitted fact named [toString] is reported as a divergence on an empty
    state; and a negation named [__proto__] stores nothing. *)
Lemma inherited_names_example :
  let messages := [ {| role := user; content := "hello" |} ] in
  let f := {| key := "toString"; value := VStr "x"; confidence := 80 |} in
  let n := {| key := "__proto__"; value := VBool false; confidence := 80 |} in
  let out := extractFactsFromMessages
               (Some {| facts := Some [f]; negations := Some [n] |})
               messages ∅
               (Some {| sessionId := Some 1; onDivergence := true |}) in
  map div_key (snd out) = ["toString"]
  /\ fst out !! "toString" = Some (VStr "x")
  /\ fst out !! "__proto__" = None.
Proof. vm_compute. repeat apply conj; reflexivity. Qed.

(** X18. The divergence callback is called once for each admitted fact of
    the reply for whose key the projection object yields a value (an own
    fact, or a member inherited from [Object.prototype]) other than the
    value of the fact, in reply order, and at no other time: not for a
    rejected fact, not for a negation, not without a callback. *)
Theorem divergence_events (reply : option ExtractionResult)
    (messages : list ChatMessage) (st : gmap string Value)
    (opts : option ExtractFactsOpts) :
  snd (extractFactsFromMessages reply messages st opts)
  = expectedEvents reply messages st opts.
Proof.
  unfold extractFactsFromMessages, expectedEvents.
  destruct (isEmpty (trim (patientText messages))); [reflexivity |].
  destruct reply as [result|]; [| reflexivity]. cbn [snd].
  destruct (facts result) as [fs|]; [| reflexivity].
  now rewrite fold_factStep_events.
Qed.

(** X19. Confidence gating: a key about which every fact of the reply is
    rejected and every negation is below the threshold keeps the value of
    the deterministic projection, or else of the stored facts. *)
Theorem gated_key_unchanged (result : ExtractionResult)
    (messages : list ChatMessage) (st : gmap string Value)
    (opts : option ExtractFactsOpts) (k : string) :
  Forall (fun f => key f = k -> admitted (patientText messages) f = false)
    (default [] (facts result)) ->
  Forall (fun neg => key neg = k -> confidence neg < threshold k)
    (default [] (negations result)) ->
  fst (extractFactsFromMessages (Some result) messages st opts) !! k
  = match deterministicFactsFromState st !! k with
    | Some d => Some d
    | None => st !! k
    end.
Proof.
  intros Hf Hn. unfold extractFactsFromMessages.
  assert ((deterministicFactsFromState st ∪ st) !! k
          = match deterministicFactsFromState st !! k with
            | Some d => Some d
            | None => st !! k
            end) as Hbase.
  { rewrite lookup_union.
    destruct (deterministicFactsFromState st !! k), (st !! k); reflexivity. }
  destruct (isEmpty (trim (patientText messages))); [exact Hbase |].
  cbn [fst].
  destruct (negations result) as [ns|], (facts result) as [fs|];
    cbn [default] in Hf, Hn;
    rewrite ?fold_negationStep_other by exact Hn;
    rewrite ?fold_factStep_gated by exact Hf; exact Hbase.
Qed.

Lemma gated_key_unchanged_witness :
  let st : ChatState := <["severity" := VNum 7]> ∅ in
  let messages := [ {| role := user; content := "it is much better now" |} ] in
  let f := {| key := "severity_score"; value := VNum 3; confidence := 65 |} in
  let n := {| key := "severity_score"; value := VBool false; confidence := 69 |} in
  fst (extractFactsFromMessages
         (Some {| facts := Some [f]; negations := Some [n] |})
         messages st None) !! "severity_score" = Some (VNum 7).
Proof.
  intros st messages f n.
  apply (gated_key_unchanged {| facts := Some [f]; negations := Some [n] |}
           messages st None "severity_score").
  - constructor; [reflexivity | constructor].
  - constructor; [vm_compute; reflexivity | constructor].
Defined.

Lemma lookup_setIfPresent_ne (st m : gmap string Value) (src dst k : string) :
  dst <> k -> setIfPresent st src dst m !! k = m !! k.
Proof.
  intros Hne. unfold setIfPresent.
  destruct (st !! src) as [v|]; [| reflexivity].
  destruct (notNullish (Some v)); [| reflexivity].
  now rewrite lookup_insert_ne.
Qed.

Lemma lookup_setIfPresent_eq (st m : gmap string Value) (src dst : string) :
  notNullish (st !! src) = true ->
  setIfPresent st src dst m !! dst = st !! src.
Proof.
  intros H. unfold setIfPresent.
  destruct (st !! src) as [v|]; [| discriminate].
  rewrite H. apply lookup_insert_eq.
Qed.

(** X20. Every fact of the deterministic projection is the value, other
    than [null], of the state field its key is read from. *)
Theorem projection_sound (st : gmap string Value) (k : string) (v : Value) :
  deterministicFactsFromState st !! k = Some v ->
  exists src, In (src, k) factSources /\ st !! src = Some v /\ v <> VNull.
Proof. apply deterministicFacts_readFrom. Qed.

Lemma projection_sound_witness :
  exists src, In (src, "severity_score") factSources
              /\ (<["severity" := VNum 7]> ∅ : ChatState) !! src = Some (VNum 7)
              /\ VNum 7 <> VNull.
Proof.
  apply (projection_sound (<["severity" := VNum 7]> ∅) "severity_score" (VNum 7)).
  vm_compute; reflexivity.
Defined.

Ltac through_projection k :=
  repeat first
    [ rewrite (lookup_setIfPresent_ne _ _ _ _ k) by discriminate
    | match goal with
      | |- (if ?c then _ else _) !! _ = _ => destruct c
      end ].

(** X21. Where two state fields feed one fact key, the red-flag answer
    [shortnessOfBreath] goes before the danger-check answer
    [troubleBreathing] (even when it is [false]), and a recognised complaint
    goes before the opening description. *)
Theorem projection_precedence (st : gmap string Value) :
  (notNullish (st !! "shortnessOfBreath") = true ->
   deterministicFactsFromState st !! "shortness_of_breath"
   = st !! "shortnessOfBreath")
  /\ (notNullish (st !! "shortnessOfBreath") = false ->
      notNullish (st !! "troubleBreathing") = true ->
      deterministicFactsFromState st !! "shortness_of_breath"
      = st !! "troubleBreathing")
  /\ (truthy (st !! "complaint") = true ->
      deterministicFactsFromState st !! "chief_complaint" = st !! "complaint")
  /\ (truthy (st !! "complaint") = false ->
      notNullish (st !! "openingDescription") = true ->
      deterministicFactsFromState st !! "chief_complaint"
      = st !! "openingDescription").
Proof.
  unfold deterministicFactsFromState. cbv zeta.
  repeat apply conj.
  - intros H.
    rewrite !(lookup_setIfPresent_ne st _ _ _ "shortness_of_breath")
      by discriminate.
    rewrite (lookup_setIfPresent_eq st _ "shortnessOfBreath") by exact H.
    rewrite H, andb_false_r. cbv iota.
    now rewrite lookup_setIfPresent_eq by assumption.
  - intros H1 H2.
    rewrite !(lookup_setIfPresent_ne st _ _ _ "shortness_of_breath")
      by discriminate.
    assert (forall m, setIfPresent st "shortnessOfBreath" "shortness_of_breath" m
                      = m) as Hskip.
    { intros m. unfold setIfPresent.
      destruct (st !! "shortnessOfBreath") as [v|]; [| reflexivity].
      now rewrite H1. }
    rewrite Hskip, H2.
    rewrite !(lookup_setIfPresent_ne st _ _ _ "shortness_of_breath")
      by discriminate.
    match goal with
    | |- (if ?c then _ else _) !! _ = _ => destruct c eqn:C
    end.
    + now rewrite lookup_setIfPresent_eq.
    + exfalso. revert C.
      match goal with
      | |- context [(if ?c then _ else _) !! _] => destruct c
      end;
        rewrite ?(lookup_setIfPresent_ne st _ _ _ "shortness_of_breath")
          by discriminate;
        rewrite lookup_empty; discriminate.
  - intros H.
    assert (notNullish (st !! "complaint") = true) as N
        by (destruct (st !! "complaint") as [[]|]; easy).
    rewrite (lookup_setIfPresent_eq st _ "complaint") by exact N.
    rewrite H, andb_false_r. cbv iota.
    through_projection "chief_complaint".
    all: now rewrite lookup_setIfPresent_eq by exact N.
  - intros H1 H2. rewrite H2.
    assert (truthy (setIfPresent st "complaint" "chief_complaint"
                      (setIfPresent st "sex" "sex"
                         (setIfPresent st "age" "age_years" ∅))
                    !! "chief_complaint") = false) as ->.
    { unfold setIfPresent at 1.
      destruct (st !! "complaint") as [v|] eqn:E.
      - destruct (notNullish (Some v)).
        + now rewrite lookup_insert_eq.
        + now rewrite !lookup_setIfPresent_ne, lookup_empty by discriminate.
      - now rewrite !lookup_setIfPresent_ne, lookup_empty by discriminate. }
    cbn [negb andb].
    through_projection "chief_complaint".
    all: now rewrite lookup_setIfPresent_eq by exact H2.
Qed.

Lemma projection_precedence_witness :
  let st : ChatState :=
    <["shortnessOfBreath" := VBool false]> (<["troubleBreathing" := VBool true]> ∅) in
  deterministicFactsFromState st !! "shortness_of_breath" = st !! "shortnessOfBreath".
Proof.
  intros st. apply (proj1 (projection_precedence st)). vm_compute; reflexivity.
Defined.

(** ** Corroboration in the patient text *)

Lemma isWordChar_lowerChar (c : ascii) : isWordChar (lowerChar c) = isWordChar c.
Proof. destruct c as [[] [] [] [] [] [] [] []]; reflexivity. Qed.

Lemma isDigit_lowerChar (c : ascii) : isDigit c = true -> lowerChar c = c.
Proof. destruct c as [[] [] [] [] [] [] [] []]; (reflexivity || discriminate). Qed.

Lemma toLowerCase_app (a b : string) :
  toLowerCase (a +:+ b) = toLowerCase a +:+ toLowerCase b.
Proof.
  induction a as [|c a IH]; [reflexivity |].
  change (String c a +:+ b) with (String c (a +:+ b)). cbn [toLowerCase].
  now rewrite IH.
Qed.

Lemma endsInWord_toLowerCase (s : string) :
  forall prev, endsInWord prev (toLowerCase s) = endsInWord prev s.
Proof.
  induction s as [|c s IH]; intros prev; [reflexivity |].
  cbn [toLowerCase endsInWord]. now rewrite isWordChar_lowerChar, IH.
Qed.

Lemma boundaryAfterWord_toLowerCase (s : string) :
  boundaryAfterWord (toLowerCase s) = boundaryAfterWord s.
Proof.
  destruct s as [|c s]; [reflexivity |].
  cbn [toLowerCase boundaryAfterWord]. now rewrite isWordChar_lowerChar.
Qed.

Lemma testSeverityPattern_cons (prevWord : bool) (c : ascii) (r : string) :
  testSeverityPattern prevWord (String c r)
  = oneOrTwoDigits matchSlashTen (String c r)
    || (negb prevWord && oneOrTwoDigits boundaryAfterWord (String c r))
    || testSeverityPattern (isWordChar c) r.
Proof. reflexivity. Qed.

Lemma testSeverityPattern_app (pre s : string) :
  forall prevWord,
    testSeverityPattern (endsInWord prevWord pre) s = true ->
    testSeverityPattern prevWord (pre +:+ s) = true.
Proof.
  induction pre as [|c pre IH]; intros prevWord H; [exact H |].
  change (String c pre +:+ s) with (String c (pre +:+ s)).
  rewrite testSeverityPattern_cons. apply orb_true_iff. right.
  apply IH. exact H.
Qed.

(** X22. Loose corroboration: a number of one or two digits standing on its
    own anywhere in the patient text corroborates every numeric value up to
    10, whether or not the text states that value. *)
Theorem loose_numeric_corroboration (pre rest : string) (d1 d2 : ascii)
    (n : Z) :
  n <= 10 ->
  isDigit d1 = true -> isDigit d2 = true ->
  endsInWord false pre = false ->
  boundaryAfterWord rest = true ->
  foundInConversation (pre +:+ String d1 rest) (VNum n) = true
  /\ foundInConversation (pre +:+ String d1 (String d2 rest)) (VNum n) = true.
Proof.
  intros Hn H1 H2 Hpre Hrest.
  assert ((n <=? 10)%Z = true) as Hle by lia.
  unfold foundInConversation. rewrite Hle. cbn [andb].
  rewrite !toLowerCase_app. cbn [toLowerCase].
  rewrite (isDigit_lowerChar d1 H1), (isDigit_lowerChar d2 H2).
  split; apply orb_true_iff; right; apply testSeverityPattern_app;
    rewrite endsInWord_toLowerCase, Hpre, testSeverityPattern_cons;
    cbn [negb andb oneOrTwoDigits];
    rewrite H1, ?H2, boundaryAfterWord_toLowerCase, Hrest; cbn [andb];
    now rewrite ?orb_true_r.
Qed.

Lemma loose_numeric_corroboration_witness :
  foundInConversation "I am 45 years old and it hurts" (VNum 9) = true.
Proof.
  assert (9 <= 10) as Hn by lia.
  assert (isDigit "4" = true) as H1 by reflexivity.
  assert (isDigit "5" = true) as H2 by reflexivity.
  assert (endsInWord false "I am " = false) as Hpre by reflexivity.
  assert (boundaryAfterWord " years old and it hurts" = true) as Hrest
      by reflexivity.
  exact (proj2 (loose_numeric_corroboration "I am " " years old and it hurts"
                  "4" "5" 9 Hn H1 H2 Hpre Hrest)).
Defined.

(** ** Retrieval *)

Lemma insertByScore_perm (x : Chunk * Z) (l : list (Chunk * Z)) :
  Permutation (insertByScore x l) (x :: l).
Proof.
  induction l as [|y r IH]; cbn [insertByScore]; [reflexivity |].
  destruct (snd y <=? snd x)%Z; [reflexivity |].
  rewrite IH. apply perm_swap.
Qed.

Lemma sortByScore_perm (l : list (Chunk * Z)) : Permutation (sortByScore l) l.
Proof.
  induction l as [|x l IH]; [reflexivity |].
  cbn [sortByScore foldr]. fold (sortByScore l).
  rewrite insertByScore_perm. now constructor.
Qed.

Lemma insertByScore_ranked (x : Chunk * Z) (l : list (Chunk * Z)) :
  ranked l -> ranked (insertByScore x l).
Proof.
  unfold ranked. induction l as [|y r IH]; intros H; cbn [insertByScore].
  - repeat constructor.
  - apply StronglySorted_inv in H as [Hr Hy].
    destruct (snd y <=? snd x)%Z eqn:E.
    + constructor; [now constructor |].
      constructor; [lia |].
      eapply List.Forall_impl; [| exact Hy]. cbn. intros z Hz. lia.
    + constructor; [now apply IH |].
      rewrite insertByScore_perm. constructor; [lia | exact Hy].
Qed.

Lemma sortByScore_ranked (l : list (Chunk * Z)) : ranked (sortByScore l).
Proof.
  induction l as [|x l IH]; [constructor |].
  cbn [sortByScore foldr]. now apply insertByScore_ranked.
Qed.

Lemma ranked_take (n : nat) (l : list (Chunk * Z)) :
  ranked l -> ranked (take n l).
Proof.
  unfold ranked. revert n. induction l as [|x l IH]; intros [|n] H;
    cbn [take]; try constructor.
  - apply IH. now apply StronglySorted_inv in H.
  - apply StronglySorted_inv in H as [_ H].
    apply List.Forall_forall. intros y Hy.
    rewrite List.Forall_forall in H. apply H.
    apply list_elem_of_In. apply list_elem_of_In in Hy.
    eapply subseteq_take. exact Hy.
Qed.

Lemma ranked_filter (f : Chunk * Z -> bool) (l : list (Chunk * Z)) :
  ranked l -> ranked (List.filter f l).
Proof.
  unfold ranked. induction l as [|x l IH]; intros H; cbn [List.filter];
    [constructor |].
  apply StronglySorted_inv in H as [Hl Hx].
  destruct (f x); [| now apply IH].
  constructor; [now apply IH |].
  apply List.Forall_forall. intros y Hy. apply filter_In in Hy as [Hy _].
  rewrite List.Forall_forall in Hx. now apply Hx.
Qed.

Lemma ranked_map_fst (score : Chunk -> Z) (l : list (Chunk * Z)) :
  (forall c, In c l -> snd c = score (fst c)) ->
  ranked l ->
  StronglySorted (fun a b => score b <= score a) (map fst l).
Proof.
  unfold ranked. induction l as [|x l IH]; intros Hs H; cbn [map];
    [constructor |].
  apply StronglySorted_inv in H as [Hl Hx].
  constructor.
  - apply IH; [| exact Hl]. intros c Hc. apply Hs. now right.
  - apply List.Forall_forall. intros y Hy.
    apply in_map_iff in Hy as (c & <- & Hc).
    rewrite List.Forall_forall in Hx. specialize (Hx c Hc).
    rewrite <- (Hs x) by now left. rewrite <- (Hs c) by now right. exact Hx.
Qed.

(** X23. What [retrieveRelevantChunks] returns: at most five chunks of the
    knowledge base, each matching at least one keyword of the query, in
    order of score with no later chunk scoring more; and whenever some chunk
    of the knowledge base matches a keyword, the first chunk returned scores
    at least as much as every chunk of the knowledge base. *)
Theorem retrieval_ranked (allChunks : list Chunk)
    (allDocuments : list Document) (complaint : string)
    (symptoms : list (string * Value)) (redFlags : list string) :
  let score := chunkScore (searchKeywords complaint symptoms redFlags) in
  exists top : list Chunk,
    retrieveRelevantChunks allChunks allDocuments complaint symptoms redFlags
    = map (retrieved allDocuments) top
    /\ (length top <= 5)%nat
    /\ (forall chunk, In chunk top -> In chunk allChunks /\ 0 < score chunk)
    /\ StronglySorted (fun a b => score b <= score a) top
    /\ (forall chunk, In chunk allChunks -> 0 < score chunk ->
          exists best rest, top = best :: rest
                            /\ forall other, In other allChunks ->
                                             score other <= score best).
Proof.
  intros score.
  set (keywords := searchKeywords complaint symptoms redFlags) in *.
  set (scored := map (fun chunk => (chunk, chunkScore keywords chunk)) allChunks).
  assert (forall c, In c (sortByScore scored)
                    <-> In (fst c) allChunks /\ snd c = score (fst c)) as Hin.
  { intros c. split.
    - intros H. apply (Permutation_in _ (sortByScore_perm scored)) in H.
      apply in_map_iff in H as (chunk & <- & Hc). now split.
    - intros [H1 H2].
      apply (Permutation_in _ (Permutation_sym (sortByScore_perm scored))).
      apply in_map_iff. exists (fst c). split; [| exact H1].
      destruct c as [chunk z]. cbn in *. now subst z. }
  assert (forall c, In c (topChunks allChunks keywords)
                    -> In c (sortByScore scored) /\ 0 < snd c) as Htop.
  { intros c H. unfold topChunks in H. fold scored in H.
    apply filter_In in H as [H Hpos]. split; [| lia].
    apply list_elem_of_In. apply list_elem_of_In in H.
    eapply subseteq_take. exact H. }
  exists (map fst (topChunks allChunks keywords)).
  split; [| split; [| split; [| split]]].
  - unfold retrieveRelevantChunks. fold keywords. now rewrite map_map.
  - rewrite length_map. unfold topChunks.
    etransitivity; [apply List.filter_length_le |].
    rewrite length_take. lia.
  - intros chunk H. apply in_map_iff in H as (c & <- & Hc).
    apply Htop in Hc as [Hc Hpos]. apply Hin in Hc as [Hc Hs].
    split; [exact Hc | now rewrite <- Hs].
  - apply ranked_map_fst.
    + intros c Hc. apply Htop in Hc as [Hc _]. now apply Hin.
    + unfold topChunks. apply ranked_filter, ranked_take, sortByScore_ranked.
  - intros chunk Hc Hpos.
    pose proof (sortByScore_ranked scored) as Hr.
    assert (In (chunk, score chunk) (sortByScore scored)) as Hmem
        by (apply Hin; now split).
    unfold topChunks. fold scored.
    destruct (sortByScore scored) as [|c0 rest0] eqn:E; [contradiction |].
    apply StronglySorted_inv in Hr as [_ Hmax].
    rewrite List.Forall_forall in Hmax.
    assert (forall c, In c (c0 :: rest0) -> snd c <= snd c0) as Hbest.
    { intros c [<- | H]; [lia | now apply Hmax]. }
    assert (snd c0 = score (fst c0)) as Hs0 by (apply Hin; now left).
    pose proof (Hbest _ Hmem) as Hle. cbn [snd] in Hle.
    cbn [take List.filter].
    assert ((snd c0 >? 0)%Z = true) as -> by lia.
    cbn [map]. eexists _, _. split; [reflexivity |].
    intros other Ho. rewrite <- Hs0.
    apply (Hbest (other, score other)). apply Hin. now split.
Qed.

Lemma retrieval_ranked_witness :
  let c1 := {| chunk_id := 1; documentId := 1;
               chunkText := "Chest pain with sweating needs an ECG." |} in
  let c2 := {| chunk_id := 2; documentId := 1;
               chunkText := "Headache red flags." |} in
  (length (retrieveRelevantChunks [c1; c2] [] "chest pain" [] []) <= 5)%nat.
Proof.
  intros c1 c2.
  destruct (retrieval_ranked [c1; c2] [] "chest pain" [] [])
    as (top & Heq & Hlen & _).
  rewrite Heq, length_map. exact Hlen.
Defined.

(** ** The session *)

(** The state machine enters or stays in the RAG loop without a reply of
    its own. *)
Lemma rag_stage_silent (completion : option string) (input : string)
    (history : list ChatMessage) (st : ChatState) (stg : Stage) (rc : Z) :
  let r := processUserMessage completion input history st stg rc in
  newStage r = rag_followup ->
  response r = "" /\ isEscalation r = false /\ isComplete r = false.
Proof.
  cbv zeta. unfold processUserMessage.
  destruct (checkEmergencySigns input); [discriminate |].
  destruct (_ && _).
  - destruct (stages !! _) as [s|] eqn:E.
    + destruct (forced_stage_listed _ _ E) as (_ & _ & Hs). cbn.
      intros ->. contradiction.
    + destruct stg; cbn [stageSwitch]; crush_switch; cbn;
        intros H; try discriminate H; repeat split.
  - destruct stg; cbn [stageSwitch]; crush_switch; cbn;
      intros H; try discriminate H; repeat split.
Qed.

(** Outside the terminal stages, a turn ends in [escalated] exactly when it
    escalates and in [complete] exactly when it completes without
    escalating. *)
Lemma terminal_flags (completion : option string) (input : string)
    (history : list ChatMessage) (st : ChatState) (stg : Stage) (rc : Z) :
  stg <> complete -> stg <> escalated ->
  let r := processUserMessage completion input history st stg rc in
  (isEscalation r, isComplete r) = stageFlags (newStage r).
Proof.
  intros H1 H2. cbv zeta. unfold processUserMessage.
  destruct (checkEmergencySigns input); [reflexivity |].
  destruct (_ && _).
  - destruct (stages !! _) as [s|] eqn:E.
    + destruct (forced_stage_listed _ _ E) as (? & ? & _). cbn.
      destruct s; try contradiction; reflexivity.
    + destruct stg; try congruence; cbn [stageSwitch]; crush_switch;
        reflexivity.
  - destruct stg; try congruence; cbn [stageSwitch]; crush_switch;
      reflexivity.
Qed.

Lemma chatTurn_statusMatches (s : ChatSession) (env : TurnEnv)
    (s' : ChatSession) :
  statusMatches s -> chatTurn s env = Some s' -> statusMatches s'.
Proof.
  intros Hs. unfold chatTurn.
  destruct (isEmpty (message env)); [discriminate |].
  destruct (bool_decide (status s = active)) eqn:Hact; [| discriminate].
  apply bool_decide_eq_true in Hact. cbn [negb].
  unfold statusMatches in Hs. rewrite Hact in Hs. destruct Hs as [H1 H2].
  intros [= <-]. unfold statusMatches. cbn [status stage].
  pose proof (terminal_flags (completion env) (message env)
                (messages s ++ [ {| role := user; content := message env |} ])
                (state s) (stage s) (retryCount s) H1 H2) as Hflags.
  cbv zeta in Hflags.
  set (r := processUserMessage _ _ _ _ _ _) in *.
  destruct (ragFollowup_cases env r)
    as (_ & -> & -> & _ & [-> | [Hrag ->]]).
  - destruct (newStage r); cbn [stageFlags] in Hflags;
      injection Hflags as He Hc; rewrite He, ?Hc; cbn; try split; congruence.
  - rewrite Hrag in Hflags. cbn [stageFlags] in Hflags.
    injection Hflags as He Hc. rewrite He, Hc. split; discriminate.
Qed.

Lemma chatTurn_closed (s : ChatSession) (env : TurnEnv) :
  status s <> active -> chatTurn s env = None.
Proof.
  intros H. unfold chatTurn. destruct (isEmpty (message env)); [reflexivity |].
  now rewrite bool_decide_eq_false_2.
Qed.

Lemma runRequests_lifecycle (reqs : list Request) :
  forall (s : ChatSession) (finished : bool),
    lifecycle finished s ->
    lifecycle (finished || existsb isFinish reqs) (runRequests s reqs).
Proof.
  induction reqs as [|req reqs IH]; intros s finished Hs.
  - cbn. now rewrite orb_false_r.
  - unfold runRequests. cbn [fold_left existsb].
    rewrite orb_assoc. apply IH. destruct req as [env |]; cbn [request isFinish].
    + rewrite orb_false_r. destruct finished; cbn [lifecycle] in *.
      * rewrite chatTurn_closed by (rewrite Hs; discriminate). exact Hs.
      * destruct (chatTurn s env) as [s'|] eqn:E; cbn [default]; [| exact Hs].
        now apply (chatTurn_statusMatches s env).
    + rewrite orb_true_r. reflexivity.
Qed.

(** X24. The stored status over every sequence of [/api/chat/message] and
    [/api/chat/finish] requests from the start of a chat.  Once a finish has
    been requested the status is [completed], at whatever stage the session
    is; until then the status follows the stage: [completed] exactly at
    stage [complete], [escalated] exactly at stage [escalated], [active] at
    every other stage.  A session that is not active refuses every
    message. *)
Theorem session_lifecycle (reqs : list Request) :
  let s := runRequests initialSession reqs in
  (In Finish reqs -> status s = completed)
  /\ (~ In Finish reqs -> statusMatches s)
  /\ (status s <> active -> forall env, chatTurn s env = None).
Proof.
  intros s.
  assert (lifecycle false initialSession) as H0 by (split; discriminate).
  pose proof (runRequests_lifecycle reqs initialSession false H0) as H.
  fold s in H. cbn [orb] in H.
  assert (existsb isFinish reqs = true <-> In Finish reqs) as Hex.
  { rewrite existsb_exists. split.
    - intros (r & Hin & Hr). now destruct r.
    - intros Hin. now exists Finish. }
  split; [| split].
  - intros Hin. apply Hex in Hin. now rewrite Hin in H.
  - intros Hnot. destruct (existsb isFinish reqs) eqn:E; [| exact H].
    exfalso. apply Hnot. now apply Hex.
  - intros Hs env. now apply chatTurn_closed.
Qed.

Lemma session_lifecycle_witness :
  let s := runRequests initialSession
             [ Message (say "I have chest pain"); Finish;
               Message (say "in my chest") ] in
  status s = completed /\ stage s = localisation.
Proof.
  intros s. split; [| vm_compute; reflexivity].
  apply (session_lifecycle
           [ Message (say "I have chest pain"); Finish;
             Message (say "in my chest") ]).
  right. now left.
Defined.

(** X25. When no chunk of the knowledge base contains a keyword of the
    complaint, the location or the opening description (so, with no
    document uploaded), the route skips the RAG loop: the turn that would
    enter or continue it asks the first context question instead, whatever
    the completion call of the RAG question answers. *)
Theorem rag_skipped_without_match (allChunks : list Chunk)
    (ragReply : option string) (s : ChatSession) (m : string)
    (chat : option string) (s' : ChatSession) :
  let r := processUserMessage chat m
             (messages s ++ [ {| role := user; content := m |} ])%list
             (state s) (stage s) (retryCount s) in
  Forall (fun chunk => matchesKeyword (ragKeywords (newState r)) chunk = false)
    allChunks ->
  routeTurn allChunks ragReply s m chat = Some s' ->
  stage s' <> rag_followup
  /\ (newStage r = rag_followup ->
      stage s' = context_conditions
      /\ state s' = newState r
      /\ last (messages s')
         = Some {| role := assistant;
                   content := "Do you have any long-term medical conditions?" |}).
Proof.
  intros r Hnone. unfold routeTurn. fold r.
  assert (ragContext allChunks (newState r) = "") as ->.
  { unfold ragContext.
    assert (List.filter (matchesKeyword (ragKeywords (newState r))) allChunks
            = []) as ->; [| reflexivity].
    induction Hnone as [|chunk l Hc _ IH]; [reflexivity |].
    cbn [List.filter]. now rewrite Hc. }
  assert (generateRAGQuestion ragReply (newState r) "" = None) as ->
      by reflexivity.
  unfold chatTurn. cbn [message completion ragQuestion].
  destruct (isEmpty m); [discriminate |].
  destruct (negb _); [discriminate |]. fold r.
  intros [= <-]. cbn [stage state messages].
  unfold ragFollowup. cbn [ragQuestion].
  destruct (bool_decide (newStage r = rag_followup)) eqn:E.
  - apply bool_decide_eq_true in E.
    destruct (rag_stage_silent chat m
                (messages s ++ [ {| role := user; content := m |} ])
                (state s) (stage s) (retryCount s) E) as (Hresp & _).
    fold r in Hresp. rewrite Hresp. cbn.
    split; [discriminate |]. intros _.
    repeat split. now rewrite last_snoc.
  - apply bool_decide_eq_false in E. cbn [andb]. split; [exact E |].
    intros H. contradiction.
Qed.

Lemma rag_skipped_without_match_witness :
  let s := runTurns initialSession chestPainIntake in
  match routeTurn [] None s "no" None with
  | Some s' => stage s' = context_conditions
  | None => False
  end.
Proof.
  intros s. destruct (routeTurn [] None s "no" None) as [s'|] eqn:E.
  - apply (rag_skipped_without_match [] None s "no" None s');
      [constructor | exact E | vm_compute; reflexivity].
  - vm_compute in E. discriminate E.
Defined.

(** ** What a chat can store, and the band it leads to *)

Lemma stateOK_empty (closed : bool) : stateOK closed ∅.
Proof. intros k v H. now rewrite lookup_empty in H. Qed.

Lemma stateOK_insert (closed : bool) (st : ChatState) (k : string)
    (v : Value) :
  fieldOK closed k v = true -> stateOK closed st ->
  stateOK closed (<[k := v]> st).
Proof.
  intros Hk Hst k' v' H. destruct (decide (k = k')) as [<- | Hne].
  - rewrite lookup_insert_eq in H. now injection H as <-.
  - rewrite lookup_insert_ne in H by exact Hne. now apply Hst.
Qed.

Lemma stateOK_closed (st : ChatState) : stateOK false st -> stateOK true st.
Proof.
  intros H k v Hk. specialize (H k v Hk). unfold fieldOK in *.
  destruct (existsb _ neverAsked); [discriminate |].
  destruct (existsb _ dangerFields); [reflexivity | exact H].
Qed.

Lemma fieldOK_complaint (closed : bool) (input c : string) :
  parseComplaint input = Some c -> fieldOK closed "complaint" (VStr c) = true.
Proof.
  intros H. apply parseComplaint_In in H. cbv [COMPLAINTS In] in H.
  repeat (destruct H as [<- | H]; [reflexivity |]). contradiction.
Qed.

Lemma fieldOK_severity (closed : bool) (n : Z) :
  (0 <=? n)%Z && (n <=? 10)%Z = true ->
  fieldOK closed "severity" (VNum n) = true.
Proof. intros H. exact H. Qed.

Lemma fieldOK_red_flag (complaint : string) (q : RedFlagQuestion)
    (answer : bool) :
  In q (redFlagQuestionsFor complaint) ->
  answer && bool_decide (field q ∈ criticalFlags) = false ->
  fieldOK false (field q) (VBool answer) = true.
Proof.
  unfold redFlagQuestionsFor, RED_FLAG_QUESTIONS. cbn [assoc].
  repeat (match goal with |- context [if ?b then _ else _] => destruct b end;
          [ cbn [default In]; intros Hin;
            repeat (destruct Hin as [<- | Hin];
                    [destruct answer; vm_compute; congruence |]);
            contradiction | ]).
  cbn. contradiction.
Qed.

Lemma fieldOK_rag_answer (closed : bool) (n : string) (v : Value) :
  fieldOK closed ("ragAnswer" +:+ n) v = true.
Proof. reflexivity. Qed.

Lemma fieldOK_red_flag_closed (complaint : string) (q : RedFlagQuestion)
    (v : Value) :
  In q (redFlagQuestionsFor complaint) -> fieldOK true (field q) v = true.
Proof.
  unfold redFlagQuestionsFor, RED_FLAG_QUESTIONS. cbn [assoc].
  repeat (match goal with |- context [if ?b then _ else _] => destruct b end;
          [ cbn [default In]; intros Hin;
            repeat (destruct Hin as [<- | Hin]; [reflexivity |]);
            contradiction | ]).
  cbn. contradiction.
Qed.

Ltac field_ok :=
  lazymatch goal with
  | |- fieldOK true (field _) _ = true =>
      eapply fieldOK_red_flag_closed; eapply find_some; eassumption
  | |- fieldOK false (field _) _ = true =>
      eapply fieldOK_red_flag;
      [ eapply find_some; eassumption | assumption ]
  | |- fieldOK _ (_ +:+ _) _ = true => apply fieldOK_rag_answer
  | |- fieldOK _ "severity" _ = true => apply fieldOK_severity; assumption
  | |- fieldOK _ "complaint" _ = true =>
      eapply fieldOK_complaint; eassumption
  | |- fieldOK _ _ (VBool ?b) = true =>
      first [ reflexivity | destruct b; first [ discriminate | reflexivity ] ]
  | |- _ => reflexivity
  end.

(** A turn that does not escalate keeps the state well-formed. *)
Lemma stateOK_step (completion : option string) (input : string)
    (history : list ChatMessage) (st : ChatState) (stg : Stage) (rc : Z) :
  stateOK false st ->
  let r := processUserMessage completion input history st stg rc in
  stateOK (isEscalation r) (newState r).
Proof.
  intros Hst. cbv zeta. unfold processUserMessage.
  destruct (checkEmergencySigns input); [now apply stateOK_closed |].
  destruct (_ && _).
  - destruct (stages !! _) as [s|]; [exact Hst |].
    destruct stg; cbn [stageSwitch]; crush_switch;
      cbn [newState isEscalation];
      repeat (apply stateOK_insert; [field_ok |]);
      first [ exact Hst | apply stateOK_empty | now apply stateOK_closed ].
  - destruct stg; cbn [stageSwitch]; crush_switch;
      cbn [newState isEscalation];
      repeat (apply stateOK_insert; [field_ok |]);
      first [ exact Hst | apply stateOK_empty | now apply stateOK_closed ].
Qed.

Lemma chatTurn_sessionOK (s : ChatSession) (env : TurnEnv) (s' : ChatSession) :
  sessionOK s -> chatTurn s env = Some s' -> sessionOK s'.
Proof.
  unfold sessionOK, chatTurn. intros Hs.
  destruct (isEmpty (message env)); [discriminate |].
  destruct (bool_decide (status s = active)) eqn:Hact; [| discriminate].
  apply bool_decide_eq_true in Hact. cbn [negb].
  rewrite Hact in Hs. rewrite bool_decide_eq_false_2 in Hs by discriminate.
  intros [= <-]. cbn [status state].
  pose proof (stateOK_step (completion env) (message env)
                (messages s ++ [ {| role := user; content := message env |} ])
                (state s) (stage s) (retryCount s) Hs) as Hstep.
  cbv zeta in Hstep.
  set (r := processUserMessage _ _ _ _ _ _) in *.
  destruct (ragFollowup_cases env r) as (-> & -> & -> & _).
  destruct (isEscalation r); [exact Hstep |].
  destruct (isComplete r); exact Hstep.
Qed.

Lemma runTurns_sessionOK (envs : list TurnEnv) :
  forall s, sessionOK s -> sessionOK (runTurns s envs).
Proof.
  induction envs as [|env envs IH]; intros s Hs; [exact Hs |].
  unfold runTurns. cbn [fold_left]. apply IH.
  destruct (chatTurn s env) as [s'|] eqn:E; [| exact Hs].
  now apply (chatTurn_sessionOK s env).
Qed.

Lemma initialSession_sessionOK : sessionOK initialSession.
Proof. apply stateOK_empty. Qed.

(** X26. What a chat can store.  The fields the rules engine reads but no
    stage asks for are never set; a stored severity is a number from 0 to
    10; a stored complaint is one of the five recognised complaints; and in
    a session that has not escalated no danger check and no critical red
    flag holds a "yes". *)
Theorem chat_state_shape (envs : list TurnEnv) :
  let s := runTurns initialSession envs in
  (forall k, In k neverAsked -> state s !! k = None)
  /\ (forall v, state s !! "severity" = Some v ->
                exists n, v = VNum n /\ 0 <= n <= 10)
  /\ (forall v, state s !! "complaint" = Some v ->
                exists c, v = VStr c /\ In c COMPLAINTS)
  /\ (status s <> escalatedStatus ->
      forall k, In k dangerFields -> truthy (state s !! k) = false).
Proof.
  intros s.
  pose proof (runTurns_sessionOK envs _ initialSession_sessionOK) as H.
  fold s in H. unfold sessionOK, stateOK in H.
  repeat apply conj.
  - intros k Hk. destruct (state s !! k) as [v|] eqn:E; [| reflexivity].
    specialize (H k v E). cbv [neverAsked In] in Hk.
    repeat (destruct Hk as [<- | Hk]; [discriminate H |]). contradiction.
  - intros v E. specialize (H _ _ E).
    change (match v with
            | VNum n => (0 <=? n)%Z && (n <=? 10)%Z
            | _ => false
            end = true) in H.
    destruct v as [| n | | |]; try discriminate H.
    exists n. split; [reflexivity | lia].
  - intros v E. specialize (H _ _ E).
    change (match v with
            | VStr c => existsb (String.eqb c) COMPLAINTS
            | _ => false
            end = true) in H.
    destruct v as [| | c | |]; try discriminate H.
    exists c. split; [reflexivity |].
    apply existsb_exists in H as (x & Hx & Heq).
    apply String.eqb_eq in Heq. now subst x.
  - intros Hesc k Hk.
    rewrite bool_decide_eq_false_2 in H by exact Hesc.
    destruct (state s !! k) as [v|] eqn:E; [| reflexivity].
    specialize (H k v E). cbv [dangerFields criticalFlags app In] in Hk.
    repeat (destruct Hk as [<- | Hk];
            [apply negb_true_iff; exact H |]).
    contradiction.
Qed.

Lemma chat_state_shape_witness :
  truthy (state (runTurns initialSession chestPainIntake) !! "confusion")
  = false.
Proof.
  apply (chat_state_shape chestPainIntake);
    [vm_compute; discriminate | vm_compute; tauto].
Defined.

Lemma triageAnswers_copied (st : ChatState) (k : string) :
  existsb (String.eqb k) triageCopiedFields = true ->
  triageAnswers st !! k = st !! k.
Proof.
  intros H. unfold triageAnswers.
  assert (k <> "complaint" /\ k <> "age" /\ k <> "sex" /\ k <> "severity")
    as (? & ? & ? & ?).
  { repeat split; intros ->; discriminate H. }
  rewrite !lookup_insert_ne by congruence.
  now rewrite lookup_copyFields, H.
Qed.

Lemma triageAnswers_not_copied (st : ChatState) (k : string) :
  existsb (String.eqb k)
    ("complaint" :: "age" :: "sex" :: "severity" :: triageCopiedFields) = false ->
  triageAnswers st !! k = None.
Proof.
  intros H. unfold triageAnswers. cbn [existsb] in H.
  do 4 (apply orb_false_iff in H as [?%String.eqb_neq H]).
  rewrite !lookup_insert_ne by congruence.
  now rewrite lookup_copyFields, H.
Qed.

(** X27. The band of a submission made from a chat that has not escalated:
    Red when the severity is 9 or 10, when a chest pain radiates, or when a
    headache comes with a stiff neck or a visual disturbance; otherwise
    Amber from severity 6 and Green below.  The age rules and the rules for
    shortness of breath and abdominal pain never fire, for lack of fields
    the chat could fill. *)
Theorem chat_band (envs : list TurnEnv) :
  let s := runTurns initialSession envs in
  status s <> escalatedStatus ->
  riskBand (result (buildTriageFromChat (state s)))
  = if chatRedFlag (state s) then Red
    else if numGe (state s !! "severity") 6 then Amber else Green.
Proof.
  intros s Hesc.
  pose proof (runTurns_sessionOK envs _ initialSession_sessionOK) as H.
  fold s in H. unfold sessionOK in H.
  rewrite bool_decide_eq_false_2 in H by exact Hesc.
  set (st := state s) in *. clearbody st. clear s Hesc.
  assert (forall k, existsb (String.eqb k) neverAsked = true ->
                    st !! k = None) as Hnever.
  { intros k Hk. destruct (st !! k) as [v|] eqn:E; [| reflexivity].
    specialize (H k v E). unfold fieldOK in H. now rewrite Hk in H. }
  assert (forall k, existsb (String.eqb k) neverAsked = false ->
                    existsb (String.eqb k) dangerFields = true ->
                    truthy (st !! k) = false) as Hdanger.
  { intros k Hn Hk. destruct (st !! k) as [v|] eqn:E; [| reflexivity].
    specialize (H k v E). unfold fieldOK in H. rewrite Hn, Hk in H.
    now apply negb_true_iff. }
  assert (riskBand (result (buildTriageFromChat st))
          = riskBand (evaluateTriage (triageAnswers st))) as ->.
  { unfold buildTriageFromChat. now destruct (bool_decide _). }
  rewrite evaluateTriage_riskBand. unfold collectFlags, chatRedFlag.
  rewrite (complaintLower_orElse _ _ (triageAnswers_complaint st)).
  change (match st !! "complaint" with
          | Some (VStr s) => toLowerCase s
          | _ => ""
          end) with (complaintLower st).
  rewrite !triageAnswers_severity, !triageAnswers_age.
  rewrite !numGe_orElse_zero, !numGt_orElse_zero by lia.
  rewrite (Hnever "age") by reflexivity.
  rewrite !(triageAnswers_copied st "confusion"),
    !(triageAnswers_copied st "severeBleeding"),
    !(triageAnswers_copied st "shortnessOfBreath"),
    !(triageAnswers_copied st "radiatingPain"),
    !(triageAnswers_copied st "cardiacHistory"),
    !(triageAnswers_copied st "cyanosis"),
    !(triageAnswers_copied st "speakingDifficulty"),
    !(triageAnswers_copied st "vomitingBlood"),
    !(triageAnswers_copied st "rigidAbdomen"),
    !(triageAnswers_copied st "pregnancy"),
    !(triageAnswers_copied st "thunderclap"),
    !(triageAnswers_copied st "neckStiffness"),
    !(triageAnswers_copied st "visualDisturbance") by reflexivity.
  rewrite !(triageAnswers_not_copied st "bleeding") by reflexivity.
  rewrite (Hdanger "confusion"), (Hdanger "severeBleeding"),
    (Hdanger "thunderclap"), (Hdanger "vomitingBlood") by reflexivity.
  rewrite (Hnever "shortnessOfBreath"), (Hnever "cardiacHistory"),
    (Hnever "cyanosis"), (Hnever "speakingDifficulty"),
    (Hnever "rigidAbdomen") by reflexivity.
  cbn [truthy numGt toNumber andb]. rewrite andb_false_r.
  unfold pushIf.
  destruct (numGe (st !! "severity") 9),
    (streq (complaintLower st) "chest pain"),
    (truthy (st !! "radiatingPain")),
    (streq (complaintLower st) "shortness of breath"),
    (streq (complaintLower st) "abdominal pain"),
    (streq (complaintLower st) "headache"),
    (truthy (st !! "neckStiffness")),
    (truthy (st !! "visualDisturbance"));
    cbn [andb orb app]; try reflexivity;
    now destruct (numGe (st !! "severity") 6).
Qed.

Lemma chat_band_witness :
  riskBand (result (buildTriageFromChat
                      (state (runTurns initialSession chestPainIntake))))
  = Green.
Proof.
  apply (chat_band chestPainIntake). vm_compute; discriminate.
Defined.
